(** * Expense tracker backend: authentication sessions and owner-scoped
      transactions

    A shallow embedding of the Express handlers of [backend/server.js] and
    of the second server file of the repository (module [Part000]), over a
    small model of the MongoDB user collection.

    - request bodies and cookie jars are finite maps ([gmap]);
    - the user collection is a list of documents in natural order;
    - an [async] handler is a state-passing computation over the store that
      may throw; [try { } catch] is [try_catch];
    - [jsonwebtoken], [bcrypt], the schema of [./User] and [process.env]
      are interfaces;
    - the time of a request, the salt [bcrypt] draws and the ids the
      driver generates are arguments of the handlers. *)

From stdpp Require Import base option list strings gmap.
From Stdlib Require Import Ascii ZArith QArith.

Local Open Scope string_scope.
Local Open Scope Z_scope.

(** ** JavaScript values carried by JSON bodies *)

Inductive JsVal :=
| JUndefined
| JNull
| JBool (b : bool)
| JNum (q : Q)
| JStr (s : string).

(** [!!v] *)
Definition truthy (v : JsVal) : bool :=
  match v with
  | JUndefined | JNull => false
  | JBool b => b
  | JNum q => negb (Qeq_bool q 0)
  | JStr s => negb (bool_decide (s = ""))
  end.

(** [a || b] *)
Definition js_or (a b : JsVal) : JsVal := if truthy a then a else b.

(** [v == null] *)
Definition eq_null (v : JsVal) : bool :=
  match v with
  | JUndefined | JNull => true
  | _ => false
  end.

(** [s !== v] for a string [s] *)
Definition strict_ne (s : string) (v : JsVal) : bool :=
  match v with
  | JStr s' => negb (bool_decide (s = s'))
  | _ => true
  end.

(** A string-or-undefined value, as a cookie or a credential field is. *)
Definition truthy_str (v : option string) : bool :=
  match v with
  | Some s => negb (bool_decide (s = ""))
  | None => false
  end.

Definition str (v : option string) : string := default "" v.

(** [const { k } = req.body] *)
Definition field (body : gmap string JsVal) (k : string) : JsVal :=
  default JUndefined (body !! k).

(** ** Documents *)

(** Modelled from the spec: the Mongoose schema of [./User] is not part of
    the sources.  A transaction sub-document has a generated [_id] and the
    five fields the handlers assign.  What the store keeps of an assigned
    value is decided by the schema ([schema.cast] below). *)
Module Tx.
Record t := mk {
  _id : string;
  type : JsVal;
  category : JsVal;
  amount : JsVal;
  description : JsVal;
  date : JsVal
}.
End Tx.

(** Modelled from the spec: the user document of [./User]: unique
    [username], password hash, a nullable [refreshToken] and the ordered
    collection of transaction sub-documents. *)
Module User.
Record t := mk {
  _id : string;
  username : string;
  password : string;
  refreshToken : option string;
  transactions : list Tx.t
}.
End User.

(** The schema of [./User], taken as an interface.  Mongoose casts a value
    assigned to a path of a sub-document to the type of that path, and
    [save] rejects, with a validation error, a document holding a value
    that could not be cast or that a validator of the schema refuses.
    [cast t] is what is stored for the five assigned fields of [t], or
    the message of that error. *)
Module schema.
Class lib := {
  cast : Tx.t → string + Tx.t
}.
End schema.

(** The sub-document as stored: the [_id] is not a field the handlers
    assign, and is kept. *)
Definition stored `{!schema.lib} (t : Tx.t) : string + Tx.t :=
  match schema.cast t with
  | inl err => inl err
  | inr t' =>
      inr (Tx.mk (Tx._id t) (Tx.type t') (Tx.category t') (Tx.amount t')
                 (Tx.description t') (Tx.date t'))
  end.

(** ** The store and asynchronous computations *)

Inductive StoreOp :=
| OpFind
| OpInsert (id : string)
| OpSave (id : string).

(** [users] is the collection; [oplog] records, newest first, the
    operations issued against it. *)
Record Store := {
  users : list User.t;
  oplog : list StoreOp
}.

Inductive Outcome (A : Type) :=
| Value (a : A)
| Thrown (err : string).
Arguments Value {A} a.
Arguments Thrown {A} err.

Definition Async (A : Type) : Type := Store → Outcome A * Store.

#[export] Instance async_ret : MRet Async := λ A a st, (Value a, st).

#[export] Instance async_bind : MBind Async := λ A B k m st,
  match m st with
  | (Value a, st') => k a st'
  | (Thrown e, st') => (Thrown e, st')
  end.

Definition try_catch {A} (m : Async A) (handler : string → Async A) : Async A :=
  λ st,
    match m st with
    | (Value a, st') => (Value a, st')
    | (Thrown e, st') => handler e st'
    end.

Definition log (op : StoreOp) (st : Store) : Store :=
  {| users := users st; oplog := op :: oplog st |}.

(** Replace the first element satisfying [p]. *)
Fixpoint replace_first {A} (p : A → bool) (x : A) (l : list A) : list A :=
  match l with
  | [] => []
  | y :: l' => if p y then x :: l' else y :: replace_first p x l'
  end.

Definition by_id (id : string) (u : User.t) : bool :=
  bool_decide (User._id u = id).

Definition by_username (name : string) (u : User.t) : bool :=
  bool_decide (User.username u = name).

Definition by_refreshToken (tok : string) (u : User.t) : bool :=
  bool_decide (User.refreshToken u = Some tok).

(** [User.findOne(filter)] *)
Definition findOne (filter : User.t → bool) : Async (option User.t) :=
  λ st, (Value (find filter (users st)), log OpFind st).

(** [User.findById(id)] *)
Definition findById (id : string) : Async (option User.t) :=
  findOne (by_id id).

(** Modelled from the spec: the unique constraint on [username] of the
    [./User] schema.  [User.create({ username, password, transactions })]:
    [oid] is the [_id] the driver generated; the unique indexes on [_id]
    and [username] reject a duplicate key. *)
Definition create (oid username password : string) (txs : list Tx.t)
  : Async User.t :=
  λ st,
    if existsb (by_id oid) (users st) || existsb (by_username username) (users st)
    then (Thrown "E11000 duplicate key error", log (OpInsert oid) st)
    else
      let doc := User.mk oid username password None txs in
      (Value doc, {| users := (users st ++ [doc])%list;
                     oplog := OpInsert oid :: oplog st |}).

(** [doc.save()]: the stored document with the same [_id] is replaced. *)
Definition save (doc : User.t) : Async () :=
  λ st,
    (Value (),
     {| users := replace_first (by_id (User._id doc)) doc (users st);
        oplog := OpSave (User._id doc) :: oplog st |}).

(** [doc.refreshToken = v] *)
Definition set_refreshToken (v : option string) (u : User.t) : User.t :=
  User.mk (User._id u) (User.username u) (User.password u) v
          (User.transactions u).

Definition set_transactions (txs : list Tx.t) (u : User.t) : User.t :=
  User.mk (User._id u) (User.username u) (User.password u)
          (User.refreshToken u) txs.

Definition tx_by_id (tid : string) (t : Tx.t) : bool :=
  bool_decide (Tx._id t = tid).

(** [user.transactions.id(tid)] *)
Definition transactions_id (u : User.t) (tid : string) : option Tx.t :=
  find (tx_by_id tid) (User.transactions u).

(** The fields a handler assigns to a sub-document, as the following
    [save] takes them: cast by the schema, or rejected.  The handlers do
    nothing between the assignment and [save], so the rejection is raised
    here. *)
Definition assigned `{!schema.lib} (t : Tx.t) : Async Tx.t :=
  λ st,
    match stored t with
    | inl err => (Thrown err, st)
    | inr t' => (Value t', st)
    end.

(** [user.transactions.push({...})] *)
Definition transactions_push (t : Tx.t) (u : User.t) : User.t :=
  set_transactions (User.transactions u ++ [t])%list u.

(** Assignments to a sub-document obtained by [.id(tid)] are assignments
    to that element of the parent array. *)
Definition assign_transaction (tid : string) (t' : Tx.t) (u : User.t) : User.t :=
  set_transactions (replace_first (tx_by_id tid) t' (User.transactions u)) u.

(** [transaction.deleteOne()]: Mongoose pulls the sub-documents with the
    [_id] of [transaction] out of the parent array. *)
Definition transaction_deleteOne (t : Tx.t) (u : User.t) : User.t :=
  set_transactions
    (filter (λ t', Tx._id t' ≠ Tx._id t) (User.transactions u)) u.

(** ** Responses *)

Record CookieOptions := {
  httpOnly : bool;
  sameSite : string;
  secure : bool;
  maxAge : option Z
}.

Inductive CookieHeader :=
| SetCookie (name value : string) (opts : CookieOptions)
| ClearCookie (name : string) (opts : CookieOptions).

Inductive Payload :=
| NoBody
| Message (message : string)
| AccessToken (accessToken : string)
| Transactions (txs : list Tx.t)
| Error (error : string).

Record Response := {
  status : nat;
  body : Payload;
  cookie : option CookieHeader
}.

(** [res.sendStatus(n)] *)
Definition sendStatus (n : nat) : Response :=
  {| status := n; body := NoBody; cookie := None |}.

(** [res.status(n).json(p)] *)
Definition json (n : nat) (p : Payload) : Response :=
  {| status := n; body := p; cookie := None |}.

(** [res.cookie(...)] and [res.clearCookie(...)] before the body is sent *)
Definition with_cookie (c : CookieHeader) (r : Response) : Response :=
  {| status := status r; body := body r; cookie := Some c |}.

(** ** External interfaces *)

Module jwt.
(** [sign id secret expiresIn now] signs the payload [{ id }] at time
    [now]; [verify token secret now] is [None] when verification fails
    and otherwise the [id] field of the decoded payload. *)
Class lib := {
  sign : string → string → string → Z → string;
  verify : string → string → Z → option JsVal
}.
End jwt.

Module bcrypt.
Class lib := {
  hash : string → nat → string → string;
  compare : string → string → bool
}.
End bcrypt.

(** [process.env] *)
Record Env := {
  ACCESS_TOKEN_SECRET : string;
  REFRESH_TOKEN_SECRET : string
}.

(** [req.body] of [/register] and [/login]: each field is a JSON string
    or is absent. *)
Record Credentials := {
  user : option string;
  pwd : option string
}.

(** ** [backend/server.js] *)

Module Server.
Section Routes.
Context `{!jwt.lib} `{!bcrypt.lib} `{!schema.lib} (env : Env).

Definition cookieOptions : CookieOptions :=
  {| httpOnly := true; sameSite := "Lax"; secure := false;
     maxAge := Some (24 * 60 * 60 * 1000) |}.

Definition clearOptions : CookieOptions :=
  {| httpOnly := true; sameSite := "Lax"; secure := false; maxAge := None |}.

(** [POST /register]; [salt] is the salt [bcrypt.hash] draws and [oid]
    the [_id] generated for the new document. *)
Definition register (req : Credentials) (now : Z) (salt oid : string)
  : Async Response :=
  if negb (truthy_str (user req)) || negb (truthy_str (pwd req)) then
    mret (json 400 (Message "Username and password required"))
  else
    try_catch
      (duplicate ← findOne (by_username (str (user req)));
       match duplicate with
       | Some _ => mret (sendStatus 409)
       | None =>
           let hashedPwd := bcrypt.hash (str (pwd req)) 10 salt in
           newUser ← create oid (str (user req)) hashedPwd [];
           let accessToken :=
             jwt.sign (User._id newUser) (ACCESS_TOKEN_SECRET env) "15m" now in
           let refreshToken :=
             jwt.sign (User._id newUser) (REFRESH_TOKEN_SECRET env) "1d" now in
           let newUser := set_refreshToken (Some refreshToken) newUser in
           _ ← save newUser;
           mret (with_cookie (SetCookie "jwt" refreshToken cookieOptions)
                   (json 201 (AccessToken accessToken)))
       end)
      (λ err, mret (sendStatus 500)).

(** [POST /login] *)
Definition login (req : Credentials) (now : Z) : Async Response :=
  if negb (truthy_str (user req)) || negb (truthy_str (pwd req)) then
    mret (json 400 (Message "Username and password required"))
  else
    foundUser ← findOne (by_username (str (user req)));
    match foundUser with
    | None => mret (sendStatus 401)
    | Some foundUser =>
        if negb (bcrypt.compare (str (pwd req)) (User.password foundUser))
        then mret (sendStatus 401)
        else
          let accessToken :=
            jwt.sign (User._id foundUser) (ACCESS_TOKEN_SECRET env) "15m" now in
          let refreshToken :=
            jwt.sign (User._id foundUser) (REFRESH_TOKEN_SECRET env) "1d" now in
          let foundUser := set_refreshToken (Some refreshToken) foundUser in
          _ ← save foundUser;
          mret (with_cookie (SetCookie "jwt" refreshToken cookieOptions)
                  (json 200 (AccessToken accessToken)))
    end.

(** [POST /refresh]; [cookies] is [req.cookies]. *)
Definition refresh (cookies : option (gmap string string)) (now : Z)
  : Async Response :=
  let refreshToken := cookies ≫= (.!! "jwt") in
  if negb (truthy_str refreshToken) then mret (sendStatus 401)
  else
    let refreshToken := str refreshToken in
    foundUser ← findOne (by_refreshToken refreshToken);
    match foundUser with
    | None => mret (sendStatus 403)
    | Some foundUser =>
        match jwt.verify refreshToken (REFRESH_TOKEN_SECRET env) now with
        | None => mret (sendStatus 403)
        | Some decoded_id =>
            if strict_ne (User._id foundUser) decoded_id
            then mret (sendStatus 403)
            else
              let accessToken :=
                jwt.sign (User._id foundUser) (ACCESS_TOKEN_SECRET env)
                         "15m" now in
              mret (json 200 (AccessToken accessToken))
        end
    end.

(** [POST /logout] *)
Definition logout (cookies : option (gmap string string)) : Async Response :=
  let refreshToken := cookies ≫= (.!! "jwt") in
  if negb (truthy_str refreshToken) then mret (sendStatus 204)
  else
    let refreshToken := str refreshToken in
    foundUser ← findOne (by_refreshToken refreshToken);
    _ ← match foundUser with
        | Some foundUser => save (set_refreshToken None foundUser)
        | None => mret ()
        end;
    mret (with_cookie (ClearCookie "jwt" clearOptions) (sendStatus 204)).

(** [POST /auth/create]; [uid] is [req.user.id], [tid] the [_id]
    generated for the pushed sub-document. *)
Definition create_transaction (uid : string) (body : gmap string JsVal)
    (tid : string) : Async Response :=
  let type := field body "type" in
  let category := field body "category" in
  let amount := field body "amount" in
  let description := field body "description" in
  let date := field body "date" in
  try_catch
    (user ← findById uid;
     match user with
     | None => mret (sendStatus 404)
     | Some user =>
         transaction ←
           assigned (Tx.mk tid type category amount description date);
         let user := transactions_push transaction user in
         _ ← save user;
         mret (json 201 (Message "Transaction added"))
     end)
    (λ err, mret (json 500 (Error err))).

(** [GET /auth/transactions] *)
Definition list_transactions (uid : string) : Async Response :=
  try_catch
    (user ← findById uid;
     match user with
     | None => mret (sendStatus 404)
     | Some user => mret (json 200 (Transactions (User.transactions user)))
     end)
    (λ err, mret (json 500 (Error err))).

(** [PUT /auth/update/:tid]; [tid] is [req.params.tid]. *)
Definition update_transaction (uid tid : string) (body : gmap string JsVal)
  : Async Response :=
  let type := field body "type" in
  let category := field body "category" in
  let amount := field body "amount" in
  let description := field body "description" in
  let date := field body "date" in
  try_catch
    (user ← findById uid;
     match user with
     | None => mret (sendStatus 404)
     | Some user =>
         match transactions_id user tid with
         | None => mret (sendStatus 404)
         | Some transaction =>
             transaction ←
               assigned
                 (Tx.mk (Tx._id transaction) type category amount description
                        (js_or date (Tx.date transaction)));
             let user := assign_transaction tid transaction user in
             _ ← save user;
             mret (json 200 (Message "Transaction updated"))
         end
     end)
    (λ err, mret (json 500 (Error err))).

(** [DELETE /auth/delete/:tid] *)
Definition delete_transaction (uid tid : string) : Async Response :=
  try_catch
    (user ← findById uid;
     match user with
     | None => mret (sendStatus 404)
     | Some user =>
         match transactions_id user tid with
         | None => mret (sendStatus 404)
         | Some transaction =>
             let user := transaction_deleteOne transaction user in
             _ ← save user;
             mret (json 200 (Message "Transaction deleted"))
         end
     end)
    (λ err, mret (json 500 (Error err))).

End Routes.
End Server.

(** ** The second server file ([part_000]) *)

Module Part000.
Section Routes.
Context `{!jwt.lib} `{!bcrypt.lib} `{!schema.lib} (env : Env).

Definition cookieOptions : CookieOptions :=
  {| httpOnly := true; sameSite := "None"; secure := true;
     maxAge := Some (24 * 60 * 60 * 1000) |}.

Definition clearOptions : CookieOptions :=
  {| httpOnly := true; sameSite := "None"; secure := true; maxAge := None |}.

Definition register (req : Credentials) (now : Z) (salt oid : string)
  : Async Response :=
  if negb (truthy_str (user req)) || negb (truthy_str (pwd req)) then
    mret (json 400 (Message "Username and password are required."))
  else
    try_catch
      (duplicate ← findOne (by_username (str (user req)));
       match duplicate with
       | Some _ => mret (sendStatus 409)
       | None =>
           let hashedPwd := bcrypt.hash (str (pwd req)) 10 salt in
           newUser ← create oid (str (user req)) hashedPwd [];
           let accessToken :=
             jwt.sign (User._id newUser) (ACCESS_TOKEN_SECRET env) "30s" now in
           let refreshToken :=
             jwt.sign (User._id newUser) (REFRESH_TOKEN_SECRET env) "1d" now in
           let newUser := set_refreshToken (Some refreshToken) newUser in
           _ ← save newUser;
           mret (with_cookie (SetCookie "jwt" refreshToken cookieOptions)
                   (json 201 (AccessToken accessToken)))
       end)
      (λ err, mret (sendStatus 500)).

Definition login (req : Credentials) (now : Z) : Async Response :=
  if negb (truthy_str (user req)) || negb (truthy_str (pwd req)) then
    mret (json 400 (Message "Username and password are required."))
  else
    foundUser ← findOne (by_username (str (user req)));
    match foundUser with
    | None => mret (sendStatus 401)
    | Some foundUser =>
        if negb (bcrypt.compare (str (pwd req)) (User.password foundUser))
        then mret (sendStatus 401)
        else
          let accessToken :=
            jwt.sign (User._id foundUser) (ACCESS_TOKEN_SECRET env) "30s" now in
          let refreshToken :=
            jwt.sign (User._id foundUser) (REFRESH_TOKEN_SECRET env) "1d" now in
          let foundUser := set_refreshToken (Some refreshToken) foundUser in
          _ ← save foundUser;
          mret (with_cookie (SetCookie "jwt" refreshToken cookieOptions)
                  (json 200 (AccessToken accessToken)))
    end.

Definition refresh (cookies : option (gmap string string)) (now : Z)
  : Async Response :=
  if negb (truthy_str (cookies ≫= (.!! "jwt"))) then mret (sendStatus 401)
  else
    let refreshToken := str (cookies ≫= (.!! "jwt")) in
    try_catch
      (foundUser ← findOne (by_refreshToken refreshToken);
       match foundUser with
       | None => mret (sendStatus 403)
       | Some foundUser =>
           match jwt.verify refreshToken (REFRESH_TOKEN_SECRET env) now with
           | None => mret (sendStatus 403)
           | Some decoded_id =>
               if strict_ne (User._id foundUser) decoded_id
               then mret (sendStatus 403)
               else
                 let accessToken :=
                   jwt.sign (User._id foundUser) (ACCESS_TOKEN_SECRET env)
                            "30s" now in
                 mret (json 200 (AccessToken accessToken))
           end
       end)
      (λ err, mret (sendStatus 500)).

Definition logout (cookies : option (gmap string string)) : Async Response :=
  if negb (truthy_str (cookies ≫= (.!! "jwt"))) then mret (sendStatus 204)
  else
    let refreshToken := str (cookies ≫= (.!! "jwt")) in
    try_catch
      (foundUser ← findOne (by_refreshToken refreshToken);
       match foundUser with
       | None =>
           mret (with_cookie (ClearCookie "jwt" clearOptions) (sendStatus 204))
       | Some foundUser =>
           _ ← save (set_refreshToken None foundUser);
           mret (with_cookie (ClearCookie "jwt" clearOptions) (sendStatus 204))
       end)
      (λ err, mret (sendStatus 500)).

Definition create_transaction (uid : string) (body : gmap string JsVal)
    (tid : string) : Async Response :=
  try_catch
    (let type := field body "type" in
     let category := field body "category" in
     let amount := field body "amount" in
     let description := field body "description" in
     let date := field body "date" in
     user ← findById uid;
     match user with
     | None => mret (sendStatus 404)
     | Some user =>
         transaction ←
           assigned (Tx.mk tid type category amount description date);
         let user := transactions_push transaction user in
         _ ← save user;
         mret (json 201 (Message "Transaction added"))
     end)
    (λ err, mret (json 500 (Error err))).

Definition list_transactions (uid : string) : Async Response :=
  try_catch
    (user ← findById uid;
     match user with
     | None => mret (sendStatus 404)
     | Some user => mret (json 200 (Transactions (User.transactions user)))
     end)
    (λ err, mret (json 500 (Error err))).

Definition update_transaction (uid tid : string) (body : gmap string JsVal)
  : Async Response :=
  try_catch
    (let type := field body "type" in
     let category := field body "category" in
     let amount := field body "amount" in
     let description := field body "description" in
     let date := field body "date" in
     if negb (truthy type) || negb (truthy category) || eq_null amount then
       mret (json 400 (Message "Missing required fields"))
     else
       user ← findById uid;
       match user with
       | None => mret (sendStatus 404)
       | Some user =>
           match transactions_id user tid with
           | None => mret (sendStatus 404)
           | Some transaction =>
               transaction ←
                 assigned
                   (Tx.mk (Tx._id transaction) type category amount
                          description (js_or date (Tx.date transaction)));
               let user := assign_transaction tid transaction user in
               _ ← save user;
               mret (json 200 (Message "Transaction updated"))
           end
       end)
    (λ err, mret (json 500 (Error err))).

Definition delete_transaction (uid tid : string) : Async Response :=
  try_catch
    (user ← findById uid;
     match user with
     | None => mret (sendStatus 404)
     | Some user =>
         match transactions_id user tid with
         | None => mret (sendStatus 404)
         | Some transaction =>
             let user := transaction_deleteOne transaction user in
             _ ← save user;
             mret (json 200 (Message "Transaction deleted"))
         end
     end)
    (λ err, mret (json 500 (Error err))).

End Routes.
End Part000.

(** ** Assumptions on [jsonwebtoken] and invariants of the store *)

(** What the handlers rely on: a signed token is a non-empty string, a
    token that verifies under the secret it was signed with decodes to the
    signed [id], and tokens signed under one secret for different ids
    differ. *)
Class JwtLaws `{!jwt.lib} : Prop := {
  sign_nonempty : ∀ id s ttl t, jwt.sign id s ttl t ≠ "";
  verify_sign : ∀ id s ttl t now d,
    jwt.verify (jwt.sign id s ttl t) s now = Some d → d = JStr id;
  sign_inj : ∀ id1 id2 s ttl1 ttl2 t1 t2,
    jwt.sign id1 s ttl1 t1 = jwt.sign id2 s ttl2 t2 → id1 = id2
}.

(** Dates of the form [YYYY-MM-DD]. *)
Definition is_digit (a : ascii) : bool :=
  bool_decide (48 ≤ Z.of_N (N_of_ascii a) ≤ 57).

Definition iso_date (s : string) : bool :=
  match s with
  | String y1 (String y2 (String y3 (String y4 (String "-"
      (String m1 (String m2 (String "-"
         (String d1 (String d2 EmptyString))))))))) =>
      forallb is_digit [y1; y2; y3; y4; m1; m2; d1; d2]
  | _ => false
  end.

(** Modelled from the spec: the values §3 gives a transaction.  It has a
    kind ([income] or [expense]), a free-form category, an amount that is
    a non-negative number, an optional description and a calendar date
    kept as a [YYYY-MM-DD] string; [typed] are the records made of such
    values. *)
Definition typed (t : Tx.t) : bool :=
  match Tx.type t, Tx.category t, Tx.amount t, Tx.date t with
  | JStr kind, JStr _, JNum amount, JStr date =>
      (bool_decide (kind = "income") || bool_decide (kind = "expense"))
      && Qle_bool 0 amount
      && match Tx.description t with
         | JUndefined | JStr _ => true
         | _ => false
         end
      && iso_date date
  | _, _, _, _ => false
  end.

(** What a text path and a number path of a Mongoose document hold. *)
Definition textual (v : JsVal) : bool :=
  match v with
  | JStr _ | JNull | JUndefined => true
  | _ => false
  end.

Definition numeric (v : JsVal) : bool :=
  match v with
  | JNum _ | JNull | JUndefined => true
  | _ => false
  end.

Definition well_typed (t : Tx.t) : bool :=
  textual (Tx.type t) && textual (Tx.category t) && numeric (Tx.amount t)
  && textual (Tx.description t) && textual (Tx.date t).

(** Modelled from the spec: what §3 says of the schema.  The store keeps
    typed values as they are, and whatever it keeps is of the type of its
    path: text under [type], [category], [description] and [date], a
    number under [amount]. *)
Class SchemaLaws `{!schema.lib} : Prop := {
  cast_typed : ∀ t, typed t = true → schema.cast t = inr t;
  cast_well_typed : ∀ t t', schema.cast t = inr t' → well_typed t' = true
}.

Definition user_ids (l : list User.t) : list string := map User._id l.

Definition tx_ids (u : User.t) : list string := map Tx._id (User.transactions u).

(** Every stored refresh token was signed by [/register] or [/login] for
    the user that holds it. *)
Definition tokens_issued `{!jwt.lib} (env : Env) (l : list User.t) : Prop :=
  ∀ u c, u ∈ l → User.refreshToken u = Some c →
    ∃ t, c = jwt.sign (User._id u) (REFRESH_TOKEN_SECRET env) "1d" t.

(** The invariant of the collection: [_id] is a key and refresh tokens are
    the issued ones.  It holds in every reachable state
    ([reachable_invariant]). *)
Definition store_ok `{!jwt.lib} (env : Env) (l : list User.t) : Prop :=
  NoDup (user_ids l) ∧ tokens_issued env l.

(** Generated sub-document ids are unique in the whole collection; this
    too holds in every reachable state. *)
Definition tx_ids_unique (l : list User.t) : Prop :=
  NoDup (l ≫= tx_ids).

(** The keys a transaction handler destructures from [req.body]. *)
Definition tx_keys : list string :=
  ["type"; "category"; "amount"; "description"; "date"].

(** The cookie jar of a request that carries [jwt=c]. *)
Definition carries (cookies : option (gmap string string)) (c : string) : Prop :=
  cookies ≫= (.!! "jwt") = Some c.

(** ** A sample implementation of the interfaces

    Tokens are written as the expiry time in binary, the secret and the id;
    it satisfies [JwtLaws] and lets the handlers run on concrete requests. *)

Module Sample.

Fixpoint enc_pos (p : positive) : string :=
  match p with
  | xI p => String "1"%char (enc_pos p)
  | xO p => String "0"%char (enc_pos p)
  | xH => "."
  end.

Fixpoint dec_pos (s : string) : option (positive * string) :=
  match s with
  | String "1"%char r =>
      match dec_pos r with Some (p, r') => Some (xI p, r') | None => None end
  | String "0"%char r =>
      match dec_pos r with Some (p, r') => Some (xO p, r') | None => None end
  | String "."%char r => Some (xH, r)
  | _ => None
  end.

Fixpoint strip_prefix (p s : string) : option string :=
  match p, s with
  | EmptyString, _ => Some s
  | String a p', String b s' =>
      if bool_decide (a = b) then strip_prefix p' s' else None
  | String _ _, EmptyString => None
  end.

Definition seconds (ttl : string) : Z :=
  if bool_decide (ttl = "30s") then 30
  else if bool_decide (ttl = "15m") then 900
  else if bool_decide (ttl = "1d") then 86400
  else 0.

Definition sign (id secret ttl : string) (now : Z) : string :=
  enc_pos (Z.to_pos (now + seconds ttl)) +:+ secret +:+ id.

Definition verify (token secret : string) (now : Z) : option JsVal :=
  match dec_pos token with
  | Some (exp, rest) =>
      match strip_prefix secret rest with
      | Some id => if bool_decide (now < Z.pos exp) then Some (JStr id) else None
      | None => None
      end
  | None => None
  end.

#[export] Instance jwt_lib : jwt.lib :=
  {| jwt.sign := sign; jwt.verify := verify |}.

#[export] Instance bcrypt_lib : bcrypt.lib := {|
  bcrypt.hash pwd rounds salt := salt +:+ "$" +:+ pwd;
  bcrypt.compare pwd h :=
    match String.index 0 "$" h with
    | Some n =>
        bool_decide
          (String.substring (S n) (String.length h - S n) h = pwd)
    | None => false
    end
|}.

Definition env : Env :=
  {| ACCESS_TOKEN_SECRET := "a-secret"; REFRESH_TOKEN_SECRET := "r-secret" |}.

(** A sample schema without validators.  The text paths take text, null
    and undefined only, as with casting switched off on them.  The number
    path keeps numbers, null and undefined, and casts as Mongoose does: a
    string to the number it writes, the empty string to null, a boolean
    to 1 or 0.  Of the strings [Number] accepts, [decimal] reads the
    decimal literals (sign, digits, fraction, exponent) within the range
    of the numbers; any other string is rejected. *)
Definition digit (a : ascii) : option Z :=
  if is_digit a then Some (Z.of_N (N_of_ascii a) - 48) else None.

(** The digits [s] starts with, appended to [acc]; their number; the
    rest. *)
Fixpoint digits (s : string) (acc : Z) (n : nat) : Z * nat * string :=
  match s with
  | String a r =>
      match digit a with
      | Some d => digits r (10 * acc + d) (S n)
      | None => (acc, n, s)
      end
  | EmptyString => (acc, n, s)
  end.

Definition pow10 (n : nat) : positive := Pos.of_nat (10 ^ n).

Definition exponent (s : string) : option Z :=
  let '(sign, s) :=
    match s with
    | String "-" r => (-1, r)
    | String "+" r => (1, r)
    | _ => (1, s)
    end in
  match digits s 0 0 with
  | (_, O, _) => None
  | (e, _, EmptyString) => Some (sign * e)
  | _ => None
  end.

Definition unsigned (s : string) : option Q :=
  let '(i, n, r) := digits s 0 0 in
  let '(m, k, r) :=
    match r with
    | String "." r' => digits r' i 0
    | _ => (i, O, r)
    end in
  if bool_decide (n + k = 0)%nat then None
  else
    match r with
    | EmptyString => Some (Qred (m # pow10 k))
    | String c r' =>
        if bool_decide (c = "e"%char) || bool_decide (c = "E"%char) then
          match exponent r' with
          | Some e =>
              if bool_decide (0 ≤ e)
              then Some (Qred (m * Z.pos (pow10 (Z.to_nat e)) # pow10 k))
              else Some (Qred (m # pow10 (k + Z.to_nat (- e))))
          | None => None
          end
        else None
    end.

Definition decimal (s : string) : option Q :=
  match s with
  | String "-" r => Qopp <$> unsigned r
  | String "+" r => unsigned r
  | _ => unsigned s
  end.

Definition cast_string (v : JsVal) : option JsVal :=
  if textual v then Some v else None.

Definition cast_number (v : JsVal) : option JsVal :=
  match v with
  | JNum _ | JNull | JUndefined => Some v
  | JStr s => if bool_decide (s = "") then Some JNull else JNum <$> decimal s
  | JBool b => Some (JNum (if b then 1 # 1 else 0 # 1))
  end.

#[export] Instance schema_lib : schema.lib := {|
  schema.cast t :=
    match cast_string (Tx.type t), cast_string (Tx.category t),
          cast_number (Tx.amount t), cast_string (Tx.description t),
          cast_string (Tx.date t) with
    | Some type, Some category, Some amount, Some description, Some date =>
        inr (Tx.mk (Tx._id t) type category amount description date)
    | _, _, _, _, _ => inl "User validation failed"
    end
|}.

Definition lunch : gmap string JsVal :=
  {[ "type" := JStr "expense"; "category" := JStr "Food";
     "amount" := JNum (25 # 2); "description" := JStr "lunch";
     "date" := JStr "2024-03-01" ]}.

Definition alice : User.t :=
  User.mk "a1" "alice" "s$pw" (Some (sign "a1" "r-secret" "1d" 5))
    [Tx.mk "t1" (JStr "expense") (JStr "Food") (JNum (25 # 2)) (JStr "lunch")
           (JStr "2024-03-01")].

Definition bob : User.t :=
  User.mk "b2" "bob" "s$hunter2" None
    [Tx.mk "t2" (JStr "income") (JStr "Salary") (JNum (1000 # 1)) JUndefined
           (JStr "2024-03-02")].

Definition store0 : Store := {| users := [alice; bob]; oplog := [] |}.

Definition jar (c : string) : option (gmap string string) :=
  Some {[ "jwt" := c ]}.

(** The cookie [/login] handed to alice at time 5. *)
Definition cookie5 : string := sign "a1" "r-secret" "1d" 5.

(** The body of an update that empties the description and omits the
    date. *)
Definition relabel : gmap string JsVal :=
  {[ "type" := JStr "expense"; "category" := JStr "Dining";
     "amount" := JNum (14 # 1); "description" := JStr "" ]}.

End Sample.

(** ** The two server files side by side *)

Inductive ServerFile := ServerJs | Part000Js.

Section Dispatch.
Context `{!jwt.lib} `{!bcrypt.lib} `{!schema.lib} (env : Env).

(** The expiry each file gives its access tokens. *)
Definition access_ttl (f : ServerFile) : string :=
  match f with ServerJs => "15m" | Part000Js => "30s" end.

Definition register_of (f : ServerFile) :=
  match f with
  | ServerJs => Server.register env
  | Part000Js => Part000.register env
  end.

Definition login_of (f : ServerFile) :=
  match f with
  | ServerJs => Server.login env
  | Part000Js => Part000.login env
  end.

Definition refresh_of (f : ServerFile) :=
  match f with
  | ServerJs => Server.refresh env
  | Part000Js => Part000.refresh env
  end.

Definition logout_of (f : ServerFile) :=
  match f with
  | ServerJs => Server.logout
  | Part000Js => Part000.logout
  end.

Definition create_of (f : ServerFile) :=
  match f with
  | ServerJs => Server.create_transaction
  | Part000Js => Part000.create_transaction
  end.

Definition list_of (f : ServerFile) :=
  match f with
  | ServerJs => Server.list_transactions
  | Part000Js => Part000.list_transactions
  end.

Definition update_of (f : ServerFile) :=
  match f with
  | ServerJs => Server.update_transaction
  | Part000Js => Part000.update_transaction
  end.

Definition delete_of (f : ServerFile) :=
  match f with
  | ServerJs => Server.delete_transaction
  | Part000Js => Part000.delete_transaction
  end.

(** The required-field check of a [PUT /auth/update/:tid] body:
    [part_000] rejects a falsy [type] or [category] and a [null] or
    missing [amount]; [server.js] has no such check. *)
Definition update_accepts (f : ServerFile) (body : gmap string JsVal) : bool :=
  match f with
  | ServerJs => true
  | Part000Js =>
      negb (negb (truthy (field body "type"))
            || negb (truthy (field body "category"))
            || eq_null (field body "amount"))
  end.

(** One request served by file [f].  The [_id] a create pushes is
    generated, hence unused in the collection. *)
Inductive step (f : ServerFile) : Store → Store → Prop :=
| step_register req now salt oid st o st' :
    register_of f req now salt oid st = (o, st') → step f st st'
| step_login req now st o st' :
    login_of f req now st = (o, st') → step f st st'
| step_refresh cookies now st o st' :
    refresh_of f cookies now st = (o, st') → step f st st'
| step_logout cookies st o st' :
    logout_of f cookies st = (o, st') → step f st st'
| step_create uid body tid st o st' :
    tid ∉ users st ≫= tx_ids →
    create_of f uid body tid st = (o, st') → step f st st'
| step_list uid st o st' :
    list_of f uid st = (o, st') → step f st st'
| step_update uid tid body st o st' :
    update_of f uid tid body st = (o, st') → step f st st'
| step_delete uid tid st o st' :
    delete_of f uid tid st = (o, st') → step f st st'.


End Dispatch.

(** The fields [POST /auth/create] assigns to the pushed sub-document. *)
Definition pushed (tid : string) (body : gmap string JsVal) : Tx.t :=
  Tx.mk tid (field body "type") (field body "category")
        (field body "amount") (field body "description") (field body "date").

(** The fields an update assigns: every field is the supplied one, except
    that a falsy [date] keeps the stored date. *)
Definition updated (body : gmap string JsVal) (t : Tx.t) : Tx.t :=
  Tx.mk (Tx._id t) (field body "type") (field body "category")
        (field body "amount") (field body "description")
        (if truthy (field body "date") then field body "date" else Tx.date t).

(** ** Per-file constants of the credential routes *)

(** The message of the 400 answer of [/register] and [/login]. *)
Definition credentials_message (f : ServerFile) : string :=
  match f with
  | ServerJs => "Username and password required"
  | Part000Js => "Username and password are required."
  end.

Definition cookie_options_of (f : ServerFile) : CookieOptions :=
  match f with
  | ServerJs => Server.cookieOptions
  | Part000Js => Part000.cookieOptions
  end.

(** What identifies a user and lets them log in. *)
Definition credentials_of (u : User.t) : string * string * string :=
  (User._id u, User.username u, User.password u).

(** ** The protected routes of [backend/server.js] *)

Module middleware.
(** [./middleware] is not part of the sources.  [verifyJWT authorization
    now] is either the response the guard ends the request with or the
    [req.user.id] it attaches. *)
Class lib := {
  verifyJWT : option string → Z → Response + string
}.
End middleware.

Module App.
Section Routes.
Context `{!jwt.lib} `{!bcrypt.lib} `{!schema.lib} `{!middleware.lib}
  (env : Env).

(** [app.METHOD(path, verifyJWT, handler)] *)
Definition guarded (authorization : option string) (now : Z)
    (handler : string → Async Response) : Async Response :=
  match middleware.verifyJWT authorization now with
  | inl r => mret r
  | inr uid => handler uid
  end.

(** [POST /auth/create] *)
Definition post_create authorization now body tid : Async Response :=
  guarded authorization now (λ uid, Server.create_transaction uid body tid).

(** [GET /auth/transactions] *)
Definition get_transactions authorization now : Async Response :=
  guarded authorization now Server.list_transactions.

(** [PUT /auth/update/:tid] *)
Definition put_update authorization now tid body : Async Response :=
  guarded authorization now (λ uid, Server.update_transaction uid tid body).

(** [DELETE /auth/delete/:tid] *)
Definition delete_delete authorization now tid : Async Response :=
  guarded authorization now (λ uid, Server.delete_transaction uid tid).

End Routes.
End App.

(** The guard answers a request it ends without a cookie header. *)
Definition guard_sets_no_cookie `{!middleware.lib} : Prop :=
  ∀ header now res, middleware.verifyJWT header now = inl res → cookie res = None.

(** ** The component [frontend/src/components/BudgetTracker.jsx]

    The page talks to [backend/server.js] (port 5000) with credentials:
    the browser keeps the cookies the server sets and sends them back.
    A request resolves on a 2xx answer and throws otherwise. *)

Module UI.

Record AuthForm := {
  username : string;
  password : string;
  isLogin : bool
}.

(** The state of the page: [localStorage] and the cookie jar of the
    browser, the React state the handlers below use, and the alerts and
    console errors raised so far (newest first).  Of [localStorage] the
    handlers below use the keys [accessToken] and [currentUser]. *)
Record Page := {
  localStorage : gmap string string;
  jar : gmap string string;
  currentUser : option string;
  transactions : Payload;
  authForm : AuthForm;
  formData : gmap string JsVal;
  editingTransaction : option Tx.t;
  showAddModal : bool;
  alerts : list string;
  console : list string
}.

Definition setStorage (v : gmap string string) (p : Page) : Page :=
  let 'Build_Page _ b c d e f g h i j := p in Build_Page v b c d e f g h i j.

Definition setJar (v : gmap string string) (p : Page) : Page :=
  let 'Build_Page a _ c d e f g h i j := p in Build_Page a v c d e f g h i j.

Definition setCurrentUser (v : option string) (p : Page) : Page :=
  let 'Build_Page a b _ d e f g h i j := p in Build_Page a b v d e f g h i j.

Definition setTransactions (v : Payload) (p : Page) : Page :=
  let 'Build_Page a b c _ e f g h i j := p in Build_Page a b c v e f g h i j.

Definition setAuthForm (v : AuthForm) (p : Page) : Page :=
  let 'Build_Page a b c d _ f g h i j := p in Build_Page a b c d v f g h i j.

Definition setEditingTransaction (v : option Tx.t) (p : Page) : Page :=
  let 'Build_Page a b c d e f _ h i j := p in Build_Page a b c d e f v h i j.

Definition setShowAddModal (v : bool) (p : Page) : Page :=
  let 'Build_Page a b c d e f g _ i j := p in Build_Page a b c d e f g v i j.

(** [alert(msg)] *)
Definition alert (msg : string) (p : Page) : Page :=
  let 'Build_Page a b c d e f g h i j := p in
  Build_Page a b c d e f g h (msg :: i) j.

(** [console.error(msg)] *)
Definition console_error (msg : string) (p : Page) : Page :=
  let 'Build_Page a b c d e f g h i j := p in
  Build_Page a b c d e f g h i (msg :: j).

(** [localStorage.setItem(k, v)] and [localStorage.removeItem(k)] *)
Definition setItem (k v : string) (p : Page) : Page :=
  setStorage (<[k := v]> (localStorage p)) p.

Definition removeItem (k : string) (p : Page) : Page :=
  setStorage (delete k (localStorage p)) p.

(** The browser applies the cookie header of a response. *)
Definition keep_cookie (h : option CookieHeader) (p : Page) : Page :=
  match h with
  | Some (SetCookie name value _) => setJar (<[name := value]> (jar p)) p
  | Some (ClearCookie name _) => setJar (delete name (jar p)) p
  | None => p
  end.

(** The request interceptor: [Authorization: Bearer <token>] when
    [localStorage] holds a non-empty access token. *)
Definition authorization (p : Page) : option string :=
  match localStorage p !! "accessToken" with
  | Some token =>
      if bool_decide (token = "") then None else Some ("Bearer " +:+ token)
  | None => None
  end.

(** What [await API.method(...)] gives: the response, or a throw.  A
    request resolves on a 2xx answer; any other answer, and a request the
    server leaves unanswered because its handler threw, is a throw on the
    page.  The browser applies the cookie header of every answer. *)
Inductive Reply :=
| Resolved (res : Response)
| Rejected.

Definition send (route : Async Response) (p : Page) (srv : Store)
  : Reply * Page * Store :=
  match route srv with
  | (Value res, srv') =>
      (if bool_decide (200 ≤ status res < 300)%nat then Resolved res
       else Rejected,
       keep_cookie (cookie res) p, srv')
  | (Thrown _, srv') => (Rejected, p, srv')
  end.

(** [res.data.accessToken], as [localStorage.setItem] stores it. *)
Definition accessToken_item (data : Payload) : string :=
  match data with
  | AccessToken token => token
  | _ => "undefined"
  end.

(** The body [handleAuth] posts. *)
Definition credentials_sent (form : AuthForm) : Credentials :=
  {| user := Some (username form); pwd := Some (password form) |}.

Section Handlers.
Context `{!jwt.lib} `{!bcrypt.lib} `{!schema.lib} `{!middleware.lib}
  (env : Env).

(** [fetchTransactions] *)
Definition fetchTransactions (now : Z) (p : Page) (srv : Store)
  : Page * Store :=
  match send (App.get_transactions (authorization p) now) p srv with
  | (Resolved res, p, srv) => (setTransactions (body res) p, srv)
  | (Rejected, p, srv) =>
      (console_error "Failed to fetch transactions" p, srv)
  end.

(** [handleAuth]; [salt] and [oid] are what a registration draws on the
    server.  The closing [fetchTransactions()] is not awaited; no other
    event is taken to come in before its answer, at time [now']. *)
Definition handleAuth (now now' : Z) (salt oid : string) (p : Page)
    (srv : Store)
  : Page * Store :=
  let form := authForm p in
  if bool_decide (username form = "") || bool_decide (password form = "")
  then (alert "Fill all fields" p, srv)
  else
    let route :=
      if isLogin form then Server.login env (credentials_sent form) now
      else Server.register env (credentials_sent form) now salt oid in
    match send route p srv with
    | (Resolved res, p, srv) =>
        let p := setItem "accessToken" (accessToken_item (body res)) p in
        let p := setItem "currentUser" (username form) p in
        let p := setCurrentUser (Some (username form)) p in
        let p := setAuthForm
                   {| username := ""; password := ""; isLogin := true |} p in
        fetchTransactions now' p srv
    | (Rejected, p, srv) => (alert "Authentication failed" p, srv)
    end.

(** [handleLogout] *)
Definition handleLogout (p : Page) (srv : Store) : Page * Store :=
  let '(_, p, srv) := send (Server.logout (Some (jar p))) p srv in
  let p := removeItem "accessToken" p in
  let p := setCurrentUser None p in
  let p := setTransactions (Transactions []) p in
  (p, srv).

(** [handleSubmit]; [tid] is the [_id] a create generates. *)
Definition handleSubmit (now now' : Z) (tid : string) (p : Page)
    (srv : Store)
  : Page * Store :=
  let route :=
    match editingTransaction p with
    | Some t =>
        App.put_update (authorization p) now (Tx._id t)
          (formData p)
    | None =>
        App.post_create (authorization p) now (formData p) tid
    end in
  match send route p srv with
  | (Resolved _, p, srv) =>
      let '(p, srv) := fetchTransactions now' p srv in
      let p := setShowAddModal false p in
      let p := setEditingTransaction None p in
      (p, srv)
  | (Rejected, p, srv) => (alert "Failed to save transaction" p, srv)
  end.

(** [deleteTransaction(id)] *)
Definition deleteTransaction (now now' : Z) (id : string) (p : Page)
    (srv : Store) : Page * Store :=
  match send (App.delete_delete (authorization p) now id) p srv with
  | (Resolved _, p, srv) => fetchTransactions now' p srv
  | (Rejected, p, srv) => (alert "Delete failed" p, srv)
  end.

(** The effect that runs when the component mounts. *)
Definition on_mount (now : Z) (p : Page) (srv : Store) : Page * Store :=
  match localStorage p !! "currentUser" with
  | Some savedUser =>
      if bool_decide (savedUser = "") then (p, srv)
      else fetchTransactions now (setCurrentUser (Some savedUser) p) srv
  | None => (p, srv)
  end.

End Handlers.

(** A page load: the browser keeps [localStorage] and the cookies, the
    React state starts from its initial values; [today] is the date the
    form starts with. *)
Definition load (today : string) (p : Page) : Page :=
  {| localStorage := localStorage p;
     jar := jar p;
     currentUser := None;
     transactions := Transactions [];
     authForm := {| username := ""; password := ""; isLogin := true |};
     formData := {[ "type" := JStr "expense"; "amount" := JStr "";
                    "category" := JStr ""; "description" := JStr "";
                    "date" := JStr today ]};
     editingTransaction := None;
     showAddModal := false;
     alerts := alerts p;
     console := console p |}.

(** [exportToCSV].  [includes] is [String.prototype.includes] for a
    one-character pattern and [replace_quotes] the [cell.replace] call
    that doubles every quote character; [csv_cell] is the function mapped
    over the cells of a row. *)
Definition quote : ascii := "034"%char.

Fixpoint includes (c : ascii) (s : string) : bool :=
  match s with
  | EmptyString => false
  | String a s' => bool_decide (a = c) || includes c s'
  end.

Fixpoint replace_quotes (s : string) : string :=
  match s with
  | EmptyString => EmptyString
  | String a s' =>
      if bool_decide (a = quote)
      then String quote (String quote (replace_quotes s'))
      else String a (replace_quotes s')
  end.

Definition csv_cell (cell : JsVal) : JsVal :=
  match cell with
  | JStr s =>
      if includes ","%char s || includes quote s
      then JStr (String quote (replace_quotes s +:+ String quote EmptyString))
      else cell
  | _ => cell
  end.

Section Csv.
(** The text JavaScript writes for a number is not modelled: [show] is
    what [String(n)] gives. *)
Variable show : Q → string.

(** What [Array.prototype.join] writes for an element: nothing for
    [undefined] and [null], and otherwise its string conversion. *)
Definition element_text (v : JsVal) : string :=
  match v with
  | JUndefined | JNull => ""
  | JBool b => if b then "true" else "false"
  | JNum q => show q
  | JStr s => s
  end.

(** The text of one cell in the exported line. *)
Definition cell_text (cell : JsVal) : string :=
  element_text (csv_cell cell).

(** [row.map(...).join(',')] for the row of [t]. *)
Definition csv_row (t : Tx.t) : string :=
  String.concat ","
    (map cell_text
       [Tx.date t; Tx.type t; Tx.category t; Tx.amount t;
        js_or (Tx.description t) (JStr "")]).

(** The text of the exported file for the visible transactions. *)
Definition csv (visibleTransactions : list Tx.t) : string :=
  String.concat (String "010"%char EmptyString)
    (String.concat "," ["Date"; "Type"; "Category"; "Amount"; "Description"]
       :: map csv_row visibleTransactions).

End Csv.

End UI.

(** Modelled from the spec: a guard for the sample, since [./middleware]
    is not part of the sources.  No bearer token is answered 401, a token
    that does not verify under the access secret 403; otherwise the
    request goes on with the decoded id. *)
Module SamplePage.

#[export] Instance guard : middleware.lib := {|
  middleware.verifyJWT header now :=
    match header with
    | None => inl (sendStatus 401)
    | Some h =>
        match Sample.strip_prefix "Bearer " h with
        | Some token =>
            match Sample.verify token (ACCESS_TOKEN_SECRET Sample.env) now with
            | Some (JStr id) => inr id
            | _ => inl (sendStatus 403)
            end
        | None => inl (sendStatus 401)
        end
    end
|}.

(** The page as first loaded, with the form filled in by [name] and
    [password]. *)
Definition visitor (name password : string) (isLogin : bool) : UI.Page :=
  UI.setAuthForm
    {| UI.username := name; UI.password := password; UI.isLogin := isLogin |}
    (UI.load "2024-03-01"
       {| UI.localStorage := ∅; UI.jar := ∅; UI.currentUser := None;
          UI.transactions := Transactions [];
          UI.authForm := {| UI.username := ""; UI.password := "";
                            UI.isLogin := true |};
          UI.formData := ∅; UI.editingTransaction := None;
          UI.showAddModal := false; UI.alerts := []; UI.console := [] |}).

(** Alice's page after she logged in at time 5, the add form holding
    [form]. *)
Definition alice_page (form : gmap string JsVal) (editing : option Tx.t)
  : UI.Page :=
  {| UI.localStorage := {[ "accessToken" := Sample.sign "a1" "a-secret" "15m" 5;
                           "currentUser" := "alice" ]};
     UI.jar := {[ "jwt" := Sample.cookie5 ]};
     UI.currentUser := Some "alice";
     UI.transactions := Transactions (User.transactions Sample.alice);
     UI.authForm := {| UI.username := ""; UI.password := "";
                       UI.isLogin := true |};
     UI.formData := form;
     UI.editingTransaction := editing;
     UI.showAddModal := true;
     UI.alerts := [];
     UI.console := [] |}.

(** The form as the inputs leave it: every field is the text of its
    input, the amount included. *)
Definition lunch_form : gmap string JsVal :=
  {[ "type" := JStr "expense"; "category" := JStr "Food";
     "amount" := JStr "12.5"; "description" := JStr "lunch";
     "date" := JStr "2024-03-01" ]}.

(** The edit form with the description and the date cleared. *)
Definition relabel_form : gmap string JsVal :=
  {[ "type" := JStr "expense"; "category" := JStr "Dining";
     "amount" := JStr "14"; "description" := JStr ""; "date" := JStr "" ]}.

(** A form whose amount is no number. *)
Definition broken_form : gmap string JsVal :=
  {[ "type" := JStr "expense"; "category" := JStr "Food";
     "amount" := JStr "a lot"; "description" := JStr "lunch";
     "date" := JStr "2024-03-01" ]}.

End SamplePage.

(** ** Basic facts *)

Ltac run :=
  unfold try_catch, findById, findOne, save, create, log,
    mbind, mret, async_bind, async_ret; simpl.

Lemma truthy_str_true (v : option string) :
  truthy_str v = true ↔ ∃ c, v = Some c ∧ c ≠ "".
Proof.
  destruct v as [c|]; simpl.
  - rewrite negb_true_iff, bool_decide_eq_false. split.
    + intros Hne. by exists c.
    + by intros (c' & [= <-] & Hne).
  - split; [done|]. by intros (c & ? & _).
Qed.

Lemma truthy_str_false (v : option string) :
  truthy_str v = false ↔ v = None ∨ v = Some "".
Proof.
  destruct v as [c|]; simpl.
  - rewrite negb_false_iff, bool_decide_eq_true. split.
    + intros ->. by right.
    + by intros [|[= ->]].
  - split; [by left | done].
Qed.

Lemma find_elem_of {A} (p : A → bool) (l : list A) (x : A) :
  find p l = Some x → x ∈ l ∧ p x = true.
Proof.
  intros Hf. apply find_some in Hf as [Hin Hp].
  split; [by apply list_elem_of_In | done].
Qed.

Lemma find_none_elem_of {A} (p : A → bool) (l : list A) :
  find p l = None ↔ ∀ x, x ∈ l → p x = false.
Proof.
  split.
  - intros Hf x Hx. apply (find_none _ _ Hf). by apply list_elem_of_In.
  - intros Hall. induction l as [|y l IH]; [done|]. simpl.
    rewrite (Hall y) by left. apply IH. intros x Hx. apply Hall. by right.
Qed.

Lemma find_is_some {A} (p : A → bool) (l : list A) (x : A) :
  x ∈ l → p x = true → ∃ y, find p l = Some y.
Proof.
  intros Hin Hp. destruct (find p l) as [y|] eqn:Hf; [by exists y|].
  rewrite find_none_elem_of in Hf. rewrite (Hf x Hin) in Hp. done.
Qed.

Lemma replace_first_app_new {A} (p : A → bool) (x d : A) (l : list A) :
  existsb p l = false → p d = true →
  replace_first p x (l ++ [d])%list = (l ++ [x])%list.
Proof.
  intros Hl Hd. induction l as [|y l IH]; simpl in *; [by rewrite Hd|].
  apply orb_false_iff in Hl as [-> Hl]. by rewrite IH.
Qed.

Lemma existsb_false_elem_of {A} (p : A → bool) (l : list A) :
  existsb p l = false ↔ ∀ x, x ∈ l → p x = false.
Proof.
  induction l as [|y l IH]; simpl.
  - split; [by intros _ x ?%elem_of_nil | done].
  - rewrite orb_false_iff, IH. setoid_rewrite elem_of_cons. split.
    + intros [Hy Hl] x [->|Hx]; auto.
    + intros Hall. split; [|intros x Hx]; apply Hall; auto.
Qed.

Lemma by_refreshToken_true c u :
  by_refreshToken c u = true ↔ User.refreshToken u = Some c.
Proof. unfold by_refreshToken. apply bool_decide_eq_true. Qed.

Lemma by_id_true i u : by_id i u = true ↔ User._id u = i.
Proof. unfold by_id. apply bool_decide_eq_true. Qed.

Lemma by_id_false i u : by_id i u = false ↔ User._id u ≠ i.
Proof. unfold by_id. apply bool_decide_eq_false. Qed.

Lemma tx_by_id_true i t : tx_by_id i t = true ↔ Tx._id t = i.
Proof. unfold tx_by_id. apply bool_decide_eq_true. Qed.

Lemma strict_ne_false s d : strict_ne s d = false ↔ d = JStr s.
Proof.
  destruct d; simpl; try (split; [done | discriminate]).
  rewrite negb_false_iff, bool_decide_eq_true.
  split; [by intros -> | by intros [= ->]].
Qed.

(** *** Replacing a document *)

Lemma replace_first_elem_of {A} (p : A → bool) (x z : A) (l : list A) :
  z ∈ replace_first p x l → z = x ∨ z ∈ l.
Proof.
  induction l as [|y l IH]; simpl; [by right|].
  destruct (p y).
  - rewrite !elem_of_cons. intros [->|?]; auto.
  - rewrite !elem_of_cons. intros [->|?]; [auto|]. destruct IH; auto.
Qed.

Lemma replace_first_none {A} (p : A → bool) (x : A) (l : list A) :
  find p l = None → replace_first p x l = l.
Proof.
  induction l as [|y l IH]; simpl; [done|].
  destruct (p y); [done|]. intros Hf. by rewrite IH.
Qed.

Lemma replace_first_ids i u' l :
  User._id u' = i → user_ids (replace_first (by_id i) u' l) = user_ids l.
Proof.
  intros Hi. induction l as [|y l IH]; simpl; [done|].
  destruct (by_id i y) eqn:Hy; simpl.
  - apply by_id_true in Hy. by rewrite Hi, Hy.
  - by rewrite IH.
Qed.

Lemma find_replace_first {A} (p : A → bool) (x y : A) (l : list A) :
  p x = true → find p l = Some y → find p (replace_first p x l) = Some x.
Proof.
  intros Hx. induction l as [|z l IH]; simpl; [done|].
  destruct (p z) eqn:Hz; simpl.
  - by rewrite Hx.
  - by rewrite Hz.
Qed.

Lemma NoDup_ids_eq l u v :
  NoDup (user_ids l) → u ∈ l → v ∈ l → User._id u = User._id v → u = v.
Proof.
  unfold user_ids. induction l as [|y l IH]; simpl; [by intros _ ?%elem_of_nil|].
  rewrite NoDup_cons, !elem_of_cons. intros [Hy Hnd] [->|Hu] [->|Hv] Heq; auto.
  - destruct Hy. rewrite Heq. by apply list_elem_of_fmap_2.
  - destruct Hy. rewrite <- Heq. by apply list_elem_of_fmap_2.
Qed.

Lemma replace_first_by_id_elem l i u' v :
  NoDup (user_ids l) → User._id u' = i →
  v ∈ replace_first (by_id i) u' l → User._id v = i → v = u'.
Proof.
  unfold user_ids. intros Hnd Hi. induction l as [|y l IH]; simpl.
  - by intros ?%elem_of_nil.
  - apply NoDup_cons in Hnd as [Hy Hnd].
    destruct (by_id i y) eqn:Hby; rewrite elem_of_cons.
    + apply by_id_true in Hby. intros [->|Hv] Hvi; [done|].
      destruct Hy. rewrite Hby, <- Hvi. by apply list_elem_of_fmap_2.
    + apply by_id_false in Hby. intros [->|Hv] Hvi; [done|]. by apply IH.
Qed.

(** *** The sample implementation satisfies the assumptions *)

Lemma dec_enc_pos p s : Sample.dec_pos (Sample.enc_pos p +:+ s) = Some (p, s).
Proof. induction p as [p IH|p IH|]; simpl; by rewrite ?IH. Qed.

Lemma strip_prefix_app p s : Sample.strip_prefix p (p +:+ s) = Some s.
Proof.
  induction p as [|a p IH]; simpl; [done|].
  by rewrite bool_decide_eq_true_2.
Qed.

Lemma enc_pos_nonempty p s : Sample.enc_pos p +:+ s ≠ "".
Proof. by destruct p. Qed.

Lemma string_app_inv_head (p a b : string) : p +:+ a = p +:+ b → a = b.
Proof. induction p as [|c p IH]; simpl; [done|]. intros [= ?]. auto. Qed.

#[export] Instance sample_jwt_laws : @JwtLaws Sample.jwt_lib.
Proof.
  split; simpl; unfold Sample.sign, Sample.verify.
  - intros. apply enc_pos_nonempty.
  - intros id s ttl t now d. rewrite dec_enc_pos, strip_prefix_app.
    by case_bool_decide; intros [= <-].
  - intros id1 id2 s ttl1 ttl2 t1 t2 Heq.
    apply (f_equal Sample.dec_pos) in Heq. rewrite !dec_enc_pos in Heq.
    injection Heq as _ Heq. by apply string_app_inv_head in Heq.
Qed.

Lemma cast_string_textual v v' :
  Sample.cast_string v = Some v' → v' = v ∧ textual v' = true.
Proof.
  unfold Sample.cast_string. destruct (textual v) eqn:Hv; [|done].
  by intros [= <-].
Qed.

Lemma cast_number_numeric v v' :
  Sample.cast_number v = Some v' → numeric v' = true.
Proof.
  destruct v as [| |b|q|s]; simpl; try by intros [= <-].
  case_bool_decide; [by intros [= <-]|].
  destruct (Sample.decimal s); simpl; [|done]. by intros [= <-].
Qed.

#[export] Instance sample_schema_laws : @SchemaLaws Sample.schema_lib.
Proof.
  split.
  - intros [id type category amount description date]. unfold typed. simpl.
    destruct type, category, amount, date; try done.
    destruct description; try done; by rewrite ?andb_false_r.
  - intros t t'. simpl.
    destruct (Sample.cast_string (Tx.type t)) as [ty|] eqn:Hty; [|done].
    destruct (Sample.cast_string (Tx.category t)) as [c|] eqn:Hc; [|done].
    destruct (Sample.cast_number (Tx.amount t)) as [a|] eqn:Ha; [|done].
    destruct (Sample.cast_string (Tx.description t)) as [d|] eqn:Hd; [|done].
    destruct (Sample.cast_string (Tx.date t)) as [dt|] eqn:Hdt; [|done].
    intros [= <-]. unfold well_typed. simpl.
    apply cast_string_textual in Hty as [_ ->], Hc as [_ ->], Hd as [_ ->],
      Hdt as [_ ->].
    by rewrite (cast_number_numeric _ _ Ha).
Qed.

(** ** Refresh *)

Section Refresh.
Context `{!jwt.lib} `{!bcrypt.lib} (env : Env).

Ltac refresh_cases cookies st now :=
  let Ht := fresh "Ht" in
  destruct (truthy_str (cookies ≫= (.!! "jwt"))) eqn:Ht; simpl;
  [ let c := fresh "c" in
    let Hc := fresh "Hc" in
    let Hne := fresh "Hne" in
    apply truthy_str_true in Ht as (c & Hc & Hne); rewrite ?Hc; run;
    let u := fresh "u" in
    let Hf := fresh "Hf" in
    destruct (find (by_refreshToken c) (users st)) as [u|] eqn:Hf;
    [ let Hin := fresh "Hin" in
      let Hp := fresh "Hp" in
      destruct (find_elem_of _ _ _ Hf) as [Hin Hp];
      apply by_refreshToken_true in Hp;
      let d := fresh "d" in
      let Hv := fresh "Hv" in
      let Hd := fresh "Hd" in
      destruct (jwt.verify c (REFRESH_TOKEN_SECRET env) now) as [d|] eqn:Hv;
      [ destruct (strict_ne (User._id u) d) eqn:Hd | ]
    | ]
  | ].

(** [/refresh] never writes to the collection. *)
Lemma refresh_keeps_users (f : ServerFile) cookies now st o st' :
  refresh_of env f cookies now st = (o, st') → users st' = users st.
Proof.
  destruct f; simpl; [unfold Server.refresh | unfold Part000.refresh];
    refresh_cases cookies st now; by intros [= <- <-].
Qed.

(** C2 (as amended): the error taxonomy of [/refresh] in both files.  A
    request without a [jwt] cookie, or with an empty one, is answered
    401; a non-empty cookie that no user stores, 403; a stored cookie
    that fails verification or decodes to another id than the found
    user's, 403; any other request, 200 with an access token freshly
    signed for the found user's id. *)
Theorem refresh_error_taxonomy (f : ServerFile) cookies now st :
  ∃ r st', refresh_of env f cookies now st = (Value r, st') ∧
    (cookies ≫= (.!! "jwt") = None ∨ carries cookies "" →
       r = sendStatus 401) ∧
    ∀ c, carries cookies c → c ≠ "" →
      ((∀ u, u ∈ users st → User.refreshToken u ≠ Some c) →
         r = sendStatus 403) ∧
      ∀ u, find (by_refreshToken c) (users st) = Some u →
        (jwt.verify c (REFRESH_TOKEN_SECRET env) now = None →
           r = sendStatus 403) ∧
        (∀ d, jwt.verify c (REFRESH_TOKEN_SECRET env) now = Some d →
           d ≠ JStr (User._id u) → r = sendStatus 403) ∧
        (jwt.verify c (REFRESH_TOKEN_SECRET env) now
           = Some (JStr (User._id u)) →
         r = json 200
               (AccessToken
                  (jwt.sign (User._id u) (ACCESS_TOKEN_SECRET env)
                            (access_ttl f) now))).
Proof.
  unfold carries.
  destruct f; simpl; [unfold Server.refresh | unfold Part000.refresh];
    refresh_cases cookies st now.
  all: eexists _, _; (split; [done|]).
  all: try (split; [intros [?|?]; by simplify_eq|]).
  all: try (intros c' Hc' Hne';
            apply truthy_str_false in Ht as [Ht|Ht]; by simplify_eq).
  all: intros c' ? _; simplify_eq.
  all: split;
    [intros Hno; first [by destruct (Hno _ Hin) | done]
    |intros u' ?; simplify_eq].
  all: repeat split; intros; simplify_eq; try done.
  all: try by rewrite (proj2 (strict_ne_false _ _)) in Hd.
  all: by apply strict_ne_false in Hd.
Qed.

(** C3: [/refresh] is read-only in both files.  Whatever the outcome,
    the user collection is unchanged, the only store operation issued
    is at most one find, no cookie is set, and the only token in the
    response is an access token signed for a stored user. *)
Theorem refresh_read_only (f : ServerFile) cookies now st :
  ∃ r st', refresh_of env f cookies now st = (Value r, st') ∧
    users st' = users st ∧
    (oplog st' = oplog st ∨ oplog st' = OpFind :: oplog st) ∧
    cookie r = None ∧
    (body r = NoBody ∨
     ∃ u, u ∈ users st ∧
       body r = AccessToken
                  (jwt.sign (User._id u) (ACCESS_TOKEN_SECRET env)
                            (access_ttl f) now)).
Proof.
  destruct f; simpl; [unfold Server.refresh | unfold Part000.refresh];
    refresh_cases cookies st now.
  all: eexists _, _; (split; [done|]); simpl.
  all: repeat split; eauto.
Qed.

End Refresh.

Lemma find_split {A} (p : A → bool) (l : list A) (u : A) :
  find p l = Some u →
  ∃ l1 l2, l = (l1 ++ u :: l2)%list ∧ Forall (λ y, p y = false) l1 ∧
    p u = true ∧ ∀ x, replace_first p x l = (l1 ++ x :: l2)%list.
Proof.
  induction l as [|y l IH]; simpl; [done|].
  destruct (p y) eqn:Hy.
  - intros [= ->]. by exists [], l.
  - intros Hf. destruct (IH Hf) as (l1 & l2 & -> & Hall & Hu & Hrep).
    exists (y :: l1), l2. split_and!; [done|by constructor|done|].
    intros x. simpl. by rewrite Hrep.
Qed.

Lemma find_first_split {A} (p : A → bool) (l : list A) (u : A) :
  find p l = Some u →
  ∃ l1 l2, l = (l1 ++ u :: l2)%list ∧
    ∀ x, replace_first p x l = (l1 ++ x :: l2)%list.
Proof.
  induction l as [|y l IH]; simpl; [done|].
  destruct (p y) eqn:Hy.
  - intros [= ->]. by exists [], l.
  - intros Hf. destruct (IH Hf) as (l1 & l2 & -> & Hrep).
    exists (y :: l1), l2. split; [done|]. intros x. simpl. by rewrite Hrep.
Qed.

Lemma find_is_some_key l u :
  NoDup (user_ids l) → u ∈ l → find (by_id (User._id u)) l = Some u.
Proof.
  intros Hnd Hu.
  destruct (find_is_some (by_id (User._id u)) l u) as [u' Hf];
    [done|by apply by_id_true|].
  rewrite Hf. f_equal. apply find_elem_of in Hf as [Hu' Hid].
  apply by_id_true in Hid. by apply (NoDup_ids_eq l).
Qed.

(** ** Logout *)

Section Logout.
Context `{!jwt.lib} (env : Env).

(** What [/logout] does to the collection, in both files. *)
Lemma logout_run (f : ServerFile) cookies st :
  ∃ r st', logout_of f cookies st = (Value r, st') ∧ status r = 204%nat ∧
    users st' =
      match (if truthy_str (cookies ≫= (.!! "jwt"))
             then find (by_refreshToken (str (cookies ≫= (.!! "jwt"))))
                       (users st)
             else None) with
      | Some u => replace_first (by_id (User._id u)) (set_refreshToken None u)
                                (users st)
      | None => users st
      end.
Proof.
  destruct f; simpl; [unfold Server.logout | unfold Part000.logout].
  all: generalize (cookies ≫= (.!! "jwt")); intros ck.
  all: destruct (truthy_str ck); simpl; [|eexists _, _; repeat split].
  all: run; destruct (find (by_refreshToken (str ck)) (users st));
    simpl; eexists _, _; repeat split.
Qed.

Lemma token_holder_unique `{!JwtLaws} l u v c :
  store_ok env l → u ∈ l → v ∈ l →
  User.refreshToken u = Some c → User.refreshToken v = Some c → u = v.
Proof.
  intros [Hnd Htok] Hu Hv Hcu Hcv.
  destruct (Htok u c Hu Hcu) as [t1 H1], (Htok v c Hv Hcv) as [t2 H2].
  apply (NoDup_ids_eq l); try done.
  eapply sign_inj. by rewrite <- H1, <- H2.
Qed.

Lemma stored_token_nonempty `{!JwtLaws} l u c :
  store_ok env l → u ∈ l → User.refreshToken u = Some c → c ≠ "".
Proof.
  intros [_ Htok] Hu Hc. destruct (Htok u c Hu Hc) as [t ->].
  apply sign_nonempty.
Qed.

(** After a logout that presented [c], no document stores [c]. *)
Lemma logout_clears `{!JwtLaws} (f : ServerFile) cookies st r st' c :
  store_ok env (users st) →
  logout_of f cookies st = (Value r, st') →
  carries cookies c → c ≠ "" →
  ∀ v, v ∈ users st' → User.refreshToken v ≠ Some c.
Proof.
  unfold carries. intros Hok Hrun Hc Hne v Hv Hvc.
  destruct (logout_run f cookies st) as (r' & st'' & Hrun' & _ & Hus).
  rewrite Hrun in Hrun'. simplify_eq.
  rewrite Hus, Hc, (proj2 (truthy_str_true (Some c))) in Hv by eauto.
  simpl in Hv.
  destruct (find (by_refreshToken c) (users st)) as [u|] eqn:Hf.
  - apply find_elem_of in Hf as [Hu Hp]. apply by_refreshToken_true in Hp.
    destruct (replace_first_elem_of _ _ _ _ Hv) as [->|Hv']; [done|].
    assert (v = u) as -> by by eapply token_holder_unique.
    apply replace_first_by_id_elem in Hv; [|apply Hok|done..].
    by rewrite Hv in Hvc.
  - rewrite find_none_elem_of in Hf. specialize (Hf v Hv).
    apply not_true_iff_false in Hf. by rewrite by_refreshToken_true in Hf.
Qed.

(** C10: a [/logout] request without a [jwt] cookie is answered 204 with
    no cookie header, and the store (documents and operation log alike)
    is left as it was: nothing was read or written.  A clear-cookie
    header is emitted only for a request that carried a non-empty
    cookie. *)
Theorem logout_without_cookie (f : ServerFile) cookies st :
  (cookies ≫= (.!! "jwt") = None →
     logout_of f cookies st = (Value (sendStatus 204), st)) ∧
  (∀ r st' name opts, logout_of f cookies st = (Value r, st') →
     cookie r = Some (ClearCookie name opts) →
     ∃ c, carries cookies c ∧ c ≠ "").
Proof.
  unfold carries. split.
  - intros Hc.
    destruct f; simpl; [unfold Server.logout | unfold Part000.logout];
      by rewrite Hc.
  - intros r st' name opts.
    destruct f; simpl; [unfold Server.logout | unfold Part000.logout].
    all: destruct (truthy_str (cookies ≫= (.!! "jwt"))) eqn:Ht; simpl;
      [intros _ _; by apply truthy_str_true
      |unfold mret, async_ret; intros ? Hck; simplify_eq; by simpl in Hck].
Qed.

(** C5: [/logout] is fail-soft and idempotent in both files.  Every
    request is answered 204, and so is a second logout with the same
    cookie.  Without a cookie, or with a cookie no user stores, the
    collection is unchanged.  In a well-formed store, when a user stores
    the cookie's value, the document stored in that user's place has a
    null [refreshToken] and the same id, name, password hash and
    transactions, no document holds the cookie's value any more, nothing
    else changes, and the second logout changes nothing. *)
Theorem logout_fail_soft (f : ServerFile) cookies st :
  ∃ r st', logout_of f cookies st = (Value r, st') ∧ status r = 204%nat ∧
    (cookies ≫= (.!! "jwt") = None → users st' = users st) ∧
    (∀ c, carries cookies c →
       (∀ u, u ∈ users st → User.refreshToken u ≠ Some c) →
       users st' = users st) ∧
    (∃ r2 st2, logout_of f cookies st' = (Value r2, st2) ∧
       status r2 = 204%nat ∧
       (JwtLaws → store_ok env (users st) → users st2 = users st')) ∧
    (JwtLaws → store_ok env (users st) →
     ∀ c u, carries cookies c → u ∈ users st →
       User.refreshToken u = Some c →
       ∃ others rest u',
         users st = (others ++ u :: rest)%list ∧
         users st' = (others ++ u' :: rest)%list ∧
         find (by_id (User._id u)) (users st') = Some u' ∧
         User.refreshToken u' = None ∧
         User._id u' = User._id u ∧
         User.username u' = User.username u ∧
         User.password u' = User.password u ∧
         User.transactions u' = User.transactions u ∧
         (∀ v, v ∈ users st' → User.refreshToken v ≠ Some c)).
Proof.
  unfold carries.
  destruct (logout_run f cookies st) as (r & st' & Hrun & Hst & Hus).
  exists r, st'. split; [done|]. split; [done|].
  assert (Htruthy : ∀ c, c ≠ "" → truthy_str (Some c) = true).
  { intros c Hne. apply truthy_str_true. by exists c. }
  split; [|split; [|split]].
  - intros Hc. by rewrite Hus, Hc.
  - intros c Hc Hno. rewrite Hus, Hc.
    destruct (truthy_str (Some c)); [|done]. simpl.
    destruct (find (by_refreshToken c) (users st)) as [u|] eqn:Hf; [|done].
    apply find_elem_of in Hf as [Hu Hp]. apply by_refreshToken_true in Hp.
    by destruct (Hno u Hu).
  - destruct (logout_run f cookies st') as (r2 & st2 & Hrun2 & Hst2 & Hus2).
    exists r2, st2. split; [done|]. split; [done|]. intros Hlaws Hok.
    rewrite Hus2.
    destruct (truthy_str (cookies ≫= (.!! "jwt"))) eqn:Ht; [|done].
    apply truthy_str_true in Ht as (c & Hc & Hne). rewrite Hc. simpl.
    destruct (find (by_refreshToken c) (users st')) as [u|] eqn:Hf; [|done].
    apply find_elem_of in Hf as [Hu Hp]. apply by_refreshToken_true in Hp.
    by destruct (logout_clears f cookies st r st' c Hok Hrun Hc Hne u Hu).
  - intros Hlaws Hok c u Hc Hu Hcu.
    assert (users st' = replace_first (by_id (User._id u))
                          (set_refreshToken None u) (users st)) as Hfound.
    { rewrite Hus, Hc, Htruthy by eauto using stored_token_nonempty. simpl.
      destruct (find_is_some (by_refreshToken c) (users st) u) as [u' Hf];
        [done|by apply by_refreshToken_true|]. rewrite Hf.
      apply find_elem_of in Hf as [Hu' Hp]. apply by_refreshToken_true in Hp.
      by assert (u' = u) as -> by by eapply token_holder_unique. }
    assert (find (by_id (User._id u)) (users st) = Some u) as Hf'.
    { apply find_is_some_key; [apply Hok|done]. }
    destruct (find_first_split _ _ _ Hf') as (others & rest & Hl & Hrep).
    exists others, rest,
      (User.mk (User._id u) (User.username u) (User.password u) None
               (User.transactions u)).
    split; [done|]. split; [by rewrite Hfound, Hrep|].
    split; [|split_and!; try done].
    + rewrite Hfound. by eapply find_replace_first; [apply by_id_true|].
    + intros v Hv.
      eapply (logout_clears f cookies st r st' c); try done.
      by eapply stored_token_nonempty.
Qed.

End Logout.

(** ** Stale refresh tokens *)

Section Stale.
Context `{!jwt.lib} `{!bcrypt.lib} `{!JwtLaws} (env : Env).

(** A cookie issued for [uid] that no document with that [_id] stores
    any more is refused. *)
Lemma refresh_stale (f : ServerFile) cookies now st uid t0 :
  carries cookies (jwt.sign uid (REFRESH_TOKEN_SECRET env) "1d" t0) →
  (∀ v, v ∈ users st → User._id v = uid →
     User.refreshToken v
       ≠ Some (jwt.sign uid (REFRESH_TOKEN_SECRET env) "1d" t0)) →
  ∃ st', refresh_of env f cookies now st = (Value (sendStatus 403), st').
Proof.
  unfold carries. intros Hc Hstale.
  destruct f; simpl; [unfold Server.refresh | unfold Part000.refresh].
  all: rewrite Hc, (proj2 (truthy_str_true _))
    by (eexists; split; [done|apply sign_nonempty]).
  all: simpl; run.
  all: destruct (find _ (users st)) as [u|] eqn:Hf; [|by eexists].
  all: apply find_elem_of in Hf as [Hu Hp]; apply by_refreshToken_true in Hp.
  all: destruct (jwt.verify _ _ now) as [d|] eqn:Hv; [|by eexists].
  all: apply verify_sign in Hv as ->.
  all: destruct (strict_ne (User._id u) _) eqn:Hd; [by eexists|].
  all: apply strict_ne_false in Hd; simplify_eq.
  all: by destruct (Hstale u Hu eq_refl).
Qed.

(** What a successful [/login] leaves in the collection. *)
Lemma login_run (f : ServerFile) req now st r st1 :
  login_of env f req now st = (Value r, st1) → status r = 200%nat →
  ∃ u, find (by_username (str (user req))) (users st) = Some u ∧
    users st1 =
      replace_first (by_id (User._id u))
        (set_refreshToken
           (Some (jwt.sign (User._id u) (REFRESH_TOKEN_SECRET env) "1d" now)) u)
        (users st).
Proof.
  destruct f; simpl; [unfold Server.login | unfold Part000.login].
  all: destruct (negb _ || negb _); [by intros [= <- <-]|].
  all: run.
  all: destruct (find _ (users st)) as [u|]; [|by intros [= <- <-]].
  all: destruct (negb _); [by intros [= <- <-]|].
  all: intros [= <- <-] _; by exists u.
Qed.


(** What a successful [/register] leaves in the collection. *)
Lemma register_run (f : ServerFile) req now salt oid st r st1 :
  register_of env f req now salt oid st = (Value r, st1) →
  status r = 201%nat →
  existsb (by_id oid) (users st) = false ∧
  users st1 =
    (users st ++
      [User.mk oid (str (user req)) (bcrypt.hash (str (pwd req)) 10 salt)
         (Some (jwt.sign oid (REFRESH_TOKEN_SECRET env) "1d" now)) []])%list.
Proof.
  destruct f; simpl; [unfold Server.register | unfold Part000.register].
  all: destruct (negb _ || negb _); [by intros [= <- <-]|].
  all: run.
  all: destruct (find _ (users st)) as [u|]; [by intros [= <- <-]|]; simpl.
  all: destruct (existsb (by_id oid) (users st)) eqn:Hid; simpl;
    [by intros [= <- <-]|].
  all: destruct (existsb (by_username _) (users st)); simpl;
    [by intros [= <- <-]|].
  all: intros [= <- <-] _; split; [done|]; simpl.
  all: apply replace_first_app_new; [done|by apply by_id_true].
Qed.

(** C4: only the latest refresh token is honoured.  Let [c] be a refresh
    token issued for user [u].  After a login of [u] that stored another
    token, after a logout presenting [c], after the registration that
    created [u] with another token, and generally whenever [u] no longer
    stores [c], a [/refresh] presenting [c] is answered 403. *)
Theorem stale_refresh_token_forbidden (f : ServerFile) st cookies now uid t0 :
  store_ok env (users st) →
  carries cookies (jwt.sign uid (REFRESH_TOKEN_SECRET env) "1d" t0) →
  (∀ req t1 r st1 u,
     login_of env f req t1 st = (Value r, st1) → status r = 200%nat →
     find (by_username (str (user req))) (users st) = Some u →
     User._id u = uid →
     jwt.sign uid (REFRESH_TOKEN_SECRET env) "1d" t0
       ≠ jwt.sign uid (REFRESH_TOKEN_SECRET env) "1d" t1 →
     ∃ st2, refresh_of env f cookies now st1 = (Value (sendStatus 403), st2)) ∧
  (∀ r st1,
     logout_of f cookies st = (Value r, st1) →
     ∃ st2, refresh_of env f cookies now st1 = (Value (sendStatus 403), st2)) ∧
  (∀ req t1 salt r st1,
     register_of env f req t1 salt uid st = (Value r, st1) →
     status r = 201%nat →
     jwt.sign uid (REFRESH_TOKEN_SECRET env) "1d" t0
       ≠ jwt.sign uid (REFRESH_TOKEN_SECRET env) "1d" t1 →
     ∃ st2, refresh_of env f cookies now st1 = (Value (sendStatus 403), st2)) ∧
  ((∀ v, v ∈ users st → User._id v = uid →
      User.refreshToken v
        ≠ Some (jwt.sign uid (REFRESH_TOKEN_SECRET env) "1d" t0)) →
   ∃ st2, refresh_of env f cookies now st = (Value (sendStatus 403), st2)).
Proof.
  intros Hok Hc. split; [|split; [|split]].
  - intros req t1 r st1 u Hlogin Hr Hfu Hid Hne.
    destruct (login_run f req t1 st r st1 Hlogin Hr) as (u' & Hf & Hus).
    simplify_eq. apply (refresh_stale f cookies now st1 _ t0 Hc).
    intros v Hv Hvid Hvc. rewrite Hus in Hv.
    apply replace_first_by_id_elem in Hv; [|apply Hok|done..].
    subst v. simpl in Hvc. by simplify_eq.
  - intros r st1 Hlogout.
    apply (refresh_stale f cookies now st1 _ t0 Hc).
    intros v Hv _.
    by apply (logout_clears env f cookies st r st1 _ Hok Hlogout Hc);
      [apply sign_nonempty|].
  - intros req t1 salt r st1 Hreg Hr Hne.
    destruct (register_run f req t1 salt uid st r st1 Hreg Hr) as [Hfresh Hus].
    apply (refresh_stale f cookies now st1 _ t0 Hc).
    intros v Hv Hvid Hvc. rewrite Hus, elem_of_app, list_elem_of_singleton in Hv.
    destruct Hv as [Hv| ->]; [|simpl in Hvc; by simplify_eq].
    rewrite existsb_false_elem_of in Hfresh. specialize (Hfresh v Hv).
    by apply by_id_false in Hfresh.
  - apply refresh_stale; done.
Qed.

End Stale.

(** ** Register *)

Section Register.
Context `{!jwt.lib} `{!bcrypt.lib} (env : Env).

(** C8 (as amended): for a request with a non-empty username and
    password, in both files: when a user with that username exists, the
    answer is 409 and every stored document is as before; when the
    username is free and the generated [_id] is unused, a user with that
    username, the password hash, an empty transaction collection and a
    refresh token signed for it is appended to the collection, and the
    answer is 201 with the access token in the body and the refresh
    token in the [jwt] cookie. *)
Theorem register_conflict_and_creation (f : ServerFile) req now salt oid st :
  truthy_str (user req) = true → truthy_str (pwd req) = true →
  (∀ u, u ∈ users st → User.username u = str (user req) →
     ∃ st', register_of env f req now salt oid st
              = (Value (sendStatus 409), st') ∧
            users st' = users st) ∧
  ((∀ u, u ∈ users st → User.username u ≠ str (user req)) →
   oid ∉ user_ids (users st) →
   ∃ r st', register_of env f req now salt oid st = (Value r, st') ∧
     status r = 201%nat ∧
     body r = AccessToken
                (jwt.sign oid (ACCESS_TOKEN_SECRET env) (access_ttl f) now) ∧
     (∃ opts, cookie r =
        Some (SetCookie "jwt"
                (jwt.sign oid (REFRESH_TOKEN_SECRET env) "1d" now) opts)) ∧
     users st' =
       (users st ++
          [User.mk oid (str (user req))
             (bcrypt.hash (str (pwd req)) 10 salt)
             (Some (jwt.sign oid (REFRESH_TOKEN_SECRET env) "1d" now))
             []])%list).
Proof.
  intros Hu Hp. split.
  - intros u Hin Hname.
    destruct (find_is_some (by_username (str (user req))) (users st) u)
      as [u' Hf]; [done|by apply bool_decide_eq_true|].
    destruct f; simpl; [unfold Server.register | unfold Part000.register].
    all: rewrite Hu, Hp; simpl; run; rewrite Hf; by eexists.
  - intros Hfree Hoid.
    assert (find (by_username (str (user req))) (users st) = None) as Hf.
    { apply find_none_elem_of. intros u Hin.
      apply bool_decide_eq_false. by apply Hfree. }
    assert (existsb (by_username (str (user req))) (users st) = false) as Hex.
    { apply existsb_false_elem_of. intros u Hin.
      apply bool_decide_eq_false. by apply Hfree. }
    assert (existsb (by_id oid) (users st) = false) as Hid.
    { apply existsb_false_elem_of. intros u Hin. apply by_id_false.
      intros Heq. apply Hoid. rewrite <- Heq. unfold user_ids.
      by apply list_elem_of_fmap_2. }
    destruct f; simpl; [unfold Server.register | unfold Part000.register].
    all: rewrite Hu, Hp; simpl; run; rewrite Hf; simpl; rewrite Hid, Hex; simpl.
    all: eexists _, _; split; [done|]; simpl.
    all: repeat split; eauto.
    all: apply replace_first_app_new; [done|by apply by_id_true].
Qed.

End Register.

(** ** Transactions *)

Lemma field_missing (body : gmap string JsVal) k :
  body !! k = None → field body k = JUndefined.
Proof. unfold field. by intros ->. Qed.

Lemma field_agree (body body' : gmap string JsVal) k :
  body' !! k = body !! k → field body' k = field body k.
Proof. unfold field. by intros ->. Qed.

Lemma find_by_id_elem l u :
  NoDup (user_ids l) → u ∈ l → find (by_id (User._id u)) l = Some u.
Proof.
  intros Hnd Hu.
  destruct (find_is_some (by_id (User._id u)) l u) as [u' Hf];
    [done|by apply by_id_true|].
  rewrite Hf. f_equal. apply find_elem_of in Hf as [Hu' Hid].
  apply by_id_true in Hid. by apply (NoDup_ids_eq l).
Qed.

Lemma tx_ids_disjoint l ua ub t :
  tx_ids_unique l → ua ∈ l → ub ∈ l → ua ≠ ub →
  t ∈ User.transactions ua → Tx._id t ∉ tx_ids ub.
Proof.
  unfold tx_ids_unique. intros Hnd Ha Hb Hab Ht Hin.
  assert (Hta : Tx._id t ∈ tx_ids ua) by by apply list_elem_of_fmap_2.
  apply list_elem_of_split in Ha as (l1 & l2 & ->).
  rewrite bind_app, bind_cons in Hnd.
  apply NoDup_app in Hnd as (_ & Hl1 & Hnd).
  apply NoDup_app in Hnd as (_ & Hl2 & _).
  rewrite elem_of_app, elem_of_cons in Hb.
  destruct Hb as [Hb|[->|Hb]]; [|done|].
  - apply (Hl1 (Tx._id t)).
    + apply list_elem_of_bind. by exists ub.
    + apply elem_of_app. by left.
  - apply (Hl2 (Tx._id t)); [done|].
    apply list_elem_of_bind. by exists ub.
Qed.

Lemma find_tx_none (txs : list Tx.t) tid :
  tid ∉ map Tx._id txs → find (tx_by_id tid) txs = None.
Proof.
  intros Hni. apply find_none_elem_of. intros t Ht.
  apply bool_decide_eq_false. intros Heq. apply Hni. rewrite <- Heq.
  by apply list_elem_of_fmap_2.
Qed.

Lemma find_tx_app_new (txs : list Tx.t) tid t :
  tid ∉ map Tx._id txs → Tx._id t = tid →
  find (tx_by_id tid) (txs ++ [t])%list = Some t.
Proof.
  intros Hni Hid. induction txs as [|y txs IH]; simpl.
  - by rewrite (proj2 (tx_by_id_true tid t)).
  - simpl in Hni. apply not_elem_of_cons in Hni as [Hy Hni].
    unfold tx_by_id at 1. rewrite bool_decide_eq_false_2 by done. by apply IH.
Qed.

Lemma filter_tx_app_new (txs : list Tx.t) tid t :
  tid ∉ map Tx._id txs → Tx._id t = tid →
  filter (λ t', Tx._id t' ≠ tid) (txs ++ [t])%list = txs.
Proof.
  intros Hni Hid. induction txs as [|y txs IH]; simpl.
  - rewrite filter_cons_False; [done|]. by intros [].
  - simpl in Hni. apply not_elem_of_cons in Hni as [Hy Hni].
    rewrite filter_cons_True by done. by rewrite IH.
Qed.

Lemma replace_first_same {A} (p : A → bool) (x : A) (l : list A) :
  find p l = Some x → replace_first p x l = l.
Proof.
  induction l as [|y l IH]; simpl; [done|].
  destruct (p y); [by intros [= ->]|]. intros Hf. by rewrite IH.
Qed.

Lemma replace_first_twice {A} (p : A → bool) (x y : A) (l : list A) :
  p x = true → replace_first p y (replace_first p x l) = replace_first p y l.
Proof.
  intros Hx. induction l as [|z l IH]; simpl; [done|].
  destruct (p z) eqn:Hz; simpl; [by rewrite Hx|by rewrite Hz, IH].
Qed.

Lemma find_app_first {A} (p : A → bool) (l1 l2 : list A) (x : A) :
  Forall (λ y, p y = false) l1 → p x = true →
  find p (l1 ++ x :: l2)%list = Some x.
Proof.
  intros Hall Hx. induction Hall as [|y l1 Hy _ IH]; simpl.
  - by rewrite Hx.
  - by rewrite Hy.
Qed.

Lemma stored_cast `{!schema.lib} (t : Tx.t) :
  stored t =
    match schema.cast t with
    | inl err => inl err
    | inr t' =>
        inr (Tx.mk (Tx._id t) (Tx.type t') (Tx.category t') (Tx.amount t')
                   (Tx.description t') (Tx.date t'))
    end.
Proof. done. Qed.


Lemma stored_kept `{!schema.lib} (t : Tx.t) :
  schema.cast t = inr t → stored t = inr t.
Proof. unfold stored. intros ->. by destruct t. Qed.

Section Transactions.
Context `{!schema.lib}.

(** What [PUT /auth/update/:tid] does, in both files. *)
Lemma update_run (f : ServerFile) uid tid body st :
  update_of f uid tid body st =
    if update_accepts f body then
      match find (by_id uid) (users st) with
      | None => (Value (sendStatus 404), log OpFind st)
      | Some u =>
          match transactions_id u tid with
          | None => (Value (sendStatus 404), log OpFind st)
          | Some t =>
              match stored (updated body t) with
              | inl err => (Value (json 500 (Error err)), log OpFind st)
              | inr t' =>
                  (Value (json 200 (Message "Transaction updated")),
                   {| users :=
                        replace_first (by_id (User._id u))
                          (assign_transaction tid t' u) (users st);
                      oplog := OpSave (User._id u) :: OpFind :: oplog st |})
              end
          end
      end
    else (Value (json 400 (Message "Missing required fields")), st).
Proof.
  destruct f; simpl;
    [unfold Server.update_transaction | unfold Part000.update_transaction].
  2: destruct (negb _ || negb _ || eq_null _); simpl; [done|].
  all: run; destruct (find (by_id uid) (users st)) as [u|]; simpl; [|done].
  all: destruct (transactions_id u tid) as [t|]; simpl; [|done].
  all: unfold assigned, updated, js_or; by destruct (stored _).
Qed.

(** What [POST /auth/create] does, in both files. *)
Lemma create_run (f : ServerFile) uid body tid st :
  create_of f uid body tid st =
    match find (by_id uid) (users st) with
    | None => (Value (sendStatus 404), log OpFind st)
    | Some u =>
        match stored (pushed tid body) with
        | inl err => (Value (json 500 (Error err)), log OpFind st)
        | inr t =>
            (Value (json 201 (Message "Transaction added")),
             {| users :=
                  replace_first (by_id (User._id u))
                    (transactions_push t u) (users st);
                oplog := OpSave (User._id u) :: OpFind :: oplog st |})
        end
    end.
Proof.
  destruct f; simpl;
    [unfold Server.create_transaction | unfold Part000.create_transaction].
  all: run; destruct (find (by_id uid) (users st)); simpl; [|done].
  all: unfold assigned, pushed; by destruct (stored _).
Qed.

Lemma list_run uid st :
  Server.list_transactions uid st =
    match find (by_id uid) (users st) with
    | None => (Value (sendStatus 404), log OpFind st)
    | Some u =>
        (Value (json 200 (Transactions (User.transactions u))), log OpFind st)
    end.
Proof.
  unfold Server.list_transactions. run.
  by destruct (find (by_id uid) (users st)).
Qed.

Lemma delete_run uid tid st :
  Server.delete_transaction uid tid st =
    match find (by_id uid) (users st) with
    | None => (Value (sendStatus 404), log OpFind st)
    | Some u =>
        match transactions_id u tid with
        | None => (Value (sendStatus 404), log OpFind st)
        | Some t =>
            (Value (json 200 (Message "Transaction deleted")),
             {| users :=
                  replace_first (by_id (User._id u))
                    (transaction_deleteOne t u) (users st);
                oplog := OpSave (User._id u) :: OpFind :: oplog st |})
        end
    end.
Proof.
  unfold Server.delete_transaction. run.
  destruct (find (by_id uid) (users st)) as [u|]; simpl; [|done].
  by destruct (transactions_id u tid).
Qed.

(** C7 (as amended): update semantics.  In [server.js] for every
    request, and in [part_000] for every request that passes its
    required-field check: the answer is 404, with the collection
    unchanged, when the user record or the transaction id within that
    user's collection does not exist.  Otherwise the handler assigns the
    supplied [type], [category], [amount] and [description] whatever they
    are, and the supplied [date] when it is truthy and the stored one
    otherwise.  If the schema rejects these values the answer is 500 and
    the collection is unchanged; if it takes them, the answer is 200 and
    the first record with that id, and nothing else, is overwritten with
    what the schema made of them; for typed values that is the supplied
    values themselves. *)
Theorem update_semantics (f : ServerFile) uid tid body st :
  update_accepts f body = true →
  (find (by_id uid) (users st) = None →
     ∃ st', update_of f uid tid body st = (Value (sendStatus 404), st') ∧
            users st' = users st) ∧
  (∀ u, find (by_id uid) (users st) = Some u →
     transactions_id u tid = None →
     ∃ st', update_of f uid tid body st = (Value (sendStatus 404), st') ∧
            users st' = users st) ∧
  (∀ u t, find (by_id uid) (users st) = Some u →
     transactions_id u tid = Some t →
     let supplied :=
       Tx.mk (Tx._id t) (field body "type") (field body "category")
         (field body "amount") (field body "description")
         (if truthy (field body "date") then field body "date"
          else Tx.date t) in
     (∀ err, schema.cast supplied = inl err →
        ∃ st', update_of f uid tid body st
                 = (Value (json 500 (Error err)), st') ∧
               users st' = users st) ∧
     (∀ t', schema.cast supplied = inr t' →
        ∃ st' others rest before after,
          update_of f uid tid body st
            = (Value (json 200 (Message "Transaction updated")), st') ∧
          users st = (others ++ u :: rest)%list ∧
          User.transactions u = (before ++ t :: after)%list ∧
          Forall (λ x, Tx._id x ≠ tid) before ∧ Tx._id t = tid ∧
          users st' =
            (others ++
               User.mk (User._id u) (User.username u) (User.password u)
                 (User.refreshToken u)
                 (before ++
                    Tx.mk tid (Tx.type t') (Tx.category t') (Tx.amount t')
                      (Tx.description t') (Tx.date t') :: after)
               :: rest)%list ∧
          find (by_id uid) (users st') =
            Some (User.mk (User._id u) (User.username u) (User.password u)
                    (User.refreshToken u)
                    (before ++
                       Tx.mk tid (Tx.type t') (Tx.category t') (Tx.amount t')
                         (Tx.description t') (Tx.date t') :: after))) ∧
     (SchemaLaws → typed supplied = true →
        ∃ st' u',
          update_of f uid tid body st
            = (Value (json 200 (Message "Transaction updated")), st') ∧
          find (by_id uid) (users st') = Some u' ∧
          find (tx_by_id tid) (User.transactions u') = Some supplied ∧
          length (User.transactions u') = length (User.transactions u))).
Proof.
  intros Hacc. rewrite update_run, Hacc. split; [|split].
  - intros ->. by eexists.
  - intros u -> ->. by eexists.
  - intros u t Hf Ht supplied. rewrite Hf, Ht.
    change (updated body t) with supplied. rewrite stored_cast.
    destruct (find_split _ _ _ Hf) as (others & rest & Hus & _ & Hid & Hrep).
    apply by_id_true in Hid. unfold transactions_id in Ht.
    destruct (find_split _ _ _ Ht) as (before & after & Htxs & Hbefore & Htid & Hrept).
    apply tx_by_id_true in Htid.
    assert (Forall (λ x, Tx._id x ≠ tid) before) as Hne.
    { eapply Forall_impl; [exact Hbefore|]. intros x Hx.
      by apply bool_decide_eq_false_1 in Hx. }
    assert (∀ t', find (by_id uid)
              (others ++
                 User.mk (User._id u) (User.username u) (User.password u)
                   (User.refreshToken u)
                   (before ++
                      Tx.mk tid (Tx.type t') (Tx.category t') (Tx.amount t')
                        (Tx.description t') (Tx.date t') :: after)
                 :: rest)%list
            = Some (User.mk (User._id u) (User.username u) (User.password u)
                      (User.refreshToken u)
                      (before ++
                         Tx.mk tid (Tx.type t') (Tx.category t')
                           (Tx.amount t') (Tx.description t') (Tx.date t')
                         :: after))) as Hfound.
    { intros t'. rewrite <- (Hrep (User.mk _ _ _ _ _)).
      eapply find_replace_first; [by apply by_id_true|done]. }
    assert (∀ t', schema.cast supplied = inr t' →
              replace_first (by_id (User._id u))
                (assign_transaction tid
                   (Tx.mk (Tx._id supplied) (Tx.type t') (Tx.category t')
                      (Tx.amount t') (Tx.description t') (Tx.date t')) u)
                (users st)
              = (others ++
                   User.mk (User._id u) (User.username u) (User.password u)
                     (User.refreshToken u)
                     (before ++
                        Tx.mk tid (Tx.type t') (Tx.category t')
                          (Tx.amount t') (Tx.description t') (Tx.date t')
                        :: after)
                   :: rest)%list) as Hwrite.
    { intros t' _. rewrite Hid at 1. rewrite Hrep.
      unfold assign_transaction, set_transactions.
      rewrite Hrept. cbn [Tx._id supplied]. by rewrite Htid. }
    split_and!.
    + intros err ->. by eexists.
    + intros t' Hcast. rewrite Hcast. cbn [users].
      eexists _, others, rest, before, after.
      split; [reflexivity|]. cbn [users].
      rewrite (Hwrite t' Hcast). by split_and!.
    + intros Hlaws Htyped. rewrite (cast_typed _ Htyped). cbn [users].
      rewrite (Hwrite supplied (cast_typed _ Htyped)).
      eexists _, _. split; [reflexivity|]. cbn [users].
      split; [apply Hfound|]. cbn [User.transactions]. split.
      * replace (Tx.mk tid _ _ _ _ _) with supplied
          by (unfold supplied; by rewrite Htid).
        apply find_app_first; [done|]. apply tx_by_id_true.
        unfold supplied. by rewrite <- Htid.
      * rewrite Htxs, !length_app. done.
Qed.


(** C6 (as amended): required-field validation of updates exists in
    [part_000] only.  There, a request whose [type] or [category] is
    missing or falsy, or whose [amount] is missing or null, is answered
    400 and the store is left exactly as it was.  [server.js] has no
    such check and never answers 400 to an update. *)
Theorem update_validation uid tid body st :
  (truthy (field body "type") = false ∨
   truthy (field body "category") = false ∨
   eq_null (field body "amount") = true →
   Part000.update_transaction uid tid body st
     = (Value (json 400 (Message "Missing required fields")), st)) ∧
  (body !! "type" = None ∨ body !! "category" = None ∨
   body !! "amount" = None →
   Part000.update_transaction uid tid body st
     = (Value (json 400 (Message "Missing required fields")), st)) ∧
  (∀ r st', Server.update_transaction uid tid body st = (Value r, st') →
     status r ≠ 400%nat).
Proof.
  assert (Hrej : truthy (field body "type") = false ∨
                 truthy (field body "category") = false ∨
                 eq_null (field body "amount") = true →
                 Part000.update_transaction uid tid body st
                 = (Value (json 400 (Message "Missing required fields")), st)).
  { intros Hbad.
    change (Part000.update_transaction uid tid body st)
      with (update_of Part000Js uid tid body st).
    rewrite update_run. simpl.
    destruct Hbad as [-> | [-> | ->]]; simpl; by rewrite ?orb_true_r. }
  split; [done|]. split.
  - intros Hmiss. apply Hrej.
    destruct Hmiss as [Hm|[Hm|Hm]]; apply field_missing in Hm; rewrite Hm; auto.
  - intros r st'.
    change (Server.update_transaction uid tid body st)
      with (update_of ServerJs uid tid body st).
    rewrite update_run. simpl.
    destruct (find _ _) as [u|];
      [destruct (transactions_id _ _); [destruct (stored _)|]|];
      by intros [= <- <-].
Qed.

(** C1: owner scoping in [server.js].  With [_id] a key of the
    collection and generated transaction ids unique, let [t] be a
    transaction of user [ua] and [ub] another user.  Listing as [ub]
    returns exactly [ub]'s own collection, which holds no record with
    [t]'s id; updating or deleting [t]'s id as [ub] is answered 404 and
    changes no document.  The handlers read the five transaction fields
    of the body and nothing else: bodies that agree on them get the
    same outcome. *)
Theorem owner_scoping st ua ub t body :
  NoDup (user_ids (users st)) → tx_ids_unique (users st) →
  ua ∈ users st → ub ∈ users st → User._id ua ≠ User._id ub →
  t ∈ User.transactions ua →
  (∃ st', Server.list_transactions (User._id ub) st
            = (Value (json 200 (Transactions (User.transactions ub))), st') ∧
          (Tx._id t ∉ tx_ids ub) ∧ users st' = users st) ∧
  (∃ st', Server.update_transaction (User._id ub) (Tx._id t) body st
            = (Value (sendStatus 404), st') ∧ users st' = users st) ∧
  (∃ st', Server.delete_transaction (User._id ub) (Tx._id t) st
            = (Value (sendStatus 404), st') ∧ users st' = users st) ∧
  (∀ body' uid tid,
     (∀ k, k ∈ tx_keys → body' !! k = body !! k) →
     Server.update_transaction uid tid body' st
       = Server.update_transaction uid tid body st ∧
     Server.create_transaction uid body' tid st
       = Server.create_transaction uid body tid st).
Proof.
  intros Hnd Htx Ha Hb Hab Ht.
  assert (Hfb := find_by_id_elem _ _ Hnd Hb).
  assert (Hni : Tx._id t ∉ tx_ids ub).
  { apply (tx_ids_disjoint (users st) ua ub t); try done.
    intros Heq. apply Hab. by rewrite Heq. }
  assert (Hno : transactions_id ub (Tx._id t) = None) by by apply find_tx_none.
  split; [|split; [|split]].
  - rewrite list_run, Hfb. by eexists.
  - change (Server.update_transaction (User._id ub) (Tx._id t) body st)
      with (update_of ServerJs (User._id ub) (Tx._id t) body st).
    rewrite update_run. simpl. rewrite Hfb, Hno. by eexists.
  - rewrite delete_run, Hfb, Hno. by eexists.
  - intros body' uid tid Hagree.
    assert (∀ k, k ∈ tx_keys → field body' k = field body k) as Hfield.
    { intros k Hk. by apply field_agree, Hagree. }
    unfold Server.update_transaction, Server.create_transaction, tx_keys in *.
    rewrite !Hfield; [done|set_solver..].
Qed.

(** C9: create, list and delete round trip in [server.js], for typed
    values.  For a user with a stored record, a generated id unused in
    its collection and supplied fields of the types the data model gives
    them: create is answered 201, the following list returns the previous
    collection with one record appended that carries the five supplied
    fields verbatim; deleting that id is answered 200 and the following
    list returns the previous collection, every other record, and every
    document, being as before. *)
Theorem create_list_delete_roundtrip `{!SchemaLaws} uid body tid st u :
  find (by_id uid) (users st) = Some u → tid ∉ tx_ids u →
  typed (Tx.mk tid (field body "type") (field body "category")
           (field body "amount") (field body "description")
           (field body "date")) = true →
  ∃ st1 st2 st3 st4,
    Server.create_transaction uid body tid st
      = (Value (json 201 (Message "Transaction added")), st1) ∧
    Server.list_transactions uid st1
      = (Value (json 200 (Transactions
           (User.transactions u ++
              [Tx.mk tid (field body "type") (field body "category")
                 (field body "amount") (field body "description")
                 (field body "date")])%list)), st2) ∧
    Server.delete_transaction uid tid st2
      = (Value (json 200 (Message "Transaction deleted")), st3) ∧
    Server.list_transactions uid st3
      = (Value (json 200 (Transactions (User.transactions u))), st4) ∧
    users st4 = users st.
Proof.
  intros Hf Hni Htyped.
  destruct (find_elem_of _ _ _ Hf) as [_ Hid]. apply by_id_true in Hid.
  set (t := Tx.mk tid (field body "type") (field body "category")
              (field body "amount") (field body "description")
              (field body "date")) in *.
  set (u1 := transactions_push t u).
  assert (Hst : stored (pushed tid body) = inr t).
  { apply (stored_kept t). by apply cast_typed. }
  assert (Hf1 : find (by_id uid) (replace_first (by_id (User._id u)) u1 (users st))
                = Some u1).
  { rewrite Hid. eapply find_replace_first; [by apply by_id_true|done]. }
  assert (Ht1 : transactions_id u1 tid = Some t).
  { by apply find_tx_app_new. }
  assert (Hu : transaction_deleteOne t u1 = u).
  { unfold transaction_deleteOne, u1, transactions_push. simpl.
    rewrite filter_tx_app_new by done. by destruct u. }
  assert (Hback : replace_first (by_id (User._id u1)) u
                    (replace_first (by_id (User._id u)) u1 (users st))
                  = users st).
  { simpl. rewrite replace_first_twice by by apply by_id_true.
    apply replace_first_same. by rewrite Hid. }
  eexists _, _, _, _. split; [|split; [|split; [|split]]].
  - change (Server.create_transaction uid body tid st)
      with (create_of ServerJs uid body tid st).
    rewrite create_run, Hf, Hst. done.
  - rewrite list_run. cbn [users log]. fold u1. rewrite Hf1. done.
  - rewrite delete_run. cbn [users log]. fold u1. rewrite Hf1, Ht1, Hu. done.
  - rewrite list_run. cbn [users log]. rewrite Hback, Hf. done.
  - done.
Qed.

End Transactions.

(** ** The invariants hold in every reachable state *)

Lemma replace_first_split {A} (p : A → bool) (l : list A) (u : A) :
  find p l = Some u →
  ∃ l1 l2, l = (l1 ++ u :: l2)%list ∧
    ∀ x, replace_first p x l = (l1 ++ x :: l2)%list.
Proof.
  induction l as [|y l IH]; simpl; [done|].
  destruct (p y) eqn:Hy.
  - intros [= ->]. exists [], l. split; [done|]. intros x. simpl. done.
  - intros Hf. destruct (IH Hf) as (l1 & l2 & -> & Hrep).
    exists (y :: l1), l2. split; [done|]. intros x. simpl. by rewrite Hrep.
Qed.

Section Invariants.
Context `{!jwt.lib} `{!bcrypt.lib} `{!schema.lib} (env : Env).











End Invariants.





(** *** Reachable states *)


Section Reachable.
Context `{!jwt.lib} `{!bcrypt.lib} `{!schema.lib} (env : Env).





Lemma part000_create uid body tid :
  Part000.create_transaction uid body tid
    = Server.create_transaction uid body tid.
Proof. reflexivity. Qed.

Lemma part000_list uid : Part000.list_transactions uid = Server.list_transactions uid.
Proof. reflexivity. Qed.

Lemma part000_delete uid tid :
  Part000.delete_transaction uid tid = Server.delete_transaction uid tid.
Proof. reflexivity. Qed.



End Reachable.

(** ** The theorems on concrete requests *)

Section Examples.
Import Sample.

Lemma store0_ok : store_ok env (users store0).
Proof.
  split; [compute_done|].
  intros u c Hu Hc. simpl in Hu. rewrite !elem_of_cons in Hu.
  destruct Hu as [->|[->|Hu]].
  - exists 5. by injection Hc as <-.
  - discriminate Hc.
  - by apply elem_of_nil in Hu.
Defined.

(** C1, on a concrete store: bob cannot see, update or delete alice's
    transaction [t1]. *)
Lemma owner_scoping_witness :
  (∃ st', Server.list_transactions "b2" store0
            = (Value (json 200 (Transactions (User.transactions bob))), st') ∧
          ("t1" ∉ tx_ids bob) ∧ users st' = users store0) ∧
  (∃ st', Server.update_transaction "b2" "t1" lunch store0
            = (Value (sendStatus 404), st') ∧ users st' = users store0) ∧
  (∃ st', Server.delete_transaction "b2" "t1" store0
            = (Value (sendStatus 404), st') ∧ users st' = users store0).
Proof.
  destruct (owner_scoping store0 alice bob
              (Tx.mk "t1" (JStr "expense") (JStr "Food") (JNum (25 # 2))
                     (JStr "lunch") (JStr "2024-03-01")) lunch)
    as (Hlist & Hupdate & Hdelete & _).
  - compute_done.
  - compute_done.
  - simpl. repeat constructor.
  - simpl. repeat constructor.
  - simpl. discriminate.
  - simpl. repeat constructor.
  - exact (conj Hlist (conj Hupdate Hdelete)).
Defined.

(** C2, counterexample to the claim as stated: the request carries a
    [jwt] cookie, with an empty value, that no user stores; both files
    answer 401 where the claim says 403. *)
Lemma refresh_empty_cookie_counterexample :
  carries (jar "") "" ∧
  (∀ u, u ∈ users store0 → User.refreshToken u ≠ Some "") ∧
  (Server.refresh env (jar "") 100 store0).1 = Value (sendStatus 401) ∧
  (Part000.refresh env (jar "") 100 store0).1 = Value (sendStatus 401) ∧
  sendStatus 401 ≠ sendStatus 403.
Proof.
  split; [by vm_compute|]. split; [|by vm_compute].
  intros u Hu. simpl in Hu. rewrite !elem_of_cons in Hu.
  destruct Hu as [->|[->|Hu]]; [by vm_compute|by vm_compute|].
  by apply elem_of_nil in Hu.
Qed.

(** C2, on a concrete request: alice's stored cookie, still valid at time
    100, is exchanged for an access token signed for her id. *)
Lemma refresh_error_taxonomy_witness :
  ∃ r st', Server.refresh env (jar cookie5) 100 store0 = (Value r, st') ∧
    r = json 200 (AccessToken (sign "a1" "a-secret" "15m" 100)).
Proof.
  destruct (refresh_error_taxonomy env ServerJs (jar cookie5) 100 store0)
    as (r & st' & Hrun & _ & Hc).
  exists r, st'. split; [exact Hrun|].
  destruct (Hc cookie5) as [_ Hfound]; [reflexivity|discriminate|].
  destruct (Hfound alice) as (_ & _ & Hok); [reflexivity|].
  apply Hok. vm_compute. reflexivity.
Defined.

(** C4, on concrete requests: after alice logs in again at time 9, and
    after she logs out, the cookie of time 5 is refused. *)
Lemma stale_refresh_token_forbidden_witness :
  store_ok env (users store0) ∧
  carries (jar cookie5) cookie5 ∧
  (∃ r st1 st2,
     Server.login env {| user := Some "alice"; pwd := Some "pw" |} 9 store0
       = (Value r, st1) ∧ status r = 200%nat ∧
     Server.refresh env (jar cookie5) 100 st1 = (Value (sendStatus 403), st2)) ∧
  (∃ r st1 st2,
     Server.logout (jar cookie5) store0 = (Value r, st1) ∧
     Server.refresh env (jar cookie5) 100 st1 = (Value (sendStatus 403), st2)).
Proof.
  split; [exact store0_ok|]. split; [reflexivity|].
  destruct (stale_refresh_token_forbidden env ServerJs store0 (jar cookie5)
              100 "a1" 5 store0_ok eq_refl) as (Hlogin & Hlogout & _).
  split.
  - edestruct (Hlogin {| user := Some "alice"; pwd := Some "pw" |} 9)
      as [st2 Hst2];
      [vm_compute; reflexivity|reflexivity|vm_compute; reflexivity
      |reflexivity|vm_compute; discriminate|].
    eexists _, _, st2.
    split; [vm_compute; reflexivity|]. split; [reflexivity|exact Hst2].
  - edestruct Hlogout as [st2 Hst2]; [vm_compute; reflexivity|].
    eexists _, _, st2. split; [vm_compute; reflexivity|exact Hst2].
Defined.

(** C5, on a concrete request: alice logs out with her cookie. *)
Lemma logout_fail_soft_witness :
  store_ok env (users store0) ∧
  ∃ r st', Server.logout (jar cookie5) store0 = (Value r, st') ∧
    status r = 204%nat ∧
    users st' =
      [User.mk "a1" "alice" "s$pw" None
         [Tx.mk "t1" (JStr "expense") (JStr "Food") (JNum (25 # 2))
                (JStr "lunch") (JStr "2024-03-01")];
       bob] ∧
    (∃ u', find (by_id "a1") (users st') = Some u' ∧
           User.refreshToken u' = None) ∧
    ∃ r2 st2, Server.logout (jar cookie5) st' = (Value r2, st2) ∧
      status r2 = 204%nat ∧ users st2 = users st'.
Proof.
  split; [exact store0_ok|].
  destruct (logout_fail_soft env ServerJs (jar cookie5) store0)
    as (r & st' & Hrun & Hst & _ & _ & Hagain & Hfound).
  exists r, st'. split; [exact Hrun|]. split; [exact Hst|].
  destruct (Hfound sample_jwt_laws store0_ok cookie5 alice)
    as (others & rest & u' & Hus & Hus' & Hfind & Htok & Hid & Hname & Hpw
        & Htxs & _);
    [reflexivity|simpl; repeat constructor|reflexivity|].
  split; [|split].
  - destruct others as [|x others]; simpl in Hus.
    + injection Hus as <-. rewrite Hus'. simpl.
      destruct u' as [i n p k txs]. simpl in *. by subst.
    + injection Hus as <- Hus.
      destruct others as [|y others]; simpl in Hus;
        [injection Hus as Hab _; discriminate Hab|].
      injection Hus as _ Hus. by destruct others.
  - exists u'. split; [exact Hfind|exact Htok].
  - destruct Hagain as (r2 & st2 & Hrun2 & Hst2 & Hsame).
    exists r2, st2. split; [exact Hrun2|]. split; [exact Hst2|].
    exact (Hsame sample_jwt_laws store0_ok).
Defined.

(** C6, counterexample to the claim as stated: [server.js] answers 200 to
    an update whose body has none of the required fields, and overwrites
    the stored record. *)
Lemma update_missing_fields_counterexample :
  (∅ : gmap string JsVal) !! "type" = None ∧
  (Server.update_transaction "a1" "t1" ∅ store0).1
    = Value (json 200 (Message "Transaction updated")) ∧
  users (Server.update_transaction "a1" "t1" ∅ store0).2 ≠ users store0 ∧
  json 200 (Message "Transaction updated")
    ≠ json 400 (Message "Missing required fields").
Proof.
  split; [reflexivity|]. split; [by vm_compute|]. split; [|discriminate].
  vm_compute. discriminate.
Qed.

(** C6, on a concrete request: [part_000] rejects the same update and
    leaves the store as it was. *)
Lemma update_validation_witness :
  Part000.update_transaction "a1" "t1" ∅ store0
    = (Value (json 400 (Message "Missing required fields")), store0).
Proof.
  destruct (update_validation "a1" "t1" ∅ store0) as (_ & Hmissing & _).
  apply Hmissing. left. reflexivity.
Defined.

(** C7, counterexample to the claim as stated: in [part_000] an update
    for a user record that does not exist is answered 400, not 404, when
    the body lacks the required fields. *)
Lemma update_not_found_counterexample :
  find (by_id "zz") (users store0) = None ∧
  Part000.update_transaction "zz" "t1" ∅ store0
    = (Value (json 400 (Message "Missing required fields")), store0) ∧
  json 400 (Message "Missing required fields") ≠ sendStatus 404.
Proof. split; [reflexivity|]. split; [by vm_compute|discriminate]. Qed.

(** C7, on a concrete request, in both files: alice's record takes the
    supplied fields, the empty description included, and keeps its date;
    the document found afterwards is hers with that record. *)
Lemma update_semantics_witness :
  update_accepts Part000Js relabel = true ∧
  (∃ st',
     Server.update_transaction "a1" "t1" relabel store0
       = (Value (json 200 (Message "Transaction updated")), st') ∧
     find (by_id "a1") (users st')
       = Some (User.mk "a1" "alice" "s$pw" (Some cookie5)
                 [Tx.mk "t1" (JStr "expense") (JStr "Dining") (JNum (14 # 1))
                        (JStr "") (JStr "2024-03-01")])) ∧
  (∃ st',
     Part000.update_transaction "a1" "t1" relabel store0
       = (Value (json 200 (Message "Transaction updated")), st') ∧
     find (by_id "a1") (users st')
       = Some (User.mk "a1" "alice" "s$pw" (Some cookie5)
                 [Tx.mk "t1" (JStr "expense") (JStr "Dining") (JNum (14 # 1))
                        (JStr "") (JStr "2024-03-01")])).
Proof.
  split; [reflexivity|]. split.
  - destruct (update_semantics ServerJs "a1" "t1" relabel store0 eq_refl)
      as (_ & _ & Hok).
    destruct (Hok alice
                (Tx.mk "t1" (JStr "expense") (JStr "Food") (JNum (25 # 2))
                       (JStr "lunch") (JStr "2024-03-01")) eq_refl eq_refl)
      as (_ & Hstore & _).
    destruct (Hstore
                (Tx.mk "t1" (JStr "expense") (JStr "Dining") (JNum (14 # 1))
                       (JStr "") (JStr "2024-03-01")))
      as (st' & others & rest & before & after & Hrun & _ & Htxs & _ & _ & _
          & Hfind); [vm_compute; reflexivity|].
    exists st'. split; [exact Hrun|]. rewrite Hfind.
    destruct before as [|x before]; simpl in Htxs.
    + by injection Htxs as <-.
    + injection Htxs as _ Htxs. by destruct before.
  - destruct (update_semantics Part000Js "a1" "t1" relabel store0 eq_refl)
      as (_ & _ & Hok).
    destruct (Hok alice
                (Tx.mk "t1" (JStr "expense") (JStr "Food") (JNum (25 # 2))
                       (JStr "lunch") (JStr "2024-03-01")) eq_refl eq_refl)
      as (_ & Hstore & _).
    destruct (Hstore
                (Tx.mk "t1" (JStr "expense") (JStr "Dining") (JNum (14 # 1))
                       (JStr "") (JStr "2024-03-01")))
      as (st' & others & rest & before & after & Hrun & _ & Htxs & _ & _ & _
          & Hfind); [vm_compute; reflexivity|].
    exists st'. split; [exact Hrun|]. rewrite Hfind.
    destruct before as [|x before]; simpl in Htxs.
    + by injection Htxs as <-.
    + injection Htxs as _ Htxs. by destruct before.
Defined.

(** C8, counterexample to the claim as stated: the requested username
    exists and the password is missing, or is present and empty, and both
    files answer 400, not 409; a free username with an empty password is
    answered 400 as well, not 201. *)
Lemma register_conflict_counterexample :
  bob ∈ users store0 ∧ User.username bob = "bob" ∧
  (Server.register env {| user := Some "bob"; pwd := None |} 9 "s" "c3" store0).1
    = Value (json 400 (Message "Username and password required")) ∧
  (Server.register env {| user := Some "bob"; pwd := Some "" |} 9 "s" "c3"
     store0).1
    = Value (json 400 (Message "Username and password required")) ∧
  (Part000.register env {| user := Some "bob"; pwd := None |} 9 "s" "c3" store0).1
    = Value (json 400 (Message "Username and password are required.")) ∧
  (Server.register env {| user := Some "carol"; pwd := Some "" |} 9 "s" "c3"
     store0).1
    = Value (json 400 (Message "Username and password required")) ∧
  status (json 400 (Message "Username and password required")) ≠ 409%nat ∧
  status (json 400 (Message "Username and password required")) ≠ 201%nat.
Proof.
  split; [simpl; repeat constructor|]. split; [reflexivity|].
  split; [by vm_compute|]. split; [by vm_compute|]. split; [by vm_compute|].
  split; [by vm_compute|]. split; discriminate.
Qed.

(** C8, on concrete requests: registering "bob" again is a conflict;
    registering "carol" appends her document. *)
Lemma register_conflict_and_creation_witness :
  (∃ st', Server.register env {| user := Some "bob"; pwd := Some "x" |}
            9 "s" "c3" store0 = (Value (sendStatus 409), st') ∧
          users st' = users store0) ∧
  (∃ r st', Server.register env {| user := Some "carol"; pwd := Some "x" |}
              9 "s" "c3" store0 = (Value r, st') ∧
     status r = 201%nat ∧
     users st' =
       (users store0 ++
          [User.mk "c3" "carol" "s$x" (Some (sign "c3" "r-secret" "1d" 9)) []])%list).
Proof.
  split.
  - destruct (register_conflict_and_creation env ServerJs
                {| user := Some "bob"; pwd := Some "x" |} 9 "s" "c3" store0
                eq_refl eq_refl) as [Hconflict _].
    apply (Hconflict bob); [simpl; repeat constructor|reflexivity].
  - destruct (register_conflict_and_creation env ServerJs
                {| user := Some "carol"; pwd := Some "x" |} 9 "s" "c3" store0
                eq_refl eq_refl) as [_ Hcreate].
    destruct Hcreate as (r & st' & Hrun & Hst & _ & _ & Hus).
    + intros u Hu. simpl in Hu. rewrite !elem_of_cons in Hu.
      destruct Hu as [->|[->|Hu]]; [discriminate|discriminate|].
      by apply elem_of_nil in Hu.
    + compute_done.
    + exists r, st'. split; [exact Hrun|]. split; [exact Hst|exact Hus].
Defined.

(** C9, on the round trip of the specification: bob records a lunch. *)
Lemma create_list_delete_roundtrip_witness :
  ∃ st1 st2 st3 st4,
    Server.create_transaction "b2" lunch "t9" store0
      = (Value (json 201 (Message "Transaction added")), st1) ∧
    Server.list_transactions "b2" st1
      = (Value (json 200 (Transactions
           (User.transactions bob ++
              [Tx.mk "t9" (JStr "expense") (JStr "Food") (JNum (25 # 2))
                     (JStr "lunch") (JStr "2024-03-01")])%list)), st2) ∧
    Server.delete_transaction "b2" "t9" st2
      = (Value (json 200 (Message "Transaction deleted")), st3) ∧
    Server.list_transactions "b2" st3
      = (Value (json 200 (Transactions (User.transactions bob))), st4) ∧
    users st4 = users store0.
Proof.
  apply (create_list_delete_roundtrip "b2" lunch "t9" store0 bob).
  - reflexivity.
  - compute_done.
  - vm_compute. reflexivity.
Defined.

(** C10, on concrete requests: without cookies nothing happens; the
    header that clears the cookie comes with a cookie only. *)
Lemma logout_without_cookie_witness :
  Server.logout None store0 = (Value (sendStatus 204), store0) ∧
  Part000.logout (Some ∅) store0 = (Value (sendStatus 204), store0) ∧
  ∃ c, carries (jar cookie5) c ∧ c ≠ "".
Proof.
  split; [|split].
  - apply (logout_without_cookie ServerJs None store0). reflexivity.
  - apply (logout_without_cookie Part000Js (Some ∅) store0). reflexivity.
  - eapply (logout_without_cookie ServerJs (jar cookie5) store0);
      [vm_compute; reflexivity|reflexivity].
Defined.

End Examples.

(** * Further properties of the handlers *)

Lemma find_by_id_replace_first_ne i j u' l :
  User._id u' = i → i ≠ j →
  find (by_id j) (replace_first (by_id i) u' l) = find (by_id j) l.
Proof.
  intros Hi Hij. induction l as [|y l IH]; simpl; [done|].
  destruct (by_id i y) eqn:Hy; simpl.
  - apply by_id_true in Hy.
    rewrite (proj2 (by_id_false j u')), (proj2 (by_id_false j y)); congruence.
  - by rewrite IH.
Qed.

Lemma find_app_new {A} (p : A → bool) (l : list A) (d : A) :
  find p l = None → p d = true → find p (l ++ [d])%list = Some d.
Proof.
  intros Hl Hd. induction l as [|y l IH]; simpl in *; [by rewrite Hd|].
  destruct (p y); [done|]. by apply IH.
Qed.

Lemma find_app_old {A} (p : A → bool) (l : list A) (d x : A) :
  find p l = Some x → find p (l ++ [d])%list = Some x.
Proof.
  induction l as [|y l IH]; simpl; [done|]. by destruct (p y).
Qed.

Lemma find_existsb_false {A} (p : A → bool) (l : list A) :
  find p l = None → existsb p l = false.
Proof.
  intros Hf. apply existsb_false_elem_of. by apply find_none_elem_of.
Qed.

Section Credentials.
Context `{!jwt.lib} `{!bcrypt.lib} (env : Env).

(** What [/login] does, in both files. *)
Lemma login_eq (f : ServerFile) req now st :
  login_of env f req now st =
    if negb (truthy_str (user req)) || negb (truthy_str (pwd req)) then
      (Value (json 400 (Message (credentials_message f))), st)
    else
      match find (by_username (str (user req))) (users st) with
      | None => (Value (sendStatus 401), log OpFind st)
      | Some u =>
          if bcrypt.compare (str (pwd req)) (User.password u) then
            let rt := jwt.sign (User._id u) (REFRESH_TOKEN_SECRET env) "1d" now in
            (Value (with_cookie (SetCookie "jwt" rt (cookie_options_of f))
                      (json 200
                         (AccessToken
                            (jwt.sign (User._id u) (ACCESS_TOKEN_SECRET env)
                                      (access_ttl f) now)))),
             {| users := replace_first (by_id (User._id u))
                           (set_refreshToken (Some rt) u) (users st);
                oplog := OpSave (User._id u) :: OpFind :: oplog st |})
          else (Value (sendStatus 401), log OpFind st)
      end.
Proof.
  destruct f; simpl; [unfold Server.login | unfold Part000.login].
  all: destruct (negb _ || negb _); [done|].
  all: run; destruct (find _ (users st)) as [u|]; [|done].
  all: by destruct (bcrypt.compare _ _).
Qed.

(** What [/register] does, in both files. *)
Lemma register_eq (f : ServerFile) req now salt oid st :
  register_of env f req now salt oid st =
    if negb (truthy_str (user req)) || negb (truthy_str (pwd req)) then
      (Value (json 400 (Message (credentials_message f))), st)
    else
      match find (by_username (str (user req))) (users st) with
      | Some _ => (Value (sendStatus 409), log OpFind st)
      | None =>
          if existsb (by_id oid) (users st)
             || existsb (by_username (str (user req))) (users st)
          then (Value (sendStatus 500), log (OpInsert oid) (log OpFind st))
          else
            let rt := jwt.sign oid (REFRESH_TOKEN_SECRET env) "1d" now in
            let doc := User.mk oid (str (user req))
                         (bcrypt.hash (str (pwd req)) 10 salt) None [] in
            (Value (with_cookie (SetCookie "jwt" rt (cookie_options_of f))
                      (json 201
                         (AccessToken
                            (jwt.sign oid (ACCESS_TOKEN_SECRET env)
                                      (access_ttl f) now)))),
             {| users := replace_first (by_id oid)
                           (set_refreshToken (Some rt) doc)
                           (users st ++ [doc])%list;
                oplog := OpSave oid :: OpInsert oid :: OpFind :: oplog st |})
      end.
Proof.
  destruct f; simpl; [unfold Server.register | unfold Part000.register].
  all: destruct (negb _ || negb _); [done|].
  all: run; destruct (find _ (users st)) as [u|]; [done|]; simpl.
  all: by destruct (existsb (by_id oid) (users st) || existsb _ (users st)).
Qed.

(** X1: the outcomes of [/login] in both files, for a body whose [user]
    and [pwd] are strings or absent.  A missing or empty username or
    password is answered 400 and the store is not touched; an unknown
    username and a wrong password are both answered 401 with an empty
    body, the documents unchanged; a request with the right password is
    answered 200 with an access token for the found user's id in the body
    and a refresh token in the [jwt] cookie, and the document saved in
    the place of the first one with that id is the found user's with
    that refresh token stored: its id, name, password hash and
    transactions are the old ones, and every other document is as
    before. *)
Theorem login_outcomes (f : ServerFile) req now st :
  (truthy_str (user req) = false ∨ truthy_str (pwd req) = false →
   login_of env f req now st
     = (Value (json 400 (Message (credentials_message f))), st)) ∧
  (truthy_str (user req) = true → truthy_str (pwd req) = true →
   (find (by_username (str (user req))) (users st) = None →
    login_of env f req now st = (Value (sendStatus 401), log OpFind st)) ∧
   (∀ u, find (by_username (str (user req))) (users st) = Some u →
      (bcrypt.compare (str (pwd req)) (User.password u) = false →
       login_of env f req now st = (Value (sendStatus 401), log OpFind st)) ∧
      (bcrypt.compare (str (pwd req)) (User.password u) = true →
       ∃ r st', login_of env f req now st = (Value r, st') ∧
         status r = 200%nat ∧
         body r = AccessToken
                    (jwt.sign (User._id u) (ACCESS_TOKEN_SECRET env)
                              (access_ttl f) now) ∧
         cookie r = Some (SetCookie "jwt"
                            (jwt.sign (User._id u) (REFRESH_TOKEN_SECRET env)
                                      "1d" now)
                            (cookie_options_of f)) ∧
         ∃ others v rest,
           users st = (others ++ v :: rest)%list ∧
           User._id v = User._id u ∧
           Forall (λ x, User._id x ≠ User._id u) others ∧
           users st' =
             (others ++
                User.mk (User._id u) (User.username u) (User.password u)
                  (Some (jwt.sign (User._id u) (REFRESH_TOKEN_SECRET env)
                                  "1d" now))
                  (User.transactions u)
                :: rest)%list ∧
           find (by_id (User._id u)) (users st') =
             Some (User.mk (User._id u) (User.username u) (User.password u)
                     (Some (jwt.sign (User._id u) (REFRESH_TOKEN_SECRET env)
                                     "1d" now))
                     (User.transactions u))))).
Proof.
  rewrite login_eq. split.
  - intros [-> | ->]; simpl; by rewrite ?orb_true_r.
  - intros -> ->. simpl. split.
    + by intros ->.
    + intros u Hf. rewrite Hf. split; intros ->; [done|].
      apply find_elem_of in Hf as [Hu _].
      destruct (find_is_some (by_id (User._id u)) (users st) u) as [v Hv];
        [done|by apply by_id_true|].
      destruct (find_split _ _ _ Hv) as (others & rest & Hl & Hall & Hid & Hrep).
      apply by_id_true in Hid.
      eexists _, _. split; [reflexivity|]. split_and!; try done.
      exists others, v, rest. cbn [users].
      split; [done|]. split; [done|]. split; [|split].
      * eapply Forall_impl; [exact Hall|]. intros x Hx.
        by apply bool_decide_eq_false_1 in Hx.
      * by rewrite Hrep.
      * eapply find_replace_first; [by apply by_id_true|done].
Qed.

(** X2: in both files a register or login request with a missing or
    empty username or password is answered 400 before the store is
    consulted: no document changes and no store operation is issued. *)
Theorem credentials_required (f : ServerFile) req now salt oid st :
  truthy_str (user req) = false ∨ truthy_str (pwd req) = false →
  register_of env f req now salt oid st
    = (Value (json 400 (Message (credentials_message f))), st) ∧
  login_of env f req now st
    = (Value (json 400 (Message (credentials_message f))), st).
Proof.
  rewrite register_eq, login_eq.
  intros [-> | ->]; simpl; by rewrite ?orb_true_r.
Qed.

(** X3: register then login.  When a registration succeeds, and the
    password compares equal to the hash made of it, a login with the
    same credentials on the resulting store is answered 200 with an
    access token for the new user's id, and stores a refresh token
    signed at the time of the login on the new document. *)
Theorem register_then_login (f : ServerFile) req t1 salt oid t2 st r1 st1 :
  register_of env f req t1 salt oid st = (Value r1, st1) →
  status r1 = 201%nat →
  bcrypt.compare (str (pwd req)) (bcrypt.hash (str (pwd req)) 10 salt) = true →
  ∃ r2 st2, login_of env f req t2 st1 = (Value r2, st2) ∧
    status r2 = 200%nat ∧
    body r2 = AccessToken
                (jwt.sign oid (ACCESS_TOKEN_SECRET env) (access_ttl f) t2) ∧
    users st2 =
      (users st ++
         [User.mk oid (str (user req)) (bcrypt.hash (str (pwd req)) 10 salt)
            (Some (jwt.sign oid (REFRESH_TOKEN_SECRET env) "1d" t2)) []])%list.
Proof.
  rewrite register_eq.
  destruct (negb _ || negb _) eqn:Hreq; [by intros [= <- <-]|].
  destruct (find _ (users st)) as [u|] eqn:Hf; [by intros [= <- <-]|].
  destruct (existsb (by_id oid) (users st)) eqn:Hid; simpl;
    [by intros [= <- <-]|].
  destruct (existsb (by_username _) (users st)) eqn:Hex; simpl;
    [by intros [= <- <-]|].
  intros [= <- <-] _ Hcmp. rewrite login_eq, Hreq. simpl.
  rewrite replace_first_app_new by (done || by apply by_id_true).
  rewrite (find_app_new _ _ _ Hf) by (by apply bool_decide_eq_true).
  simpl. rewrite Hcmp. eexists _, _. split; [done|]. simpl.
  split; [done|]. split; [done|].
  apply replace_first_app_new; [done|by apply by_id_true].
Qed.

End Credentials.

(** ** Sessions across requests *)

Section Sessions.
Context `{!jwt.lib} `{!bcrypt.lib} `{!JwtLaws} (env : Env).

(** In a well-formed store, after a document took a freshly signed
    refresh token, that token is found on a document with its id. *)
Lemma find_issued_token l u t :
  store_ok env l → u ∈ l →
  ∃ v, find (by_refreshToken
               (jwt.sign (User._id u) (REFRESH_TOKEN_SECRET env) "1d" t))
         (replace_first (by_id (User._id u))
            (set_refreshToken
               (Some (jwt.sign (User._id u) (REFRESH_TOKEN_SECRET env) "1d" t))
               u) l)
       = Some v ∧ User._id v = User._id u.
Proof.
  intros Hok Hu.
  set (c := jwt.sign (User._id u) (REFRESH_TOKEN_SECRET env) "1d" t).
  set (u' := set_refreshToken (Some c) u).
  assert (find (by_id (User._id u)) (replace_first (by_id (User._id u)) u' l)
          = Some u') as Hfu.
  { eapply find_replace_first; [by apply by_id_true|].
    by apply find_by_id_elem; [apply Hok|]. }
  apply find_elem_of in Hfu as [Hu' _].
  destruct (find_is_some (by_refreshToken c) _ u' Hu') as [v Hv];
    [by apply by_refreshToken_true|].
  exists v. split; [done|].
  apply find_elem_of in Hv as [Hv Hvc]. apply by_refreshToken_true in Hvc.
  apply replace_first_elem_of in Hv as [->|Hv]; [done|].
  destruct (proj2 Hok v c Hv Hvc) as [t' Ht']. symmetry.
  by eapply sign_inj.
Qed.

(** X4: login then refresh.  In a well-formed store, after a successful
    login the cookie it handed out is honoured by [/refresh] for as long
    as it verifies: the answer is 200 with an access token for the
    logged-in user's id, nothing in the collection changes, and so the
    same cookie is honoured again (refresh tokens are not single-use). *)
Theorem login_then_refresh (f : ServerFile) req t1 st r1 st1 u cookies now :
  store_ok env (users st) →
  login_of env f req t1 st = (Value r1, st1) → status r1 = 200%nat →
  find (by_username (str (user req))) (users st) = Some u →
  carries cookies (jwt.sign (User._id u) (REFRESH_TOKEN_SECRET env) "1d" t1) →
  jwt.verify (jwt.sign (User._id u) (REFRESH_TOKEN_SECRET env) "1d" t1)
             (REFRESH_TOKEN_SECRET env) now ≠ None →
  ∀ st2, users st2 = users st1 →
    ∃ st3, refresh_of env f cookies now st2
             = (Value (json 200
                  (AccessToken
                     (jwt.sign (User._id u) (ACCESS_TOKEN_SECRET env)
                               (access_ttl f) now))), st3) ∧
           users st3 = users st1.
Proof.
  unfold carries. intros Hok Hlogin Hr Hf Hc Hverify st2 Hst2.
  destruct (login_run env f req t1 st r1 st1 Hlogin Hr) as (u' & Hf' & Hus).
  simplify_eq. apply find_elem_of in Hf as [Hu _].
  destruct (find_issued_token (users st) u t1 Hok Hu) as (v & Hv & Hvid).
  rewrite <- Hus, <- Hst2 in Hv.
  destruct (jwt.verify _ _ now) as [d|] eqn:Hd; [|done].
  apply verify_sign in Hd as Hd'. subst d.
  destruct f; simpl; [unfold Server.refresh | unfold Part000.refresh].
  all: rewrite Hc, (proj2 (truthy_str_true _))
    by (eexists; split; [done|apply sign_nonempty]).
  all: simpl; run; rewrite Hv, Hd, Hvid.
  all: rewrite (proj2 (strict_ne_false _ _)) by done.
  all: by eexists.
Qed.

End Sessions.

(** ** What no request does *)

Lemma replace_first_map_same {A B} (g : A → B) (p : A → bool) (x : A) l :
  (∀ y, find p l = Some y → g x = g y) →
  map g (replace_first p x l) = map g l.
Proof.
  intros Hsame. destruct (find p l) as [y|] eqn:Hf.
  - destruct (replace_first_split _ _ _ Hf) as (l1 & l2 & -> & ->).
    rewrite !map_app. simpl. by rewrite (Hsame y).
  - by rewrite replace_first_none.
Qed.

Lemma replace_doc_credentials l u u' :
  NoDup (user_ids l) → u ∈ l → credentials_of u' = credentials_of u →
  map credentials_of (replace_first (by_id (User._id u)) u' l)
    = map credentials_of l.
Proof.
  intros Hnd Hu Hcred. apply replace_first_map_same.
  intros y. rewrite (find_by_id_elem l u) by done. by intros [= <-].
Qed.

Section Frames.
Context `{!jwt.lib} `{!bcrypt.lib} `{!schema.lib} (env : Env).

(** A request leaves the ids, usernames and password hashes as they
    were, in the same order; a successful registration adds one. *)
Lemma step_credentials (f : ServerFile) st st' :
  step env f st st' → NoDup (user_ids (users st)) →
  map credentials_of (users st') = map credentials_of (users st) ∨
  ∃ d, map credentials_of (users st')
         = (map credentials_of (users st) ++ [credentials_of d])%list ∧
       find (by_username (User.username d)) (users st) = None.
Proof.
  intros Hstep Hnd. destruct Hstep as
    [req now salt oid st o st' Hrun | req now st o st' Hrun
    | cookies now st o st' Hrun | cookies st o st' Hrun
    | uid body tid st o st' Hfresh Hrun | uid st o st' Hrun
    | uid tid body st o st' Hrun | uid tid st o st' Hrun].
  - revert Hrun. rewrite register_eq.
    destruct (negb _ || negb _); [left; by simplify_eq|].
    destruct (find _ (users st)) as [u|] eqn:Hf; [left; by simplify_eq|].
    destruct (existsb (by_id oid) (users st)) eqn:Hid; simpl;
      [left; by simplify_eq|].
    destruct (existsb (by_username _) (users st)); simpl;
      [left; by simplify_eq|].
    intros [= <- <-]. right. cbn [users].
    rewrite replace_first_app_new by (done || by apply by_id_true).
    eexists. rewrite map_app. simpl. split; [done|]. done.
  - left. revert Hrun. rewrite login_eq.
    destruct (negb _ || negb _); [by intros [= <- <-]|].
    destruct (find _ (users st)) as [u|] eqn:Hf; [|by intros [= <- <-]].
    destruct (bcrypt.compare _ _); intros [= <- <-]; [|done]. cbn [users].
    apply find_elem_of in Hf as [Hu _]. by apply replace_doc_credentials.
  - left. by rewrite (refresh_keeps_users env f _ _ _ _ _ Hrun).
  - left. destruct (logout_run f cookies st) as (r & st1 & Hrun' & _ & Hus).
    rewrite Hrun in Hrun'. simplify_eq. rewrite Hus.
    destruct (truthy_str _); [|done].
    destruct (find _ (users st)) as [u|] eqn:Hf; [|done].
    apply find_elem_of in Hf as [Hu _]. by apply replace_doc_credentials.
  - left. revert Hrun. rewrite create_run.
    destruct (find _ (users st)) as [u|] eqn:Hf; [|by intros [= <- <-]].
    destruct (stored _); intros [= <- <-]; [done|]. cbn [users].
    apply find_elem_of in Hf as [Hu _]. by apply replace_doc_credentials.
  - left.
    assert (Server.list_transactions uid st = (o, st')) as Hrun'
      by by destruct f.
    revert Hrun'. rewrite list_run.
    by destruct (find _ (users st)); intros [= <- <-].
  - left. revert Hrun. rewrite update_run.
    destruct (update_accepts f body); [|by intros [= <- <-]].
    destruct (find _ (users st)) as [u|] eqn:Hf; [|by intros [= <- <-]].
    destruct (transactions_id u tid); [|by intros [= <- <-]].
    destruct (stored _); intros [= <- <-]; [done|]. cbn [users].
    apply find_elem_of in Hf as [Hu _]. by apply replace_doc_credentials.
  - left.
    assert (Server.delete_transaction uid tid st = (o, st')) as Hrun'
      by by destruct f.
    revert Hrun'. rewrite delete_run.
    destruct (find _ (users st)) as [u|] eqn:Hf; [|by intros [= <- <-]].
    destruct (transactions_id u tid); intros [= <- <-]; [|done]. cbn [users].
    apply find_elem_of in Hf as [Hu _]. by apply replace_doc_credentials.
Qed.

(** X5: no request of either file changes, reorders or removes a user's
    id, username or password hash.  From a store in which [_id] is a key,
    the list of (id, username, password hash) after any request is the
    list before it, followed by at most one new entry. *)
Theorem requests_keep_credentials (f : ServerFile) st st' :
  NoDup (user_ids (users st)) → step env f st st' →
  ∃ new, map credentials_of (users st')
           = (map credentials_of (users st) ++ new)%list ∧
         (length new ≤ 1)%nat.
Proof.
  intros Hnd Hstep.
  destruct (step_credentials f st st' Hstep Hnd) as [Heq|(d & Heq & _)].
  - exists []. rewrite app_nil_r. split; [done|]. simpl. lia.
  - exists [credentials_of d]. split; [done|]. simpl. lia.
Qed.


End Frames.

Lemma replace_token_find l u0 v j u :
  NoDup (user_ids l) → u0 ∈ l → find (by_id j) l = Some u →
  ∃ u', find (by_id j)
          (replace_first (by_id (User._id u0)) (set_refreshToken v u0) l)
        = Some u' ∧
        User.transactions u' = User.transactions u.
Proof.
  intros Hnd Hu0 Hf. destruct (decide (User._id u0 = j)) as [<-|Hne].
  - rewrite (find_by_id_elem l u0) in Hf by done. simplify_eq.
    exists (set_refreshToken v u). split; [|done].
    eapply find_replace_first; [by apply by_id_true|].
    by apply find_by_id_elem.
  - exists u. split; [|done]. by rewrite find_by_id_replace_first_ne.
Qed.

Section Ownership.
Context `{!jwt.lib} `{!bcrypt.lib} `{!schema.lib} (env : Env).

Lemma list_of_eq (f : ServerFile) : list_of f = Server.list_transactions.
Proof. by destruct f. Qed.

Lemma delete_of_eq (f : ServerFile) : delete_of f = Server.delete_transaction.
Proof. by destruct f. Qed.

(** What a transaction request may change: the caller's document, and
    of it the transactions only. *)
Lemma own_document_frame l uid u txs :
  find (by_id uid) l = Some u →
  (∀ j, j ≠ uid →
     find (by_id j) (replace_first (by_id (User._id u)) (set_transactions txs u) l)
     = find (by_id j) l) ∧
  find (by_id uid) (replace_first (by_id (User._id u)) (set_transactions txs u) l)
    = Some (set_transactions txs u) ∧
  user_ids (replace_first (by_id (User._id u)) (set_transactions txs u) l)
    = user_ids l.
Proof.
  intros Hf. destruct (find_elem_of _ _ _ Hf) as [_ Hid].
  apply by_id_true in Hid. subst uid. split; [|split].
  - intros j Hj. by apply find_by_id_replace_first_ne.
  - by eapply find_replace_first; [apply by_id_true|].
  - by apply replace_first_ids.
Qed.

(** X7: a transaction request touches the caller's document only, in
    both files.  Whatever create, list, update or delete answers for the
    authenticated id [uid], every document with another id is found as
    before, no id is added or removed, and the caller's own document
    keeps its id, username, password hash and refresh token. *)
Theorem transaction_requests_frame (f : ServerFile) uid tid body newid st o st' :
  create_of f uid body newid st = (o, st') ∨
  list_of f uid st = (o, st') ∨
  update_of f uid tid body st = (o, st') ∨
  delete_of f uid tid st = (o, st') →
  (∀ j, j ≠ uid → find (by_id j) (users st') = find (by_id j) (users st)) ∧
  user_ids (users st') = user_ids (users st) ∧
  (∀ u, find (by_id uid) (users st) = Some u →
     ∃ u', find (by_id uid) (users st') = Some u' ∧
       credentials_of u' = credentials_of u ∧
       User.refreshToken u' = User.refreshToken u).
Proof.
  assert (Hsame : users st' = users st →
    (∀ j, j ≠ uid → find (by_id j) (users st') = find (by_id j) (users st)) ∧
    user_ids (users st') = user_ids (users st) ∧
    (∀ u, find (by_id uid) (users st) = Some u →
       ∃ u', find (by_id uid) (users st') = Some u' ∧
         credentials_of u' = credentials_of u ∧
         User.refreshToken u' = User.refreshToken u)).
  { intros ->. split; [done|]. split; [done|]. intros u Hu. by exists u. }
  assert (Hown : ∀ u txs, find (by_id uid) (users st) = Some u →
    users st' = replace_first (by_id (User._id u)) (set_transactions txs u)
                  (users st) →
    (∀ j, j ≠ uid → find (by_id j) (users st') = find (by_id j) (users st)) ∧
    user_ids (users st') = user_ids (users st) ∧
    (∀ u, find (by_id uid) (users st) = Some u →
       ∃ u', find (by_id uid) (users st') = Some u' ∧
         credentials_of u' = credentials_of u ∧
         User.refreshToken u' = User.refreshToken u)).
  { intros u txs Hf ->.
    destruct (own_document_frame _ _ _ txs Hf) as (Hother & Hme & Hids).
    split; [done|]. split; [done|]. intros u0 Hu0.
    rewrite Hf in Hu0. injection Hu0 as <-.
    by exists (set_transactions txs u). }
  rewrite list_of_eq, delete_of_eq.
  rewrite create_run, list_run, update_run, delete_run.
  intros [Hrun|[Hrun|[Hrun|Hrun]]]; revert Hrun.
  - destruct (find _ (users st)) as [u|] eqn:Hf;
      [|intros [= <- <-]; by apply Hsame].
    destruct (stored _); intros [= <- <-];
      [by apply Hsame|by eapply Hown].
  - destruct (find _ (users st)) as [u|] eqn:Hf; intros [= <- <-];
      by apply Hsame.
  - destruct (update_accepts f body); [|intros [= <- <-]; by apply Hsame].
    destruct (find _ (users st)) as [u|] eqn:Hf;
      [|intros [= <- <-]; by apply Hsame].
    destruct (transactions_id u tid); [|intros [= <- <-]; by apply Hsame].
    destruct (stored _); intros [= <- <-];
      [by apply Hsame|by eapply Hown].
  - destruct (find _ (users st)) as [u|] eqn:Hf;
      [|intros [= <- <-]; by apply Hsame].
    destruct (transactions_id u tid); intros [= <- <-];
      [by eapply Hown|by apply Hsame].
Qed.

(** X8: the session routes never touch a transaction, in both files.
    From a store in which [_id] is a key, whatever register, login,
    refresh or logout answers, every user found before is found after
    with the same transaction collection. *)
Theorem session_requests_keep_transactions
    (f : ServerFile) req now salt oid cookies st o st' :
  NoDup (user_ids (users st)) →
  register_of env f req now salt oid st = (o, st') ∨
  login_of env f req now st = (o, st') ∨
  refresh_of env f cookies now st = (o, st') ∨
  logout_of f cookies st = (o, st') →
  ∀ j u, find (by_id j) (users st) = Some u →
    ∃ u', find (by_id j) (users st') = Some u' ∧
      User.transactions u' = User.transactions u.
Proof.
  intros Hnd Hrun j u Hfu.
  assert (Hsame : users st' = users st →
    ∃ u', find (by_id j) (users st') = Some u' ∧
      User.transactions u' = User.transactions u).
  { intros ->. by exists u. }
  destruct Hrun as [Hrun|[Hrun|[Hrun|Hrun]]]; revert Hrun.
  - rewrite register_eq.
    destruct (negb _ || negb _); [intros [= <- <-]; by apply Hsame|].
    destruct (find (by_username _) (users st)) as [u0|] eqn:Hf;
      [intros [= <- <-]; by apply Hsame|].
    destruct (existsb (by_id oid) (users st)) eqn:Hid; simpl;
      [intros [= <- <-]; by apply Hsame|].
    destruct (existsb (by_username _) (users st)); simpl;
      [intros [= <- <-]; by apply Hsame|].
    intros [= <- <-]. cbn [users].
    rewrite replace_first_app_new by (done || by apply by_id_true).
    exists u. split; [|done]. by apply find_app_old.
  - rewrite login_eq.
    destruct (negb _ || negb _); [intros [= <- <-]; by apply Hsame|].
    destruct (find (by_username _) (users st)) as [u0|] eqn:Hf;
      [|intros [= <- <-]; by apply Hsame].
    destruct (bcrypt.compare _ _); intros [= <- <-]; [|by apply Hsame].
    cbn [users]. apply find_elem_of in Hf as [Hu0 _].
    by apply replace_token_find.
  - intros Hrun. apply Hsame. by eapply refresh_keeps_users.
  - intros Hrun.
    destruct (logout_run f cookies st) as (r & st1 & Hrun' & _ & Hus).
    rewrite Hrun in Hrun'. simplify_eq. rewrite Hus.
    destruct (truthy_str _); [|by exists u].
    destruct (find (by_refreshToken _) (users st)) as [u0|] eqn:Hf;
      [|by exists u].
    apply find_elem_of in Hf as [Hu0 _]. by apply replace_token_find.
Qed.

(** X9: the required-field check of [part_000]'s update, completely.
    The answer is 400 exactly when [type] or [category] is falsy or
    [amount] is null or missing; so an [amount] of zero or an empty
    string passes the check. *)
Theorem part000_update_rejected_iff uid tid body st :
  ∃ r st', Part000.update_transaction uid tid body st = (Value r, st') ∧
    (status r = 400%nat ↔
     truthy (field body "type") = false ∨
     truthy (field body "category") = false ∨
     eq_null (field body "amount") = true).
Proof.
  change (Part000.update_transaction uid tid body st)
    with (update_of Part000Js uid tid body st).
  rewrite update_run. simpl.
  destruct (truthy (field body "type")), (truthy (field body "category")),
    (eq_null (field body "amount")); simpl.
  all: try (eexists _, _; split; [done|]; simpl; split; [auto|done]).
  destruct (find _ (users st)) as [u|];
    [destruct (transactions_id u tid); [destruct (stored _)|]|].
  all: eexists _, _; (split; [done|]); simpl.
  all: split; [done|]; by intros [|[|]].
Qed.

(** X10: the create handlers of both files check nothing themselves.
    For every body, the empty one included, the answer is decided by the
    lookup and the schema alone: 404 with the collection unchanged when
    the user record is missing; 500 with the schema's message, the
    collection unchanged, when the schema rejects the values under the
    body's five keys; and otherwise 201, the document found for the
    caller afterwards being the old one with one record appended: the
    generated id with what the schema made of those values, which for
    typed values is the values themselves. *)
Theorem create_outcomes (f : ServerFile) uid body tid st :
  (find (by_id uid) (users st) = None →
   create_of f uid body tid st = (Value (sendStatus 404), log OpFind st)) ∧
  (∀ u, find (by_id uid) (users st) = Some u →
     let supplied :=
       Tx.mk tid (field body "type") (field body "category")
         (field body "amount") (field body "description")
         (field body "date") in
     (∀ err, schema.cast supplied = inl err →
        create_of f uid body tid st
          = (Value (json 500 (Error err)), log OpFind st)) ∧
     (∀ t', schema.cast supplied = inr t' →
        ∃ st' others rest,
          create_of f uid body tid st
            = (Value (json 201 (Message "Transaction added")), st') ∧
          users st = (others ++ u :: rest)%list ∧
          users st' =
            (others ++
               User.mk (User._id u) (User.username u) (User.password u)
                 (User.refreshToken u)
                 (User.transactions u ++
                    [Tx.mk tid (Tx.type t') (Tx.category t') (Tx.amount t')
                       (Tx.description t') (Tx.date t')])
               :: rest)%list ∧
          find (by_id uid) (users st') =
            Some (User.mk (User._id u) (User.username u) (User.password u)
                    (User.refreshToken u)
                    (User.transactions u ++
                       [Tx.mk tid (Tx.type t') (Tx.category t')
                          (Tx.amount t') (Tx.description t')
                          (Tx.date t')])%list)) ∧
     (SchemaLaws → typed supplied = true →
        ∃ st',
          create_of f uid body tid st
            = (Value (json 201 (Message "Transaction added")), st') ∧
          find (by_id uid) (users st') =
            Some (User.mk (User._id u) (User.username u) (User.password u)
                    (User.refreshToken u)
                    (User.transactions u ++ [supplied])%list))).
Proof.
  rewrite create_run. split.
  - by intros ->.
  - intros u Hf supplied. rewrite Hf.
    change (pushed tid body) with supplied. rewrite stored_cast.
    destruct (find_split _ _ _ Hf) as (others & rest & Hus & _ & Hid & Hrep).
    apply by_id_true in Hid.
    assert (∀ t, find (by_id uid)
              (replace_first (by_id (User._id u)) (transactions_push t u)
                 (users st))
            = Some (User.mk (User._id u) (User.username u) (User.password u)
                      (User.refreshToken u) (User.transactions u ++ [t])%list))
      as Hfound.
    { intros t. rewrite Hid at 1.
      eapply find_replace_first; [by apply by_id_true|done]. }
    split_and!.
    + by intros err ->.
    + intros t' ->. eexists _, others, rest.
      split; [reflexivity|]. cbn [users]. split; [done|]. split.
      * rewrite Hid at 1. by rewrite Hrep.
      * apply Hfound.
    + intros Hlaws Htyped. rewrite (cast_typed _ Htyped).
      eexists. split; [reflexivity|]. cbn [users]. apply Hfound.
Qed.

(** X11: delete is final, in both files.  When the caller's collection
    holds the id once, delete is answered 200, the collection afterwards
    is the previous one without that record, one shorter, the other
    records in their order, and a second delete of the same id is
    answered 404 and changes nothing. *)
Theorem delete_then_delete (f : ServerFile) uid tid st u t :
  find (by_id uid) (users st) = Some u →
  transactions_id u tid = Some t → NoDup (tx_ids u) →
  ∃ st1 u1,
    delete_of f uid tid st
      = (Value (json 200 (Message "Transaction deleted")), st1) ∧
    find (by_id uid) (users st1) = Some u1 ∧
    User.transactions u1 = filter (λ t', Tx._id t' ≠ tid) (User.transactions u) ∧
    (length (User.transactions u) = S (length (User.transactions u1)))%nat ∧
    ∃ st2, delete_of f uid tid st1 = (Value (sendStatus 404), st2) ∧
           users st2 = users st1.
Proof.
  intros Hf Ht Hnd. rewrite delete_of_eq, delete_run, Hf, Ht.
  destruct (find_elem_of _ _ _ Hf) as [_ Hid]. apply by_id_true in Hid.
  destruct (find_elem_of _ _ _ Ht) as [Hin Htid]. apply tx_by_id_true in Htid.
  set (u1 := transaction_deleteOne t u).
  assert (find (by_id uid) (replace_first (by_id (User._id u)) u1 (users st))
          = Some u1) as Hf1.
  { rewrite Hid. by eapply find_replace_first; [apply by_id_true|]. }
  assert (transactions_id u1 tid = None) as Hgone.
  { apply find_tx_none. unfold u1, transaction_deleteOne. simpl.
    rewrite Htid. intros Hin'. apply list_elem_of_fmap in Hin' as (t' & Heq & Ht').
    apply list_elem_of_filter in Ht' as [Hne _]. by destruct Hne. }
  eexists _, u1. split; [done|]. cbn [users]. split; [done|].
  split; [by rewrite <- Htid|]. split.
  - unfold u1, transaction_deleteOne, tx_ids in *. simpl. rewrite Htid.
    clear Hf1 Hgone Ht u1. revert Hin Hnd.
    induction (User.transactions u) as [|y txs IH]; [by intros ?%elem_of_nil|].
    simpl. rewrite NoDup_cons, elem_of_cons. intros [->|Hin] [Hy Hnd].
    + rewrite filter_cons_False by (by intros []). f_equal.
      rewrite -> Htid in Hy. clear IH Hnd.
      induction txs as [|z txs IH]; [done|]. simpl in Hy.
      apply not_elem_of_cons in Hy as [Hz Hy].
      rewrite filter_cons_True by done. simpl. by rewrite <- IH.
    + rewrite filter_cons_True.
      * simpl. f_equal. by apply IH.
      * intros Heq. apply Hy. rewrite Heq, <- Htid.
        by apply list_elem_of_fmap_2.
  - rewrite delete_run. cbn [users log]. rewrite Hf1, Hgone. by eexists.
Qed.

End Ownership.

(** ** The component and the server together *)

Lemma find_replace_first_other {A} (p q : A → bool) (x y : A) (l : list A) :
  find p l = Some y → q y = true → p x = true →
  find p (replace_first q x l) = Some x.
Proof.
  induction l as [|a l IH]; simpl; [done|].
  intros Hf Hq Hp. destruct (q a) eqn:Hqa; simpl.
  - by rewrite Hp.
  - destruct (p a) eqn:Hpa.
    + injection Hf as ->. congruence.
    + by apply IH.
Qed.

Section Frontend.
Context `{!jwt.lib} `{!bcrypt.lib} `{!schema.lib} `{!middleware.lib}
  (env : Env).

Lemma fetchTransactions_frame now p srv p1 srv1 :
  UI.fetchTransactions now p srv = (p1, srv1) →
  UI.localStorage p1 = UI.localStorage p ∧
  UI.currentUser p1 = UI.currentUser p ∧
  UI.authForm p1 = UI.authForm p ∧
  UI.formData p1 = UI.formData p ∧
  UI.editingTransaction p1 = UI.editingTransaction p ∧
  UI.showAddModal p1 = UI.showAddModal p ∧
  UI.alerts p1 = UI.alerts p ∧
  users srv1 = users srv ∧
  (guard_sets_no_cookie → UI.jar p1 = UI.jar p).
Proof.
  unfold UI.fetchTransactions, UI.send, App.get_transactions, App.guarded.
  destruct (middleware.verifyJWT (UI.authorization p) now) as [r|uid] eqn:Hv.
  - assert (guard_sets_no_cookie → cookie r = None) as Hc
      by (intros Hg; by apply (Hg _ _ _ Hv)).
    destruct r as [s b c]. simpl in *.
    destruct (bool_decide _); intros [= <- <-]; destruct p;
      destruct c as [[]|]; simpl; (split_and!; try done);
      intros Hg; by specialize (Hc Hg).
  - rewrite list_run. destruct (find _ _); simpl;
      intros [= <- <-]; by destruct p.
Qed.

Lemma fetchTransactions_accepted now p srv uid u :
  middleware.verifyJWT (UI.authorization p) now = inr uid →
  find (by_id uid) (users srv) = Some u →
  UI.fetchTransactions now p srv =
    (UI.setTransactions (Transactions (User.transactions u)) p,
     log OpFind srv).
Proof.
  intros Hv Hf.
  unfold UI.fetchTransactions, UI.send, App.get_transactions, App.guarded.
  rewrite Hv, list_run, Hf. by destruct p.
Qed.


Lemma credentials_sent_truthy form :
  UI.username form ≠ "" → UI.password form ≠ "" →
  negb (truthy_str (user (UI.credentials_sent form)))
  || negb (truthy_str (pwd (UI.credentials_sent form))) = false.
Proof.
  intros Hu Hp. simpl. by rewrite !bool_decide_eq_false_2.
Qed.

Lemma handleAuth_filled now now' salt oid p srv :
  UI.username (UI.authForm p) ≠ "" → UI.password (UI.authForm p) ≠ "" →
  UI.handleAuth env now now' salt oid p srv =
    match UI.send
            (if UI.isLogin (UI.authForm p)
             then login_of env ServerJs (UI.credentials_sent (UI.authForm p)) now
             else register_of env ServerJs (UI.credentials_sent (UI.authForm p))
                    now salt oid) p srv with
    | (UI.Resolved res, p1, srv1) =>
        UI.fetchTransactions now'
          (UI.setAuthForm
             {| UI.username := ""; UI.password := ""; UI.isLogin := true |}
             (UI.setCurrentUser (Some (UI.username (UI.authForm p)))
                (UI.setItem "currentUser" (UI.username (UI.authForm p))
                   (UI.setItem "accessToken" (UI.accessToken_item (body res))
                      p1)))) srv1
    | (UI.Rejected, p1, srv1) => (UI.alert "Authentication failed" p1, srv1)
    end.
Proof.
  intros Hu Hp. unfold UI.handleAuth.
  by rewrite !bool_decide_eq_false_2.
Qed.

(** X12: [handleAuth] sends nothing while the user name or the password
    field is empty: it only raises the alert [Fill all fields].  With both
    fields filled the request it sends is answered by [backend/server.js],
    and never with 400: a login with 200 or 401, a registration with 201,
    409 or 500. *)
Theorem handleAuth_needs_both_fields now now' salt oid p srv :
  (UI.username (UI.authForm p) = "" ∨ UI.password (UI.authForm p) = "" →
   UI.handleAuth env now now' salt oid p srv
     = (UI.alert "Fill all fields" p, srv)) ∧
  (UI.username (UI.authForm p) ≠ "" → UI.password (UI.authForm p) ≠ "" →
   ∃ res srv1,
     (if UI.isLogin (UI.authForm p)
      then Server.login env (UI.credentials_sent (UI.authForm p)) now
      else Server.register env (UI.credentials_sent (UI.authForm p))
             now salt oid) srv = (Value res, srv1) ∧
     status res ∈ (if UI.isLogin (UI.authForm p) then [200; 401]
                   else [201; 409; 500])%nat).
Proof.
  split.
  - intros Hempty. unfold UI.handleAuth.
    destruct Hempty as [He | He]; rewrite He.
    + by rewrite bool_decide_eq_true_2.
    + by rewrite (bool_decide_eq_true_2 ("" = "")), orb_true_r.
  - intros Hu Hp. pose proof (credentials_sent_truthy _ Hu Hp) as Hc.
    destruct (UI.isLogin (UI.authForm p)).
    + change (Server.login env) with (login_of env ServerJs).
      rewrite login_eq, Hc.
      destruct (find _ _) as [u|]; [destruct (bcrypt.compare _ _)|];
        eexists _, _; (split; [reflexivity|]); simpl; set_solver.
    + change (Server.register env) with (register_of env ServerJs).
      rewrite register_eq, Hc. clear Hc.
      destruct (find _ _) as [u|]; [|destruct (existsb _ _ || _)];
        eexists _, _; (split; [reflexivity|]); simpl; set_solver.
Qed.


Lemma handleAuth_resolved now' name res p1 srv1 p2 srv2 :
  UI.fetchTransactions now'
    (UI.setAuthForm
       {| UI.username := ""; UI.password := ""; UI.isLogin := true |}
       (UI.setCurrentUser (Some name)
          (UI.setItem "currentUser" name
             (UI.setItem "accessToken" (UI.accessToken_item (body res))
                p1)))) srv1 = (p2, srv2) →
  UI.localStorage p2 !! "accessToken"
    = Some (UI.accessToken_item (body res)) ∧
  UI.localStorage p2 !! "currentUser" = Some name ∧
  UI.currentUser p2 = Some name ∧
  UI.alerts p2 = UI.alerts p1 ∧
  users srv2 = users srv1 ∧
  (guard_sets_no_cookie → UI.jar p2 = UI.jar p1).
Proof.
  intros Hfetch.
  destruct (fetchTransactions_frame _ _ _ _ _ Hfetch)
    as (Hl & Hc & _ & _ & _ & _ & Ha & Hu & Hj).
  rewrite Hl, Hc, Ha, Hu. destruct p1; simpl in *.
  split_and!; try done.
  - rewrite lookup_insert_ne by done. by rewrite lookup_insert.
  - by rewrite lookup_insert.
Qed.

(** X13: What [handleAuth] leaves behind, the guard of the protected
    routes setting no cookie.  Either the attempt failed: an alert is
    raised, and [localStorage], the signed-in user, the cookie jar, the
    shown transactions and the stored users are as before.  Or it
    succeeded: [localStorage] holds the access token [backend/server.js]
    signed for the id of the user of that name and the name itself, the
    component is signed in under the name, and the [jwt] cookie of the
    browser is the refresh token the server now stores for that user. *)
Theorem handleAuth_outcome now now' salt oid p srv p' srv' :
  guard_sets_no_cookie →
  UI.handleAuth env now now' salt oid p srv = (p', srv') →
  (UI.localStorage p' = UI.localStorage p ∧
   UI.currentUser p' = UI.currentUser p ∧
   UI.jar p' = UI.jar p ∧
   UI.transactions p' = UI.transactions p ∧
   users srv' = users srv ∧
   ∃ msg, UI.alerts p' = msg :: UI.alerts p)
  ∨
  (∃ u,
     find (by_username (UI.username (UI.authForm p))) (users srv') = Some u ∧
     UI.localStorage p' !! "accessToken"
       = Some (jwt.sign (User._id u) (ACCESS_TOKEN_SECRET env) "15m" now) ∧
     UI.localStorage p' !! "currentUser"
       = Some (UI.username (UI.authForm p)) ∧
     UI.currentUser p' = Some (UI.username (UI.authForm p)) ∧
     UI.jar p' !! "jwt" = User.refreshToken u ∧
     User.refreshToken u
       = Some (jwt.sign (User._id u) (REFRESH_TOKEN_SECRET env) "1d" now) ∧
     UI.alerts p' = UI.alerts p).
Proof.
  intros Hg.
  destruct (decide (UI.username (UI.authForm p) = "")) as [Hu|Hu];
    [|destruct (decide (UI.password (UI.authForm p) = "")) as [Hp|Hp]].
  1,2: unfold UI.handleAuth; rewrite ?Hu, ?Hp;
    rewrite ?(bool_decide_eq_true_2 ("" = "")) by done;
    rewrite ?orb_true_r; cbn [orb]; intros [= <- <-]; left;
    destruct p; simpl; split_and!; eauto.
  rewrite handleAuth_filled by done.
  pose proof (credentials_sent_truthy _ Hu Hp) as Hc.
  unfold UI.send. destruct (UI.isLogin (UI.authForm p)).
  - rewrite login_eq, Hc. clear Hc. cbn [UI.credentials_sent user pwd str default].
    destruct (find _ (users srv)) as [u|] eqn:Hf;
      [destruct (bcrypt.compare _ _)|].
    + intros Hfetch. right.
      destruct (handleAuth_resolved _ _ _ _ _ _ _ Hfetch)
        as (Ht & Hn & Hcu & Ha & Hus & Hj).
      exists (set_refreshToken
                (Some (jwt.sign (User._id u) (REFRESH_TOKEN_SECRET env) "1d" now)) u).
      rewrite Hus, (Hj Hg). cbn [users]. split_and!; try done.
      * apply find_replace_first_other with u; [done| |].
        -- unfold by_id. by apply bool_decide_eq_true_2.
        -- apply find_some in Hf as [_ Hn']. exact Hn'.
      * destruct p; simpl. by rewrite lookup_insert.
      * by destruct p.
    + intros [= <- <-]. left. destruct p; simpl; split_and!; eauto.
    + intros [= <- <-]. left. destruct p; simpl; split_and!; eauto.
  - rewrite register_eq, Hc. clear Hc. cbn [UI.credentials_sent user pwd str default].
    destruct (find _ (users srv)) as [u|] eqn:Hf;
      [|destruct (existsb _ _ || _) eqn:Hex].
    + intros [= <- <-]. left. destruct p; simpl; split_and!; eauto.
    + intros [= <- <-]. left. destruct p; simpl; split_and!; eauto.
    + intros Hfetch. right.
      destruct (handleAuth_resolved _ _ _ _ _ _ _ Hfetch)
        as (Ht & Hn & Hcu & Ha & Hus & Hj).
      eexists (set_refreshToken
                 (Some (jwt.sign oid (REFRESH_TOKEN_SECRET env) "1d" now))
                 (User.mk oid _ _ None [])).
      rewrite Hus, (Hj Hg). cbn [users]. split_and!; try done.
      * eapply find_replace_first_other.
        -- apply find_app_new; [exact Hf|].
           unfold by_username. by apply bool_decide_eq_true_2.
        -- unfold by_id. by apply bool_decide_eq_true_2.
        -- unfold by_username. by apply bool_decide_eq_true_2.
      * destruct p; simpl. by rewrite lookup_insert.
      * by destruct p.
Qed.


Lemma handleLogout_run p srv :
  ∃ res srv1,
    Server.logout (Some (UI.jar p)) srv = (Value res, srv1) ∧
    status res = 204%nat ∧
    cookie res = (if truthy_str (UI.jar p !! "jwt")
                  then Some (ClearCookie "jwt" Server.clearOptions)
                  else None) ∧
    UI.handleLogout p srv =
      (UI.setTransactions (Transactions [])
         (UI.setCurrentUser None
            (UI.removeItem "accessToken" (UI.keep_cookie (cookie res) p))),
       srv1).
Proof.
  unfold UI.handleLogout, UI.send, Server.logout. run.
  destruct (truthy_str (UI.jar p !! "jwt")); simpl.
  - destruct (find _ (users srv)); simpl; eexists _, _; by split_and!.
  - eexists _, _. by split_and!.
Qed.

(** X14: [handleLogout] ends the session on both sides: the access token
    is removed from [localStorage], the component is signed out with an
    empty transaction list, the browser is left without a usable [jwt]
    cookie, and in a store that satisfies [store_ok] no user keeps the
    refresh token the cookie carried. *)
Theorem handleLogout_ends_session `{!JwtLaws} p srv p' srv' :
  store_ok env (users srv) →
  UI.handleLogout p srv = (p', srv') →
  UI.localStorage p' !! "accessToken" = None ∧
  UI.currentUser p' = None ∧
  UI.transactions p' = Transactions [] ∧
  truthy_str (UI.jar p' !! "jwt") = false ∧
  (∀ c v, UI.jar p !! "jwt" = Some c → c ≠ "" → v ∈ users srv' →
          User.refreshToken v ≠ Some c).
Proof.
  intros Hok Hrun.
  destruct (handleLogout_run p srv) as (res & srv1 & Hlog & _ & Hck & Heq).
  rewrite Heq in Hrun. injection Hrun as <- <-. rewrite Hck.
  split_and!.
  - destruct (truthy_str _); destruct p; simpl; apply lookup_delete_eq.
  - destruct (truthy_str _); by destruct p.
  - destruct (truthy_str _); by destruct p.
  - destruct (truthy_str (UI.jar p !! "jwt")) eqn:Ht; destruct p; simpl in *.
    + by rewrite lookup_delete_eq.
    + exact Ht.
  - intros c v Hc Hne Hv.
    eapply (logout_clears env ServerJs (Some (UI.jar p)) srv res srv1 c);
      try done.
Qed.

(** X15: [handleLogout] leaves the [currentUser] item of [localStorage]
    in place.  So when the page is loaded again after a logout, the effect
    that runs on mount signs the component in under the saved name again,
    although [localStorage] holds no access token. *)
Theorem logout_then_reload_restores_user today now p srv p' srv' name :
  UI.localStorage p !! "currentUser" = Some name → name ≠ "" →
  UI.handleLogout p srv = (p', srv') →
  UI.localStorage p' !! "currentUser" = Some name ∧
  UI.currentUser p' = None ∧
  ∃ p2 srv2,
    UI.on_mount now (UI.load today p') srv' = (p2, srv2) ∧
    UI.currentUser p2 = Some name ∧
    UI.localStorage p2 !! "accessToken" = None.
Proof.
  intros Hname Hne Hrun.
  destruct (handleLogout_run p srv) as (res & srv1 & _ & _ & _ & Heq).
  rewrite Heq in Hrun. injection Hrun as <- <-.
  set (p1 := UI.setTransactions _ _).
  assert (UI.localStorage p1 !! "currentUser" = Some name) as Hn1.
  { subst p1. destruct (cookie res) as [[]|]; destruct p; simpl in *;
      by rewrite lookup_delete_ne. }
  assert (UI.localStorage p1 !! "accessToken" = None) as Ha1.
  { subst p1. destruct (cookie res) as [[]|]; destruct p; simpl;
      apply lookup_delete_eq. }
  assert (UI.currentUser p1 = None) as Hc1.
  { subst p1. destruct (cookie res) as [[]|]; by destruct p. }
  split_and!; [done..|].
  unfold UI.on_mount. cbn [UI.load UI.localStorage]. rewrite Hn1.
  rewrite bool_decide_eq_false_2 by done.
  destruct (UI.fetchTransactions now _ srv1) as [p2 srv2] eqn:Hfetch.
  exists p2, srv2. split; [done|].
  destruct (fetchTransactions_frame _ _ _ _ _ Hfetch) as (Hl & Hc & _).
  rewrite Hl, Hc. by split.
Qed.


Lemma find_saved_document uid l u txs :
  find (by_id uid) l = Some u →
  find (by_id uid)
    (replace_first (by_id (User._id u)) (set_transactions txs u) l)
  = Some (set_transactions txs u).
Proof. intros Hf. by destruct (own_document_frame l uid u txs Hf) as (_ & ? & _). Qed.

Lemma cast_amount_numeric `{!SchemaLaws} t t' :
  schema.cast t = inr t' → numeric (Tx.amount t') = true.
Proof.
  intros Hcast. apply cast_well_typed in Hcast. unfold well_typed in Hcast.
  by destruct (textual (Tx.type t')), (textual (Tx.category t')),
    (numeric (Tx.amount t')).
Qed.

(** X16: adding through the form.  With no transaction being edited, an
    access token the guard accepts and the user stored, [handleSubmit]
    posts the form as it is, the amount as the text of the input field.
    If the schema rejects these values the page only raises the alert
    [Failed to save transaction] and no user changes.  Otherwise the
    values, as the schema cast them, are stored as a new record at the
    end of the user's collection; the list the component then shows is
    the stored one, the modal is closed and no alert is raised; and the
    amount shown is of the type of the schema's number path, not the
    text the form held. *)
Theorem handleSubmit_adds_record now now' tid p srv uid u :
  UI.editingTransaction p = None →
  middleware.verifyJWT (UI.authorization p) now = inr uid →
  middleware.verifyJWT (UI.authorization p) now' = inr uid →
  find (by_id uid) (users srv) = Some u →
  let supplied :=
    Tx.mk tid (field (UI.formData p) "type")
      (field (UI.formData p) "category") (field (UI.formData p) "amount")
      (field (UI.formData p) "description") (field (UI.formData p) "date") in
  (∀ err, schema.cast supplied = inl err →
     UI.handleSubmit now now' tid p srv
       = (UI.alert "Failed to save transaction" p, log OpFind srv)) ∧
  (∀ t', schema.cast supplied = inr t' →
     ∃ p' srv',
       UI.handleSubmit now now' tid p srv = (p', srv') ∧
       find (by_id uid) (users srv')
         = Some (User.mk (User._id u) (User.username u) (User.password u)
                   (User.refreshToken u)
                   (User.transactions u ++
                      [Tx.mk tid (Tx.type t') (Tx.category t') (Tx.amount t')
                         (Tx.description t') (Tx.date t')])%list) ∧
       UI.transactions p'
         = Transactions
             (User.transactions u ++
                [Tx.mk tid (Tx.type t') (Tx.category t') (Tx.amount t')
                   (Tx.description t') (Tx.date t')])%list ∧
       UI.showAddModal p' = false ∧
       UI.editingTransaction p' = None ∧
       UI.alerts p' = UI.alerts p ∧
       (SchemaLaws → numeric (Tx.amount t') = true)).
Proof.
  intros Hed Hv Hv' Hf supplied.
  unfold UI.handleSubmit, UI.send, App.post_create, App.guarded.
  rewrite Hed, Hv.
  change (Server.create_transaction uid (UI.formData p) tid srv)
    with (create_of ServerJs uid (UI.formData p) tid srv).
  rewrite create_run, Hf. change (pushed tid (UI.formData p)) with supplied.
  rewrite stored_cast. split.
  - intros err ->. cbn [status json cookie UI.keep_cookie].
    by rewrite bool_decide_eq_false_2 by (simpl; lia).
  - intros t' Hcast. rewrite Hcast.
    cbn [status json cookie UI.keep_cookie Tx._id supplied].
    rewrite bool_decide_eq_true_2 by (simpl; lia).
    erewrite fetchTransactions_accepted; [|exact Hv'|].
    2:{ cbn [users]. unfold transactions_push. by apply find_saved_document. }
    eexists _, _. split; [reflexivity|]. cbn [users log].
    split; [by apply (find_saved_document uid)|].
    split_and!; try by destruct p.
    intros Hlaws. by eapply cast_amount_numeric.
Qed.

(** X17: editing through the form, against [backend/server.js].  With an
    accepted access token and the user stored: if the edited record is no
    longer in the user's collection, or the schema rejects the form's
    values, [handleSubmit] only raises the alert [Failed to save
    transaction], the modal stays as it was and no user changes;
    otherwise the record is overwritten in place by the form's values as
    the schema cast them (its date kept when the form's is empty), the
    component shows the stored list, of the same length, and the amount
    of the record is of the type of the schema's number path. *)
Theorem handleSubmit_edits_record now now' tid p srv uid u t :
  UI.editingTransaction p = Some t →
  middleware.verifyJWT (UI.authorization p) now = inr uid →
  middleware.verifyJWT (UI.authorization p) now' = inr uid →
  find (by_id uid) (users srv) = Some u →
  match transactions_id u (Tx._id t) with
  | None =>
      UI.handleSubmit now now' tid p srv
        = (UI.alert "Failed to save transaction" p, log OpFind srv)
  | Some t0 =>
      let supplied :=
        Tx.mk (Tx._id t0) (field (UI.formData p) "type")
          (field (UI.formData p) "category") (field (UI.formData p) "amount")
          (field (UI.formData p) "description")
          (if truthy (field (UI.formData p) "date")
           then field (UI.formData p) "date" else Tx.date t0) in
      (∀ err, schema.cast supplied = inl err →
         UI.handleSubmit now now' tid p srv
           = (UI.alert "Failed to save transaction" p, log OpFind srv)) ∧
      (∀ t', schema.cast supplied = inr t' →
         ∃ p' srv' before after,
           UI.handleSubmit now now' tid p srv = (p', srv') ∧
           User.transactions u = (before ++ t0 :: after)%list ∧
           Forall (λ x, Tx._id x ≠ Tx._id t) before ∧
           UI.transactions p'
             = Transactions
                 (before ++
                    Tx.mk (Tx._id t) (Tx.type t') (Tx.category t')
                      (Tx.amount t') (Tx.description t') (Tx.date t')
                    :: after)%list ∧
           find (by_id uid) (users srv')
             = Some (User.mk (User._id u) (User.username u) (User.password u)
                       (User.refreshToken u)
                       (before ++
                          Tx.mk (Tx._id t) (Tx.type t') (Tx.category t')
                            (Tx.amount t') (Tx.description t') (Tx.date t')
                          :: after)%list) ∧
           UI.showAddModal p' = false ∧
           UI.editingTransaction p' = None ∧
           (SchemaLaws → numeric (Tx.amount t') = true))
  end.
Proof.
  intros Hed Hv Hv' Hf.
  unfold UI.handleSubmit, UI.send, App.put_update, App.guarded.
  rewrite Hed, Hv.
  change (Server.update_transaction uid (Tx._id t) (UI.formData p) srv)
    with (update_of ServerJs uid (Tx._id t) (UI.formData p) srv).
  rewrite update_run, Hf. cbn [update_accepts].
  destruct (transactions_id u (Tx._id t)) as [t0|] eqn:Ht.
  - cbv beta iota zeta.
    set (supplied :=
           Tx.mk (Tx._id t0) (field (UI.formData p) "type")
             (field (UI.formData p) "category")
             (field (UI.formData p) "amount")
             (field (UI.formData p) "description")
             (if truthy (field (UI.formData p) "date")
              then field (UI.formData p) "date" else Tx.date t0)).
    change (updated (UI.formData p) t0) with supplied.
    rewrite stored_cast. unfold transactions_id in Ht.
    destruct (find_split _ _ _ Ht)
      as (before & after & Htxs & Hbefore & Htid & Hrept).
    apply tx_by_id_true in Htid. split.
    + intros err ->. cbn [status json cookie UI.keep_cookie].
      by rewrite bool_decide_eq_false_2 by (simpl; lia).
    + intros t' Hcast. rewrite Hcast.
      cbn [status json cookie UI.keep_cookie Tx._id supplied].
      rewrite bool_decide_eq_true_2 by (simpl; lia).
      erewrite fetchTransactions_accepted; [|exact Hv'|].
      2:{ cbn [users]. unfold assign_transaction.
          by apply find_saved_document. }
      eexists _, _, before, after. split; [reflexivity|]. cbn [users log].
      split; [done|]. split.
      { eapply Forall_impl; [exact Hbefore|]. intros x Hx.
        by apply bool_decide_eq_false_1 in Hx. }
      split.
      { rewrite Hrept, Htid. by destruct p. }
      split.
      { unfold assign_transaction. rewrite Hrept, Htid.
        by apply (find_saved_document uid). }
      split_and!; try by destruct p.
      intros Hlaws. by eapply cast_amount_numeric.
  - cbn [status sendStatus cookie UI.keep_cookie].
    by rewrite bool_decide_eq_false_2 by (simpl; lia).
Qed.

(** X18: [deleteTransaction(id)], with an accepted access token and the
    user stored.  An [id] that is no [_id] of the user's records changes
    nothing on the server and only raises the alert [Delete failed]; with
    the [_id] of a record, the records of that [_id] leave the collection
    and the component shows what is left. *)
Theorem deleteTransaction_by_id now now' id p srv uid u :
  middleware.verifyJWT (UI.authorization p) now = inr uid →
  middleware.verifyJWT (UI.authorization p) now' = inr uid →
  find (by_id uid) (users srv) = Some u →
  match transactions_id u id with
  | None =>
      UI.deleteTransaction now now' id p srv
        = (UI.alert "Delete failed" p, log OpFind srv)
  | Some _ =>
      ∃ p' srv',
        UI.deleteTransaction now now' id p srv = (p', srv') ∧
        UI.transactions p'
          = Transactions
              (filter (λ t, Tx._id t ≠ id) (User.transactions u)) ∧
        find (by_id uid) (users srv')
          = Some (set_transactions
                    (filter (λ t, Tx._id t ≠ id) (User.transactions u)) u) ∧
        UI.alerts p' = UI.alerts p
  end.
Proof.
  intros Hv Hv' Hf.
  unfold UI.deleteTransaction, UI.send, App.delete_delete, App.guarded.
  rewrite Hv, delete_run, Hf.
  destruct (transactions_id u id) as [t0|] eqn:Ht.
  - cbn [status json cookie UI.keep_cookie].
    rewrite bool_decide_eq_true_2 by (simpl; lia).
    assert (Tx._id t0 = id) as Hid.
    { apply find_some in Ht as [_ Hb]. by apply bool_decide_eq_true_1 in Hb. }
    assert (transaction_deleteOne t0 u
            = set_transactions
                (filter (λ t, Tx._id t ≠ id) (User.transactions u)) u) as Hdel.
    { unfold transaction_deleteOne. by rewrite Hid. }
    erewrite fetchTransactions_accepted; [|exact Hv'|].
    2:{ cbn [users]. rewrite Hdel. by apply find_saved_document. }
    eexists _, _. split; [reflexivity|]. cbn [users log].
    rewrite Hdel. split_and!; try by destruct p.
    by apply (find_saved_document uid).
  - cbn [status sendStatus cookie UI.keep_cookie].
    by rewrite bool_decide_eq_false_2 by (simpl; lia).
Qed.

End Frontend.

(** ** The export *)

Lemma replace_quotes_closed_inj a b :
  (UI.replace_quotes a +:+ String UI.quote EmptyString
   = UI.replace_quotes b +:+ String UI.quote EmptyString) → a = b.
Proof.
  revert b. induction a as [|x a IH]; intros [|y b]; simpl; [done| | |].
  - destruct (bool_decide (y = UI.quote)) eqn:Hy; [discriminate|].
    intros [= <- _]. by apply bool_decide_eq_false_1 in Hy.
  - destruct (bool_decide (x = UI.quote)) eqn:Hx; [discriminate|].
    intros [= -> _]. by apply bool_decide_eq_false_1 in Hx.
  - destruct (bool_decide (x = UI.quote)) eqn:Hx;
      destruct (bool_decide (y = UI.quote)) eqn:Hy.
    + apply bool_decide_eq_true_1 in Hx, Hy. subst.
      intros [= H]. f_equal. by apply IH.
    + intros [= <- _]. by apply bool_decide_eq_false_1 in Hy.
    + intros [= -> _]. by apply bool_decide_eq_false_1 in Hx.
    + intros [= -> H]. f_equal. by apply IH.
Qed.

Lemma csv_cell_injective a b :
  UI.csv_cell a = UI.csv_cell b → a = b.
Proof.
  assert (∀ t, UI.includes UI.quote (String UI.quote t) = true) as Hq.
  { intros t. reflexivity. }
  destruct a as [| |x|x|s], b as [| |y|y|t]; simpl; try done;
    try (destruct (_ || _); done).
  destruct (UI.includes "," s || UI.includes UI.quote s) eqn:Hs;
    destruct (UI.includes "," t || UI.includes UI.quote t) eqn:Ht;
    [| | |done].
  - intros [= H]. f_equal. by apply replace_quotes_closed_inj.
  - intros [= <-]. rewrite Hq in Ht. by rewrite orb_true_r in Ht.
  - intros [= ->]. rewrite Hq in Hs. by rewrite orb_true_r in Hs.
Qed.

(** X19: which cells the export tells apart.  Two different strings are
    never written the same way: a string with a comma or a quote is
    wrapped in quotes with its quotes doubled, any other string is
    written as it is.  Other values are written by their string
    conversion, so [undefined], [null] and the empty string are all
    written as nothing, and a number is written like the string of its
    digits; and a row is the same whether its record has no description
    or an empty one. *)
Theorem csv_cell_text (show : Q → string) :
  (∀ a b, UI.cell_text show (JStr a) = UI.cell_text show (JStr b) → a = b) ∧
  UI.cell_text show JUndefined = "" ∧
  UI.cell_text show JNull = "" ∧
  UI.cell_text show (JStr "") = "" ∧
  (∀ q, UI.includes "," (show q) || UI.includes UI.quote (show q) = false →
        UI.cell_text show (JNum q) = UI.cell_text show (JStr (show q))) ∧
  (∀ id type category amount date,
     UI.csv_row show (Tx.mk id type category amount JUndefined date)
     = UI.csv_row show (Tx.mk id type category amount (JStr "") date)).
Proof.
  split_and!; try done.
  - intros a b Heq. unfold UI.cell_text in Heq.
    assert (UI.csv_cell (JStr a) = UI.csv_cell (JStr b)) as Hcell.
    { revert Heq. simpl.
      destruct (UI.includes "," a || UI.includes UI.quote a),
        (UI.includes "," b || UI.includes UI.quote b); simpl; by intros ->. }
    apply csv_cell_injective in Hcell. by injection Hcell.
  - intros q Hq. unfold UI.cell_text. simpl. by rewrite Hq.
Qed.

(** ** Reachable states *)


(** ** The properties above on concrete requests *)

Section MoreExamples.
Import Sample SamplePage.

Lemma sample_guard_sets_no_cookie : guard_sets_no_cookie.
Proof.
  intros header now res. unfold middleware.verifyJWT, guard.
  repeat case_match; by intros [= <-].
Defined.

(** X2, on a concrete request: a body without [pwd]. *)
Lemma credentials_required_witness :
  register_of env ServerJs {| user := Some "alice"; pwd := None |} 1 "s" "c3"
      store0
    = (Value (json 400 (Message "Username and password required")), store0) ∧
  login_of env Part000Js {| user := Some "alice"; pwd := None |} 1 store0
    = (Value (json 400 (Message "Username and password are required.")),
       store0).
Proof.
  split.
  - apply (credentials_required env ServerJs
             {| user := Some "alice"; pwd := None |} 1 "s" "c3" store0).
    right. reflexivity.
  - apply (credentials_required env Part000Js
             {| user := Some "alice"; pwd := None |} 1 "s" "c3" store0).
    right. reflexivity.
Defined.

(** X3, on concrete requests: carol registers at time 1 and logs in at
    time 2. *)
Lemma register_then_login_witness :
  ∃ r2 st2,
    login_of env ServerJs {| user := Some "carol"; pwd := Some "pw3" |} 2
      (register_of env ServerJs {| user := Some "carol"; pwd := Some "pw3" |}
         1 "s" "c3" store0).2 = (Value r2, st2) ∧
    status r2 = 200%nat ∧
    body r2 = AccessToken (sign "c3" "a-secret" "15m" 2).
Proof.
  edestruct (register_then_login env ServerJs
               {| user := Some "carol"; pwd := Some "pw3" |} 1 "s" "c3" 2
               store0) as (r2 & st2 & Hrun & Hst & Hbody & _);
    [vm_compute; reflexivity|reflexivity|vm_compute; reflexivity|].
  exists r2, st2. split; [exact Hrun|]. split; [exact Hst|exact Hbody].
Defined.

(** X4, on concrete requests: alice logs in at time 9 and refreshes at
    time 100 with the cookie she was handed. *)
Lemma login_then_refresh_witness :
  store_ok env (users store0) ∧
  ∃ st3,
    refresh_of env ServerJs (jar (sign "a1" "r-secret" "1d" 9)) 100
      (login_of env ServerJs {| user := Some "alice"; pwd := Some "pw" |} 9
         store0).2
    = (Value (json 200 (AccessToken (sign "a1" "a-secret" "15m" 100))), st3).
Proof.
  split; [exact store0_ok|].
  pose proof (λ r1 st1,
                login_then_refresh env ServerJs
                  {| user := Some "alice"; pwd := Some "pw" |} 9 store0 r1 st1
                  alice (jar (sign "a1" "r-secret" "1d" 9)) 100 store0_ok)
    as Hthen.
  edestruct Hthen as (st3 & Hrun & _);
    [vm_compute; reflexivity|reflexivity|reflexivity|reflexivity
    |vm_compute; discriminate|reflexivity|].
  exists st3. exact Hrun.
Defined.

(** X5, on a concrete request: alice's login changes no credentials. *)
Lemma requests_keep_credentials_witness :
  NoDup (user_ids (users store0)) ∧
  ∃ new,
    map credentials_of
      (users (login_of env ServerJs
                {| user := Some "alice"; pwd := Some "pw" |} 9 store0).2)
    = (map credentials_of (users store0) ++ new)%list ∧
    (length new ≤ 1)%nat.
Proof.
  assert (NoDup (user_ids (users store0))) as Hnd by apply store0_ok.
  split; [exact Hnd|].
  apply (requests_keep_credentials env ServerJs store0 _ Hnd).
  eapply step_login. apply surjective_pairing.
Defined.


(** X7, on a concrete request: alice adds a record; bob's document is
    found as before. *)
Lemma transaction_requests_frame_witness :
  find (by_id "b2") (users (create_of ServerJs "a1" lunch "t9" store0).2)
    = Some bob.
Proof.
  destruct (transaction_requests_frame ServerJs "a1" "t1" lunch "t9" store0
              (create_of ServerJs "a1" lunch "t9" store0).1
              (create_of ServerJs "a1" lunch "t9" store0).2)
    as (Hother & _).
  - left. apply surjective_pairing.
  - rewrite (Hother "b2"); [reflexivity|discriminate].
Defined.

(** X8, on a concrete request: alice's login keeps her record. *)
Lemma session_requests_keep_transactions_witness :
  ∃ u',
    find (by_id "a1")
      (users (login_of env ServerJs
                {| user := Some "alice"; pwd := Some "pw" |} 9 store0).2)
      = Some u' ∧
    User.transactions u' = User.transactions alice.
Proof.
  apply (session_requests_keep_transactions env ServerJs
           {| user := Some "alice"; pwd := Some "pw" |} 9 "s" "c3" None store0
           (login_of env ServerJs
              {| user := Some "alice"; pwd := Some "pw" |} 9 store0).1
           (login_of env ServerJs
              {| user := Some "alice"; pwd := Some "pw" |} 9 store0).2).
  - apply store0_ok.
  - right. left. apply surjective_pairing.
  - reflexivity.
Defined.

(** X10, on concrete requests: bob posts the form of a lunch; the amount
    sent as the text [12.5] is stored as the number.  A body whose amount
    is no number is answered 500. *)
Lemma create_outcomes_witness :
  (∃ st',
     create_of ServerJs "b2" lunch_form "t9" store0
       = (Value (json 201 (Message "Transaction added")), st') ∧
     find (by_id "b2") (users st')
       = Some (User.mk "b2" "bob" "s$hunter2" None
                 (User.transactions bob ++
                    [Tx.mk "t9" (JStr "expense") (JStr "Food")
                       (JNum (25 # 2)) (JStr "lunch")
                       (JStr "2024-03-01")])%list)) ∧
  create_of Part000Js "b2" broken_form "t9" store0
    = (Value (json 500 (Error "User validation failed")), log OpFind store0).
Proof.
  split.
  - destruct (create_outcomes ServerJs "b2" lunch_form "t9" store0)
      as [_ Hfound].
    pose proof (Hfound bob eq_refl) as Hbob. cbv zeta in Hbob.
    destruct Hbob as (_ & Hstore & _).
    destruct (Hstore (Tx.mk "t9" (JStr "expense") (JStr "Food")
                        (JNum (25 # 2)) (JStr "lunch") (JStr "2024-03-01")))
      as (st' & others & rest & Hrun & _ & _ & Hfind);
      [vm_compute; reflexivity|].
    exists st'. split; [exact Hrun|exact Hfind].
  - destruct (create_outcomes Part000Js "b2" broken_form "t9" store0)
      as [_ Hfound].
    pose proof (Hfound bob eq_refl) as Hbob. cbv zeta in Hbob.
    destruct Hbob as (Hrejected & _).
    apply Hrejected. vm_compute. reflexivity.
Defined.

(** X11, on concrete requests: alice deletes [t1] twice. *)
Lemma delete_then_delete_witness :
  ∃ st1 st2,
    delete_of ServerJs "a1" "t1" store0
      = (Value (json 200 (Message "Transaction deleted")), st1) ∧
    delete_of ServerJs "a1" "t1" st1 = (Value (sendStatus 404), st2).
Proof.
  destruct (delete_then_delete ServerJs "a1" "t1" store0 alice
              (Tx.mk "t1" (JStr "expense") (JStr "Food") (JNum (25 # 2))
                 (JStr "lunch") (JStr "2024-03-01")))
    as (st1 & u1 & Hrun & _ & _ & _ & st2 & Hrun2 & _).
  - reflexivity.
  - reflexivity.
  - compute_done.
  - exists st1, st2. split; [exact Hrun|exact Hrun2].
Defined.


(** X13, on a concrete page: alice signs in at time 9; the page ends up
    signed in, with the access token in [localStorage] and the stored
    refresh token in the cookie jar. *)
Lemma handleAuth_outcome_witness :
  guard_sets_no_cookie ∧
  ∃ p' srv',
    UI.handleAuth env 9 10 "s" "c3" (visitor "alice" "pw" true) store0
      = (p', srv') ∧
    UI.currentUser p' = Some "alice" ∧
    UI.localStorage p' !! "accessToken" = Some (sign "a1" "a-secret" "15m" 9) ∧
    UI.jar p' !! "jwt" = Some (sign "a1" "r-secret" "1d" 9) ∧
    find (by_refreshToken (sign "a1" "r-secret" "1d" 9)) (users srv')
      = Some (set_refreshToken (Some (sign "a1" "r-secret" "1d" 9)) alice).
Proof.
  split; [exact sample_guard_sets_no_cookie|].
  destruct (UI.handleAuth env 9 10 "s" "c3" (visitor "alice" "pw" true) store0)
    as [p' srv'] eqn:Hrun.
  exists p', srv'. split; [reflexivity|].
  destruct (handleAuth_outcome env 9 10 "s" "c3" (visitor "alice" "pw" true)
              store0 p' srv' sample_guard_sets_no_cookie Hrun)
    as [(_ & Hcu & _)|(u & Hfind & Htok & _ & Hcu & Hjar & Hrt & _)].
  - vm_compute in Hrun. injection Hrun as <- <-. discriminate Hcu.
  - assert (u = set_refreshToken (Some (sign "a1" "r-secret" "1d" 9)) alice)
      as ->.
    { vm_compute in Hrun. injection Hrun as <- <-.
      vm_compute in Hfind. injection Hfind as <-. reflexivity. }
    split; [exact Hcu|]. split; [exact Htok|]. split; [by rewrite Hjar|].
    vm_compute in Hrun. injection Hrun as <- <-. reflexivity.
Defined.

(** X14, on a concrete page: alice logs out. *)
Lemma handleLogout_ends_session_witness :
  store_ok env (users store0) ∧
  ∃ p' srv',
    UI.handleLogout (alice_page lunch None) store0 = (p', srv') ∧
    UI.localStorage p' !! "accessToken" = None ∧
    UI.currentUser p' = None ∧
    truthy_str (UI.jar p' !! "jwt") = false ∧
    ∀ v, v ∈ users srv' → User.refreshToken v ≠ Some cookie5.
Proof.
  split; [exact store0_ok|].
  destruct (UI.handleLogout (alice_page lunch None) store0)
    as [p' srv'] eqn:Hrun.
  exists p', srv'. split; [reflexivity|].
  destruct (handleLogout_ends_session env (alice_page lunch None) store0
              p' srv' store0_ok Hrun) as (Htok & Hcu & _ & Hjar & Hsrv).
  split; [exact Htok|]. split; [exact Hcu|]. split; [exact Hjar|].
  intros v. apply (Hsrv cookie5 v); [reflexivity|discriminate].
Defined.

(** X15, on a concrete page: alice logs out and loads the page again at
    time 20. *)
Lemma logout_then_reload_restores_user_witness :
  ∃ p' srv' p2 srv2,
    UI.handleLogout (alice_page lunch None) store0 = (p', srv') ∧
    UI.currentUser p' = None ∧
    UI.on_mount 20 (UI.load "2024-03-02" p') srv' = (p2, srv2) ∧
    UI.currentUser p2 = Some "alice" ∧
    UI.localStorage p2 !! "accessToken" = None.
Proof.
  destruct (UI.handleLogout (alice_page lunch None) store0)
    as [p' srv'] eqn:Hrun.
  destruct (logout_then_reload_restores_user "2024-03-02" 20
              (alice_page lunch None) store0 p' srv' "alice")
    as (_ & Hout & p2 & srv2 & Hmount & Hcu & Htok);
    [reflexivity|discriminate|exact Hrun|].
  exists p', srv', p2, srv2. by split_and!.
Defined.

(** X16, on a concrete page: alice adds a lunch at time 6; the amount
    typed as [12.5] is stored and shown as the number, and a form whose
    amount is no number only raises the alert. *)
Lemma handleSubmit_adds_record_witness :
  (∃ p' srv',
     UI.handleSubmit 6 7 "t9" (alice_page lunch_form None) store0
       = (p', srv') ∧
     UI.transactions p'
       = Transactions
           (User.transactions alice ++
              [Tx.mk "t9" (JStr "expense") (JStr "Food") (JNum (25 # 2))
                 (JStr "lunch") (JStr "2024-03-01")])%list ∧
     UI.showAddModal p' = false) ∧
  UI.handleSubmit 6 7 "t9" (alice_page broken_form None) store0
    = (UI.alert "Failed to save transaction" (alice_page broken_form None),
       log OpFind store0).
Proof.
  split.
  - pose proof (handleSubmit_adds_record 6 7 "t9"
                  (alice_page lunch_form None) store0 "a1" alice) as Hadd.
    cbv zeta in Hadd.
    destruct Hadd as [_ Hok];
      [reflexivity|vm_compute; reflexivity|vm_compute; reflexivity
      |reflexivity|].
    destruct (Hok (Tx.mk "t9" (JStr "expense") (JStr "Food") (JNum (25 # 2))
                     (JStr "lunch") (JStr "2024-03-01")))
      as (p' & srv' & Hrun & _ & Htx & Hmodal & _); [vm_compute; reflexivity|].
    exists p', srv'. split; [exact Hrun|]. split; [exact Htx|exact Hmodal].
  - pose proof (handleSubmit_adds_record 6 7 "t9"
                  (alice_page broken_form None) store0 "a1" alice) as Hadd.
    cbv zeta in Hadd.
    destruct Hadd as [Hrejected _];
      [reflexivity|vm_compute; reflexivity|vm_compute; reflexivity
      |reflexivity|].
    apply (Hrejected "User validation failed"). vm_compute. reflexivity.
Defined.

(** X17, on a concrete page: alice edits [t1] with a form that leaves the
    description and the date empty; the amount typed as [14] is stored as
    the number and the date is kept. *)
Lemma handleSubmit_edits_record_witness :
  ∃ p' srv',
    UI.handleSubmit 6 7 "t9"
      (alice_page relabel_form
         (Some (Tx.mk "t1" (JStr "expense") (JStr "Food") (JNum (25 # 2))
                  (JStr "lunch") (JStr "2024-03-01")))) store0 = (p', srv') ∧
    UI.transactions p'
      = Transactions
          [Tx.mk "t1" (JStr "expense") (JStr "Dining") (JNum (14 # 1))
             (JStr "") (JStr "2024-03-01")] ∧
    UI.showAddModal p' = false.
Proof.
  pose proof (handleSubmit_edits_record 6 7 "t9"
                (alice_page relabel_form
                   (Some (Tx.mk "t1" (JStr "expense") (JStr "Food")
                            (JNum (25 # 2)) (JStr "lunch")
                            (JStr "2024-03-01")))) store0 "a1" alice
                (Tx.mk "t1" (JStr "expense") (JStr "Food") (JNum (25 # 2))
                   (JStr "lunch") (JStr "2024-03-01"))) as Hedit.
  cbn [Tx._id] in Hedit.
  change (transactions_id alice "t1")
    with (Some (Tx.mk "t1" (JStr "expense") (JStr "Food") (JNum (25 # 2))
                  (JStr "lunch") (JStr "2024-03-01"))) in Hedit.
  cbv beta iota zeta in Hedit.
  destruct Hedit as [_ Hok];
    [reflexivity|vm_compute; reflexivity|vm_compute; reflexivity
    |reflexivity|].
  destruct (Hok (Tx.mk "t1" (JStr "expense") (JStr "Dining") (JNum (14 # 1))
                   (JStr "") (JStr "2024-03-01")))
    as (p' & srv' & before & after & Hrun & Htxs & _ & Htx & _ & Hmodal & _);
    [vm_compute; reflexivity|].
  exists p', srv'. split; [exact Hrun|]. split; [|exact Hmodal].
  rewrite Htx. destruct before as [|x before]; simpl in Htxs.
  - by injection Htxs as <-.
  - injection Htxs as _ Htxs. by destruct before.
Defined.

(** X18, on a concrete page: alice deletes [t1], and asks for a record
    that is not hers. *)
Lemma deleteTransaction_by_id_witness :
  (∃ p' srv',
     UI.deleteTransaction 6 7 "t1" (alice_page lunch None) store0
       = (p', srv') ∧
     UI.transactions p' = Transactions []) ∧
  UI.deleteTransaction 6 7 "t2" (alice_page lunch None) store0
    = (UI.alert "Delete failed" (alice_page lunch None), log OpFind store0).
Proof.
  split.
  - pose proof (deleteTransaction_by_id 6 7 "t1" (alice_page lunch None)
                  store0 "a1" alice) as Hdel.
    change (transactions_id alice "t1")
      with (Some (Tx.mk "t1" (JStr "expense") (JStr "Food") (JNum (25 # 2))
                    (JStr "lunch") (JStr "2024-03-01"))) in Hdel.
    destruct Hdel as (p' & srv' & Hrun & Htx & _);
      [vm_compute; reflexivity|vm_compute; reflexivity|reflexivity|].
    exists p', srv'. split; [exact Hrun|exact Htx].
  - apply (deleteTransaction_by_id 6 7 "t2" (alice_page lunch None) store0
             "a1" alice);
      [vm_compute; reflexivity|vm_compute; reflexivity|reflexivity].
Defined.


End MoreExamples.
